(** * Proof-of-Training: a shallow embedding of the consensus core

    The development follows the Python sources of the repository:
    - [network/transaction.py], [users/*.py]: users and transactions;
    - [simulation/hashable_serializable_message.py], [pos_messages/*.py],
      [poa_messages/*.py]: the hashable, signable messages and the two books;
    - [blockchain/block.py], [blockchain/blockchain.py]: blocks and the chain;
    - [employee/employee.py]: the node and its inbound dispatch.

    Python objects are records, dictionaries are [gmap]s, exceptions are the
    [Raise] branch of [result].  What the sources obtain from libraries
    (hashlib, pickle, cryptography, random, the iteration order of [set], the
    wall clock, dataclass [repr]) is collected in the class [PyEnv]. *)

From stdpp Require Import gmap strings list pretty.
From Stdlib Require Import Strings.Ascii Strings.Byte QArith.

#[local] Open Scope string_scope.
#[local] Open Scope nat_scope.

(** ** Python values *)

Inductive exn : Type :=
  | KeyError
  | TypeError
  | IndexError
  | ValueError
  | AttributeError.

Inductive result (A : Type) : Type :=
  | Ok (a : A)
  | Raise (e : exn).

Arguments Ok {A} a.
Arguments Raise {A} e.

Definition bytes : Type := list byte.

#[global] Instance byte_eq_decision : EqDecision byte := byte_eq_dec.

(** [str.encode()]: a [string] already is its UTF-8 byte sequence. *)
Definition encode (s : string) : bytes := String.list_byte_of_string s.

Definition hex_digit (n : N) : ascii :=
  default "0"%char (String.list_ascii_of_string "0123456789abcdef" !! N.to_nat n).

(** [bytes.hex()] *)
Definition bytes_hex (bs : bytes) : string :=
  foldr (fun b acc =>
           String (hex_digit (Byte.to_N b / 16))
                  (String (hex_digit (Byte.to_N b mod 16)) acc)) "" bs.

(** [str(x)] of an optional object: [None] prints as "None". *)
Definition str_opt {A} (str : A -> string) (o : option A) : string :=
  match o with
  | Some x => str x
  | None => "None"
  end.

(** ["".join(str(x) for x in xs)] *)
Definition join_str {A} (str : A -> string) (xs : list A) : string :=
  foldr (fun x acc => str x +:+ acc) "" xs.

(** [format(byte, "08b")], most significant bit first. *)
Definition byte_bits (b : byte) : list bool :=
  map (fun i => N.testbit (Byte.to_N b) i) [7; 6; 5; 4; 3; 2; 1; 0]%N.

Fixpoint leading_zeros (bits : list bool) : nat :=
  match bits with
  | false :: rest => S (leading_zeros rest)
  | _ => 0
  end.

(** [network/cryptographic_utils.py], [count_leading_zeros] *)
Definition count_leading_zeros (bytes_obj : bytes) : nat :=
  leading_zeros (concat (map byte_bits bytes_obj)).

(** ** Constants ([simulation/constants.py]) *)

Definition EMPLOYEES_NUM : nat := 11.
Definition STAKEHOLDERS_NUM : nat := 3.
Definition TARGET_BLOCKCHAIN_LENGTH : nat := 6.
Definition EMPLOYER_CONFIDENCE : nat := 3.
Definition TD_COINSTAKE : Z := (2 ^ 252)%Z.
Definition BH_COINSTAKE : Z := (2 ^ 251)%Z.

(** ** Users and transactions *)

(** Python numbers used as amounts and balances are only carried around and
    printed; rationals stand for them. *)
Definition Amount : Type := Q.

Inductive UserClass : Type :=
  | PlainUser
  | CoinbaseUserOf (block_index : nat)
  | EmployeeUserOf (employee_name : string).

Record User : Type := mkUser {
  user_class : UserClass;
  user_name : string;
  balance : Amount;
  user_private_key : bytes;
  user_public_key : bytes;
}.

Record Transaction : Type := mkTransaction {
  sender : User;
  amount : Amount;
  receiver : User;
  employee_name : option string;
  tx_timestamp : string;
  id : string;
}.

(** ** Messages *)

Record Model : Type := mkModel {
  model_id : string;
  current_iteration : Z;
  hashed_serialization : string;
}.

(** [ExampleModel.get_id_s] *)
Definition get_id_s (m : Model) : string :=
  model_id m +:+ ":" +:+ pretty (current_iteration m).

Record TrainingDeclaration : Type := mkTD {
  td_id_m : string;
  td_id_s : string;
  td_public_key : bytes;
  td_timestamp : string;
  td_signature : option bytes;
  td_coinstake : Z;
  training_secret_commitment : bytes;
  h_s : string;
}.

Record BlockHeader : Type := mkBH {
  bh_id_m : string;
  bh_id_s : string;
  bh_public_key : bytes;
  bh_timestamp : string;
  bh_signature : option bytes;
  bh_coinstake : Z;
  parent_block_hash : bytes;
  block_index : nat;
  bh_training_secret : bytes;
  training_declarations : list TrainingDeclaration;
}.

Record StakeholderSignature : Type := mkSS {
  ss_block_header : BlockHeader;
  block_header_id : string;
  ss_public_key : bytes;
  ss_signature : bytes;
}.

Record WrappedBlock : Type := mkWB {
  wb_id_m : string;
  wb_id_s : string;
  wb_public_key : bytes;
  wb_timestamp : string;
  wb_signature : option bytes;
  wb_block_header : BlockHeader;
  wb_coinbase_transaction : Transaction;
  wb_transactions : list Transaction;
  wb_stakeholders_signatures : list StakeholderSignature;
}.

(** ** Blocks *)

Record Block : Type := mkBlock {
  index : nat;
  previous_hash : bytes;
  timestamp : string;
  block_header : option BlockHeader;
  coinbase_transaction : option Transaction;
  transactions : list Transaction;
  stakeholders_signatures : option (list StakeholderSignature);
  hash : bytes;
}.

Record Blockchain : Type := mkBlockchain {
  owner_name : string;
  chain : list Block;
  all_transactions : list Transaction;
}.

(** ** What the libraries provide *)

Class PyEnv : Type := {
  (** [hashlib.sha256(data).digest()] *)
  sha256_digest : bytes -> bytes;
  (** [pickle.dumps] on the three message classes *)
  pickle_td : TrainingDeclaration -> bytes;
  pickle_bh : BlockHeader -> bytes;
  pickle_wb : WrappedBlock -> bytes;
  (** Ed25519; keys are kept in their PEM byte encoding.
      [load_pem_public_key key] is how decoding the key ends: it raises on
      bytes that are no PEM public key.  [ed25519_verify key message s] is
      decoding the key and verifying the signature [s] with it, so it raises
      what [load_pem_public_key] raises. *)
  ed25519_public_key : bytes -> bytes;
  ed25519_sign : bytes -> bytes -> bytes;
  load_pem_public_key : bytes -> result unit;
  ed25519_verify : bytes -> bytes -> bytes -> result bool;
  (** [math.log2] and the floating-point reward formula of [CoinbaseUser] *)
  math_log2 : Z -> Q;
  coinbase_reward : nat -> Amount;
  (** dataclass [repr]s and [str] of a number *)
  str_User : User -> string;
  str_amount : Amount -> string;
  str_Transaction : Transaction -> string;
  str_BlockHeader : BlockHeader -> string;
  str_StakeholderSignature : StakeholderSignature -> string;
  (** [list(set(l))]: the iteration order of the set built from [l].  A set
      is laid out by the hashes of its elements, and the hash of a string
      depends on the seed the process drew when it started (the first
      argument), so two processes can list the same set in different orders. *)
  set_iter_names : nat -> list (option string) -> list (option string);
  set_iter_transactions : nat -> list Transaction -> list Transaction;
  (** the module-level generator of [random] *)
  prng : Type;
  random_seed : bytes -> prng;
  random_draw : prng -> list (option string) -> nat -> list (option string) * prng;
  (** the k-th reading of [datetime.now().strftime(...)] and the k-th pair of
      [generate_key_pair_bytes] in a process *)
  datetime_now : nat -> string;
  generate_key_pair_bytes : nat -> bytes * bytes;
}.

Section Protocol.

Context {env : PyEnv}.

(** The ambient state of a process: how often the clock was read, how many key
    pairs were generated, the state of the global generator, and the seed of
    the process's string hash, which is drawn when the interpreter starts and
    never changes. *)
Record World : Type := mkWorld {
  ticks : nat;
  keys_generated : nat;
  rng : prng;
  hash_seed : nat;
}.

Definition read_clock (w : World) : string * World :=
  (datetime_now (ticks w),
   {| ticks := S (ticks w); keys_generated := keys_generated w; rng := rng w;
      hash_seed := hash_seed w |}).

Definition fresh_key_pair (w : World) : (bytes * bytes) * World :=
  (generate_key_pair_bytes (keys_generated w),
   {| ticks := ticks w; keys_generated := S (keys_generated w); rng := rng w;
      hash_seed := hash_seed w |}).

Definition set_rng (g : prng) (w : World) : World :=
  {| ticks := ticks w; keys_generated := keys_generated w; rng := g;
     hash_seed := hash_seed w |}.

(** *** [network/transaction.py] *)

(** [hashlib.sha256(data).hexdigest()] *)
Definition sha256_hexdigest (data : bytes) : string := bytes_hex (sha256_digest data).

(** [Transaction.__init__] *)
Definition Transaction_init (sender : User) (amount : Amount) (receiver : User)
    (employee_name : option string) (w : World) : Transaction * World :=
  let (now, w1) := read_clock w in
  let data := encode (str_User sender +:+ str_amount amount +:+ str_User receiver +:+ now) in
  ({| sender := sender; amount := amount; receiver := receiver;
      employee_name := employee_name; tx_timestamp := now;
      id := sha256_hexdigest data |}, w1).

(** [Transaction.__eq__] *)
Definition Transaction_eq (t other : Transaction) : bool :=
  bool_decide (id t = id other).

(** [Transaction.set_employee_name] *)
Definition set_employee_name (t : Transaction) (name : option string) : Transaction :=
  {| sender := sender t; amount := amount t; receiver := receiver t;
     employee_name := name; tx_timestamp := tx_timestamp t; id := id t |}.

(** *** [users/user.py], [users/coinbase_user.py], [users/employee_user.py] *)

(** [User.__init__] and the constructors of its subclasses *)
Definition User_init (cls : UserClass) (name : string) (balance : Amount) (w : World)
    : User * World :=
  let '((sk, pk), w1) := fresh_key_pair w in
  ({| user_class := cls; user_name := name; balance := balance;
      user_private_key := sk; user_public_key := pk |}, w1).

Definition CoinbaseUser_init (block_index : nat) (w : World) : User * World :=
  User_init (CoinbaseUserOf block_index) "Coinbase User" 0%Q w.

Definition EmployeeUser_init (employee_name : string) (w : World) : User * World :=
  User_init (EmployeeUserOf employee_name) employee_name 0%Q w.

(** [create_transaction], dispatched on the class of [self] *)
Definition create_transaction (self : User) (amount : Amount) (receiver : User)
    (employee_name : option string) (w : World) : Transaction * World :=
  match user_class self with
  | PlainUser => Transaction_init self amount receiver employee_name w
  | EmployeeUserOf name => Transaction_init self amount receiver (Some name) w
  | CoinbaseUserOf n =>
      Transaction_init self (coinbase_reward n) receiver (Some (user_name receiver)) w
  end.

(** *** [blockchain/block.py] *)

(** The string hashed by [Block.calculate_hash].  The Python expression is
    [a + ... + join(txs) if transactions else "" + join(sigs) if sigs else ""],
    which the conditional operator groups as
    [(a + ... + join(txs)) if transactions else (("" + join(sigs)) if sigs else "")]. *)
Definition block_data_of (index : nat) (previous_hash : bytes) (timestamp : string)
    (block_header : option BlockHeader) (coinbase_transaction : option Transaction)
    (transactions : list Transaction)
    (stakeholders_signatures : option (list StakeholderSignature)) : string :=
  match transactions with
  | _ :: _ =>
      pretty index +:+ bytes_hex previous_hash +:+ timestamp
        +:+ str_opt str_BlockHeader block_header
        +:+ str_opt str_Transaction coinbase_transaction
        +:+ join_str str_Transaction transactions
  | [] =>
      match stakeholders_signatures with
      | Some (s :: sigs) => "" +:+ join_str str_StakeholderSignature (s :: sigs)
      | _ => ""
      end
  end.

Definition block_data (b : Block) : string :=
  block_data_of (index b) (previous_hash b) (timestamp b) (block_header b)
    (coinbase_transaction b) (transactions b) (stakeholders_signatures b).

(** [Block.calculate_hash] *)
Definition Block_calculate_hash (b : Block) : bytes :=
  sha256_digest (encode (block_data b)).

(** [Block.__init__] *)
Definition Block_init (index : nat) (previous_hash : bytes) (timestamp : string)
    (block_header : option BlockHeader) (coinbase_transaction : option Transaction)
    (transactions : list Transaction)
    (stakeholders_signatures : option (list StakeholderSignature)) : Block :=
  {| index := index; previous_hash := previous_hash; timestamp := timestamp;
     block_header := block_header; coinbase_transaction := coinbase_transaction;
     transactions := transactions; stakeholders_signatures := stakeholders_signatures;
     hash := sha256_digest (encode (block_data_of index previous_hash timestamp
               block_header coinbase_transaction transactions stakeholders_signatures)) |}.

(** The hashed string as the data model documents it: the string forms of all
    fields but [hash], the transactions and the signatures in order. *)
Definition block_data_documented (b : Block) : string :=
  pretty (index b) +:+ bytes_hex (previous_hash b) +:+ timestamp b
    +:+ str_opt str_BlockHeader (block_header b)
    +:+ str_opt str_Transaction (coinbase_transaction b)
    +:+ join_str str_Transaction (transactions b)
    +:+ join_str str_StakeholderSignature (default [] (stakeholders_signatures b)).

(** *** [simulation/hashable_serializable_message.py] *)

(** The interface of [HashSignSerialPoTMessage]: the [signature] and
    [public_key] attributes of a message object and its pickle. *)
Class HashSignSerial (M : Type) : Type := {
  signature : M -> option bytes;
  with_signature : option bytes -> M -> M;
  public_key : M -> bytes;
  with_timestamp : string -> M -> M;
  pickle_dumps : M -> bytes;
}.

#[export] Instance TrainingDeclaration_message : HashSignSerial TrainingDeclaration := {
  signature := td_signature;
  with_signature s m :=
    {| td_id_m := td_id_m m; td_id_s := td_id_s m; td_public_key := td_public_key m;
       td_timestamp := td_timestamp m; td_signature := s; td_coinstake := td_coinstake m;
       training_secret_commitment := training_secret_commitment m; h_s := h_s m |};
  public_key := td_public_key;
  with_timestamp t m :=
    {| td_id_m := td_id_m m; td_id_s := td_id_s m; td_public_key := td_public_key m;
       td_timestamp := t; td_signature := td_signature m; td_coinstake := td_coinstake m;
       training_secret_commitment := training_secret_commitment m; h_s := h_s m |};
  pickle_dumps := pickle_td;
}.

#[export] Instance BlockHeader_message : HashSignSerial BlockHeader := {
  signature := bh_signature;
  with_signature s m :=
    {| bh_id_m := bh_id_m m; bh_id_s := bh_id_s m; bh_public_key := bh_public_key m;
       bh_timestamp := bh_timestamp m; bh_signature := s; bh_coinstake := bh_coinstake m;
       parent_block_hash := parent_block_hash m; block_index := block_index m;
       bh_training_secret := bh_training_secret m;
       training_declarations := training_declarations m |};
  public_key := bh_public_key;
  with_timestamp t m :=
    {| bh_id_m := bh_id_m m; bh_id_s := bh_id_s m; bh_public_key := bh_public_key m;
       bh_timestamp := t; bh_signature := bh_signature m; bh_coinstake := bh_coinstake m;
       parent_block_hash := parent_block_hash m; block_index := block_index m;
       bh_training_secret := bh_training_secret m;
       training_declarations := training_declarations m |};
  pickle_dumps := pickle_bh;
}.

#[export] Instance WrappedBlock_message : HashSignSerial WrappedBlock := {
  signature := wb_signature;
  with_signature s m :=
    {| wb_id_m := wb_id_m m; wb_id_s := wb_id_s m; wb_public_key := wb_public_key m;
       wb_timestamp := wb_timestamp m; wb_signature := s;
       wb_block_header := wb_block_header m;
       wb_coinbase_transaction := wb_coinbase_transaction m;
       wb_transactions := wb_transactions m;
       wb_stakeholders_signatures := wb_stakeholders_signatures m |};
  public_key := wb_public_key;
  with_timestamp t m :=
    {| wb_id_m := wb_id_m m; wb_id_s := wb_id_s m; wb_public_key := wb_public_key m;
       wb_timestamp := t; wb_signature := wb_signature m;
       wb_block_header := wb_block_header m;
       wb_coinbase_transaction := wb_coinbase_transaction m;
       wb_transactions := wb_transactions m;
       wb_stakeholders_signatures := wb_stakeholders_signatures m |};
  pickle_dumps := pickle_wb;
}.

(** [sign_message] and [verify_signature] of [network/cryptographic_utils.py].
    [verify_signature] decodes the key first, which raises on bytes that are
    no key, and then calls [public_key.verify], which raises [TypeError] on a
    [signature] attribute that is still [None]; with a signature that is
    there, the two steps are [ed25519_verify]. *)
Definition sign_message (private_key message : bytes) : bytes :=
  ed25519_sign private_key message.

Definition verify_signature (public_key message : bytes) (signature : option bytes)
    : result bool :=
  match signature with
  | None =>
      match load_pem_public_key public_key with
      | Raise x => Raise x
      | Ok _ => Raise TypeError
      end
  | Some s => ed25519_verify public_key message s
  end.

(** [dumps_without_sig]: the method returns the pickle and leaves the object
    in the state returned as second component. *)
Definition dumps_without_sig {M} `{HashSignSerial M} (self : M) : bytes * M :=
  let signature_tmp := signature self in
  let self1 := with_signature None self in
  let data := pickle_dumps self1 in
  let self2 := with_signature signature_tmp self1 in
  (data, self2).

(** [calculate_hash] *)
Definition calculate_hash {M} `{HashSignSerial M} (self : M) : bytes * M :=
  let (data, self1) := dumps_without_sig self in
  (sha256_digest data, self1).

(** [set_signature] *)
Definition set_signature {M} `{HashSignSerial M} (self : M) (s : bytes) : M :=
  with_signature (Some s) self.

(** [sign]: signs [pickle.dumps(self)], the object as it is. *)
Definition sign {M} `{HashSignSerial M} (self : M) (private_key : bytes) : M :=
  let s := sign_message private_key (pickle_dumps self) in
  set_signature self s.

(** [set_timestamp] *)
Definition set_timestamp {M} `{HashSignSerial M} (self : M) (t : string) : M :=
  with_timestamp t self.

(** [get_id]: [calculate_hash().hex()[:8]] *)
Definition get_id {M} `{HashSignSerial M} (self : M) : string * M :=
  let (h, self1) := calculate_hash self in
  (String.substring 0 8 (bytes_hex h), self1).

(** [HashSignSerialPoTMessage.__init__]: the fields every message starts with. *)
Definition message_init (model : Model) (public_key : bytes) (w : World)
    : (string * string * bytes * string) * World :=
  let (now, w1) := read_clock w in
  ((model_id model, get_id_s model, public_key, now), w1).

(** *** [blockchain/blockchain_utils.py], [pos_messages/pos_message.py] *)

(** [math.log2] raises [ValueError] on a number that is not positive. *)
Definition pos_td_difficulty (coinstake : Z) : result Q :=
  if (coinstake <=? 0)%Z then Raise ValueError
  else Ok (256 - math_log2 coinstake)%Q.

Definition pos_bh_difficulty (coinstake : Z) : result Q :=
  if (coinstake <=? 0)%Z then Raise ValueError
  else Ok (256 - math_log2 coinstake)%Q.

(** The hash is computed first and the difficulty after it. *)
Definition check_meeting_pos_td_difficulty (td : TrainingDeclaration) : result bool :=
  let leading_zeros := count_leading_zeros (fst (calculate_hash td)) in
  match pos_td_difficulty (td_coinstake td) with
  | Raise x => Raise x
  | Ok difficulty => Ok (Qle_bool difficulty (inject_Z (Z.of_nat leading_zeros)))
  end.

Definition check_meeting_pos_bh_difficulty (bh : BlockHeader) : result bool :=
  let leading_zeros := count_leading_zeros (fst (calculate_hash bh)) in
  match pos_bh_difficulty (bh_coinstake bh) with
  | Raise x => Raise x
  | Ok difficulty => Ok (Qle_bool difficulty (inject_Z (Z.of_nat leading_zeros)))
  end.

(** [TrainingDeclaration.__init__] *)
Definition TrainingDeclaration_init (model : Model) (commitment : bytes)
    (coinstake : Z) (public_key : bytes) (w : World) : TrainingDeclaration * World :=
  let '((id_m, id_s, pk, now), w1) := message_init model public_key w in
  ({| td_id_m := id_m; td_id_s := id_s; td_public_key := pk; td_timestamp := now;
      td_signature := None; td_coinstake := coinstake;
      training_secret_commitment := commitment;
      h_s := hashed_serialization model |}, w1).

(** [BlockHeader.check_included_training_declarations] *)
Fixpoint check_included_training_declarations_loop (secret : bytes)
    (tds : list TrainingDeclaration) : result bool :=
  match tds with
  | [] => Ok true
  | td :: rest =>
      match verify_signature (td_public_key td) secret
              (Some (training_secret_commitment td)) with
      | Raise e => Raise e
      | Ok false => Ok false
      | Ok true => check_included_training_declarations_loop secret rest
      end
  end.

Definition check_included_training_declarations (bh : BlockHeader) : result bool :=
  check_included_training_declarations_loop (bh_training_secret bh)
    (training_declarations bh).

(** [BlockHeader.__init__]; the parent hash is recomputed from the latest block. *)
Definition BlockHeader_init (model : Model) (latest_block : Block)
    (training_secret : bytes) (coinstake : Z) (public_key : bytes)
    (training_declarations : list TrainingDeclaration) (w : World)
    : BlockHeader * World :=
  let '((id_m, id_s, pk, now), w1) := message_init model public_key w in
  ({| bh_id_m := id_m; bh_id_s := id_s; bh_public_key := pk; bh_timestamp := now;
      bh_signature := None; bh_coinstake := coinstake;
      parent_block_hash := Block_calculate_hash latest_block;
      block_index := index latest_block + 1;
      bh_training_secret := training_secret;
      training_declarations := training_declarations |}, w1).

(** *** [poa_messages/stakeholder_signature.py], [poa_messages/wrapped_block.py] *)

(** [StakeholderSignature.__init__] *)
Definition StakeholderSignature_init (bh : BlockHeader) (public_key signature : bytes)
    : StakeholderSignature :=
  {| ss_block_header := bh; block_header_id := fst (get_id bh);
     ss_public_key := public_key; ss_signature := signature |}.

(** [WrappedBlock.__init__] *)
Definition WrappedBlock_init (employee_user : User) (model : Model) (public_key : bytes)
    (transactions : list Transaction)
    (stakeholders_signatures : list StakeholderSignature) (bh : BlockHeader)
    (w : World) : WrappedBlock * World :=
  let '((id_m, id_s, pk, now), w1) := message_init model public_key w in
  let (coinbase_user, w2) := CoinbaseUser_init (block_index bh) w1 in
  (* [CoinbaseUser.create_transaction(receiver=employee_user)]: the amount and
     the employee name are chosen by the coinbase user itself *)
  let (coinbase_tx, w3) := create_transaction coinbase_user 0%Q employee_user None w2 in
  ({| wb_id_m := id_m; wb_id_s := id_s; wb_public_key := pk; wb_timestamp := now;
      wb_signature := None; wb_block_header := bh;
      wb_coinbase_transaction := coinbase_tx; wb_transactions := transactions;
      wb_stakeholders_signatures := stakeholders_signatures |}, w3).

(** [WrappedBlock.verify_stakeholder_signatures] *)
Fixpoint verify_stakeholder_signatures_loop (sigs : list StakeholderSignature)
    : result bool :=
  match sigs with
  | [] => Ok true
  | ss :: rest =>
      let message := fst (dumps_without_sig (ss_block_header ss)) in
      match verify_signature (ss_public_key ss) message (Some (ss_signature ss)) with
      | Raise e => Raise e
      | Ok false => Ok false
      | Ok true => verify_stakeholder_signatures_loop rest
      end
  end.

Definition verify_stakeholder_signatures (wb : WrappedBlock) : result bool :=
  verify_stakeholder_signatures_loop (wb_stakeholders_signatures wb).

(** *** [pos_messages/training_declarations_book.py] *)

Record TDStage : Type := mkTDStage {
  td_open : bool;
  stage_training_declarations : list TrainingDeclaration;
}.

(** [add_training_declaration_to_book] *)
Definition add_training_declaration_to_book (td : TrainingDeclaration)
    (book : gmap string TDStage) : gmap string TDStage :=
  let id_s := td_id_s td in
  let book1 :=
    match book !! id_s with
    | None => <[id_s := {| td_open := true; stage_training_declarations := [] |}]> book
    | Some _ => book
    end in
  match book1 !! id_s with
  | None => book1
  | Some stage =>
      if negb (td_open stage) then book1
      else <[id_s := {| td_open := td_open stage;
                        stage_training_declarations :=
                          stage_training_declarations stage ++ [td] |}]> book1
  end.

(** [get_training_declarations]: [self.book[id_s]] raises [KeyError]. *)
Definition get_training_declarations (id_s : string) (book : gmap string TDStage)
    : result (list TrainingDeclaration) :=
  match book !! id_s with
  | Some stage => Ok (stage_training_declarations stage)
  | None => Raise KeyError
  end.

(** [get_training_declarations_num]: the [KeyError] is caught. *)
Definition get_training_declarations_num (id_s : string) (book : gmap string TDStage)
    : nat :=
  match book !! id_s with
  | Some stage => length (stage_training_declarations stage)
  | None => 0
  end.

(** [TrainingDeclarationsBook.close] *)
Definition td_book_close (id_s : string) (book : gmap string TDStage)
    : result (gmap string TDStage) :=
  match book !! id_s with
  | Some stage =>
      Ok (<[id_s := {| td_open := false;
                       stage_training_declarations :=
                         stage_training_declarations stage |}]> book)
  | None => Raise KeyError
  end.

(** *** [poa_messages/stakeholder_signatures_book.py] *)

Record SHInfo : Type := mkSHInfo {
  sigs : list StakeholderSignature;
  roy : option bool;
}.

Record SSStage : Type := mkSSStage {
  ss_open : bool;
  sh_info : gmap string SHInfo;
}.

(** [add_signature_to_book]; [roy_flag] is the argument [roy]. *)
Definition add_signature_to_book (ss : StakeholderSignature) (roy_flag : option bool)
    (book : gmap string SSStage) : gmap string SSStage :=
  let id_s := bh_id_s (ss_block_header ss) in
  let id_bh := fst (get_id (ss_block_header ss)) in
  let book1 :=
    match book !! id_s with
    | None =>
        <[id_s := {| ss_open := true;
                     sh_info := {[ id_bh := {| sigs := []; roy := roy_flag |} ]} |}]> book
    | Some _ => book
    end in
  match book1 !! id_s with
  | None => book1 (* not reached: the stage exists by now *)
  | Some stage =>
      let info1 :=
        match sh_info stage !! id_bh with
        | None => <[id_bh := {| sigs := []; roy := roy_flag |}]> (sh_info stage)
        | Some _ => sh_info stage
        end in
      let book2 := <[id_s := {| ss_open := ss_open stage; sh_info := info1 |}]> book1 in
      if negb (ss_open stage) then book2
      else
        match info1 !! id_bh with
        | None => book2 (* not reached: the header has an entry by now *)
        | Some entry =>
            <[id_s := {| ss_open := ss_open stage;
                         sh_info := <[id_bh := {| sigs := sigs entry ++ [ss];
                                                   roy := roy entry |}]> info1 |}]> book2
        end
  end.

(** [get_signatures_for_block_header]: a [KeyError] is caught. *)
Definition get_signatures_for_block_header (id_s id_bh : string)
    (book : gmap string SSStage) : list StakeholderSignature :=
  match book !! id_s with
  | None => []
  | Some stage =>
      match sh_info stage !! id_bh with
      | None => []
      | Some entry => sigs entry
      end
  end.

(** [get_signatures_num]: a [KeyError] is caught. *)
Definition get_signatures_num (id_s id_bh : string) (book : gmap string SSStage) : nat :=
  match book !! id_s with
  | None => 0
  | Some stage =>
      match sh_info stage !! id_bh with
      | None => 0
      | Some entry => length (sigs entry)
      end
  end.

(** [StakeholderSignaturesBook.close]: a [KeyError] is caught. *)
Definition ss_book_close (id_s : string) (book : gmap string SSStage)
    : gmap string SSStage :=
  match book !! id_s with
  | None => book
  | Some stage => <[id_s := {| ss_open := false; sh_info := sh_info stage |}]> book
  end.

(** [StakeholderSignaturesBook.is_open] *)
Definition is_open (id_s : string) (book : gmap string SSStage) : bool :=
  match book !! id_s with
  | Some stage => ss_open stage
  | None => true
  end.

(** *** [blockchain/blockchain.py] *)

(** [get_chain_length] *)
Definition get_chain_length (bc : Blockchain) : nat := length (chain bc).

(** [get_latest_block]: [self.chain[-1]] raises [IndexError] on an empty chain. *)
Definition get_latest_block (bc : Blockchain) : result Block :=
  match last (chain bc) with
  | Some b => Ok b
  | None => Raise IndexError
  end.

(** [add_block] *)
Definition add_block (new_block : Block) (bc : Blockchain) : Blockchain :=
  {| owner_name := owner_name bc;
     chain := chain bc ++ [new_block];
     all_transactions := all_transactions bc ++ transactions new_block |}.

(** The comprehension of [append_genesis_block]: one transaction per name. *)
Fixpoint genesis_transactions (user_a user_b : User) (employees_names : list string)
    (w : World) : list Transaction * World :=
  match employees_names with
  | [] => ([], w)
  | name :: rest =>
      let (t, w1) := create_transaction user_a 1%Q user_b (Some name) w in
      let (ts, w2) := genesis_transactions user_a user_b rest w1 in
      (t :: ts, w2)
  end.

(** [append_genesis_block]; [employees_names] is
    [Simulation().get_employees_names()]. *)
Definition append_genesis_block (employees_names : list string) (bc : Blockchain)
    (w : World) : Blockchain * World :=
  let (user_a, w1) := User_init PlainUser "Genesis A" (inject_Z (Z.of_nat EMPLOYEES_NUM)) w in
  let (user_b, w2) := User_init PlainUser "Genesis B" 0%Q w1 in
  let (txs, w3) := genesis_transactions user_a user_b employees_names w2 in
  let new_block :=
    Block_init 0 (encode "0") "1969-07-20 20:17:40" None None txs None in
  (add_block new_block bc, w3).

(** [random.sample(population, k)]: [ValueError] when the sample is larger than
    the population, otherwise [k] draws of the generator. *)
Definition random_sample (population : list (option string)) (k : nat) (g : prng)
    : result (list (option string)) * prng :=
  if decide (k <= length population)
  then let (sample, g1) := random_draw g population k in (Ok sample, g1)
  else (Raise ValueError, g).

(** [follow_the_coin] *)
Definition follow_the_coin (rand_source : bytes) (bc : Blockchain) (w : World)
    : result (list (option string)) * World :=
  let g := random_seed rand_source in
  let possible_stakeholders :=
    set_iter_names (hash_seed w) (map employee_name (all_transactions bc)) in
  let (selected_stakeholders, g1) := random_sample possible_stakeholders STAKEHOLDERS_NUM g in
  (selected_stakeholders, set_rng g1 w).

(** The test behind the fork warning of [append_fitted_wrapped_block]. *)
Definition fork_detected (wb : WrappedBlock) (latest_block : Block) : bool :=
  bool_decide (parent_block_hash (wb_block_header wb) <> hash latest_block).

(** [append_fitted_wrapped_block]; the boolean says whether the fork warning
    was logged. *)
Definition append_fitted_wrapped_block (wb : WrappedBlock) (bc : Blockchain) (w : World)
    : result (Blockchain * bool * World) :=
  match get_latest_block bc with
  | Raise e => Raise e
  | Ok latest_block =>
      let warned := fork_detected wb latest_block in
      let (now, w1) := read_clock w in
      let block :=
        Block_init (index latest_block + 1) (hash latest_block) now
          (Some (wb_block_header wb)) (Some (wb_coinbase_transaction wb))
          (wb_transactions wb) (Some (wb_stakeholders_signatures wb)) in
      Ok (add_block block bc, warned, w1)
  end.

(** *** [network/message.py] *)

(** A [Message]: its [MessageType] together with the content that type carries. *)
Inductive Message : Type :=
  | TRANSACTION (t : Transaction)
  | BLOCK_HEADER (bh : BlockHeader)
  | STAKEHOLDER_SIGNATURE (ss : StakeholderSignature)
  | WRAPPED_BLOCK (wb : WrappedBlock)
  | TRAINING_DECLARATION (td : TrainingDeclaration)
  | EMPLOYEE_ALIVE
  | EMPLOYEE_FINISHED
  | RESULT_LOCAL_BLOCKCHAIN (bc : Blockchain).

(** *** [employee/employee.py] *)

(** The attributes of an [Employee]; [sent] lists what went through
    [self.connection.send], oldest first, and [world] is the ambient state of
    the node's process. *)
Record Employee : Type := mkEmployee {
  name : string;
  private_key : bytes;
  employee_public_key : bytes;
  td_coinstake_of : Z;
  bh_coinstake_of : Z;
  blockchain : Blockchain;
  model : option Model;
  training_declaration : option TrainingDeclaration;
  training_secret : option bytes;
  employee_block_header : option BlockHeader;
  pending_transactions : list Transaction;
  training_declarations_book : gmap string TDStage;
  stakeholder_signatures_book : gmap string SSStage;
  employee_user : User;
  protocol_restart_flag : bool;
  sent : list Message;
  world : World;
}.

(** A method of [Employee]: it returns a value and the new state of [self], or
    raises. *)
Definition Proc (A : Type) : Type := Employee -> result (A * Employee).

Definition ret {A} (a : A) : Proc A := fun e => Ok (a, e).

Definition bind {A B} (c : Proc A) (k : A -> Proc B) : Proc B :=
  fun e =>
    match c e with
    | Ok (a, e1) => k a e1
    | Raise x => Raise x
    end.

Definition raise {A} (x : exn) : Proc A := fun _ => Raise x.

Definition lift {A} (r : result A) : Proc A :=
  fun e => match r with Ok a => Ok (a, e) | Raise x => Raise x end.

Definition gets {A} (f : Employee -> A) : Proc A := fun e => Ok (f e, e).

Definition modify (f : Employee -> Employee) : Proc unit := fun e => Ok (tt, f e).

Notation "x <- c ;; k" := (bind c (fun x => k))
  (at level 100, c at next level, right associativity).
Notation "c ;;; k" := (bind c (fun _ => k))
  (at level 100, right associativity).

Definition set_blockchain (bc : Blockchain) (e : Employee) : Employee :=
  {| name := name e; private_key := private_key e;
     employee_public_key := employee_public_key e;
     td_coinstake_of := td_coinstake_of e; bh_coinstake_of := bh_coinstake_of e;
     blockchain := bc; model := model e;
     training_declaration := training_declaration e;
     training_secret := training_secret e;
     employee_block_header := employee_block_header e;
     pending_transactions := pending_transactions e;
     training_declarations_book := training_declarations_book e;
     stakeholder_signatures_book := stakeholder_signatures_book e;
     employee_user := employee_user e;
     protocol_restart_flag := protocol_restart_flag e;
     sent := sent e; world := world e |}.

Definition set_pending_transactions (ts : list Transaction) (e : Employee) : Employee :=
  {| name := name e; private_key := private_key e;
     employee_public_key := employee_public_key e;
     td_coinstake_of := td_coinstake_of e; bh_coinstake_of := bh_coinstake_of e;
     blockchain := blockchain e; model := model e;
     training_declaration := training_declaration e;
     training_secret := training_secret e;
     employee_block_header := employee_block_header e;
     pending_transactions := ts;
     training_declarations_book := training_declarations_book e;
     stakeholder_signatures_book := stakeholder_signatures_book e;
     employee_user := employee_user e;
     protocol_restart_flag := protocol_restart_flag e;
     sent := sent e; world := world e |}.

Definition set_training_declarations_book (b : gmap string TDStage) (e : Employee)
    : Employee :=
  {| name := name e; private_key := private_key e;
     employee_public_key := employee_public_key e;
     td_coinstake_of := td_coinstake_of e; bh_coinstake_of := bh_coinstake_of e;
     blockchain := blockchain e; model := model e;
     training_declaration := training_declaration e;
     training_secret := training_secret e;
     employee_block_header := employee_block_header e;
     pending_transactions := pending_transactions e;
     training_declarations_book := b;
     stakeholder_signatures_book := stakeholder_signatures_book e;
     employee_user := employee_user e;
     protocol_restart_flag := protocol_restart_flag e;
     sent := sent e; world := world e |}.

Definition set_stakeholder_signatures_book (b : gmap string SSStage) (e : Employee)
    : Employee :=
  {| name := name e; private_key := private_key e;
     employee_public_key := employee_public_key e;
     td_coinstake_of := td_coinstake_of e; bh_coinstake_of := bh_coinstake_of e;
     blockchain := blockchain e; model := model e;
     training_declaration := training_declaration e;
     training_secret := training_secret e;
     employee_block_header := employee_block_header e;
     pending_transactions := pending_transactions e;
     training_declarations_book := training_declarations_book e;
     stakeholder_signatures_book := b;
     employee_user := employee_user e;
     protocol_restart_flag := protocol_restart_flag e;
     sent := sent e; world := world e |}.

Definition set_protocol_restart_flag (flag : bool) (e : Employee) : Employee :=
  {| name := name e; private_key := private_key e;
     employee_public_key := employee_public_key e;
     td_coinstake_of := td_coinstake_of e; bh_coinstake_of := bh_coinstake_of e;
     blockchain := blockchain e; model := model e;
     training_declaration := training_declaration e;
     training_secret := training_secret e;
     employee_block_header := employee_block_header e;
     pending_transactions := pending_transactions e;
     training_declarations_book := training_declarations_book e;
     stakeholder_signatures_book := stakeholder_signatures_book e;
     employee_user := employee_user e;
     protocol_restart_flag := flag;
     sent := sent e; world := world e |}.

Definition set_sent (ms : list Message) (e : Employee) : Employee :=
  {| name := name e; private_key := private_key e;
     employee_public_key := employee_public_key e;
     td_coinstake_of := td_coinstake_of e; bh_coinstake_of := bh_coinstake_of e;
     blockchain := blockchain e; model := model e;
     training_declaration := training_declaration e;
     training_secret := training_secret e;
     employee_block_header := employee_block_header e;
     pending_transactions := pending_transactions e;
     training_declarations_book := training_declarations_book e;
     stakeholder_signatures_book := stakeholder_signatures_book e;
     employee_user := employee_user e;
     protocol_restart_flag := protocol_restart_flag e;
     sent := ms; world := world e |}.

Definition set_world (w : World) (e : Employee) : Employee :=
  {| name := name e; private_key := private_key e;
     employee_public_key := employee_public_key e;
     td_coinstake_of := td_coinstake_of e; bh_coinstake_of := bh_coinstake_of e;
     blockchain := blockchain e; model := model e;
     training_declaration := training_declaration e;
     training_secret := training_secret e;
     employee_block_header := employee_block_header e;
     pending_transactions := pending_transactions e;
     training_declarations_book := training_declarations_book e;
     stakeholder_signatures_book := stakeholder_signatures_book e;
     employee_user := employee_user e;
     protocol_restart_flag := protocol_restart_flag e;
     sent := sent e; world := w |}.

(** [self.connection.send(message)] *)
Definition connection_send (m : Message) : Proc unit :=
  modify (fun e => set_sent (sent e ++ [m]) e).

(** [self.blockchain.follow_the_coin(rand_source)] *)
Definition blockchain_follow_the_coin (rand_source : bytes)
    : Proc (list (option string)) :=
  fun e =>
    let (r, w1) := follow_the_coin rand_source (blockchain e) (world e) in
    match r with
    | Ok stakeholders => Ok (stakeholders, set_world w1 e)
    | Raise x => Raise x
    end.

(** [self.blockchain.append_fitted_wrapped_block(wrapped_block)] *)
Definition blockchain_append_fitted_wrapped_block (wb : WrappedBlock) : Proc unit :=
  fun e =>
    match append_fitted_wrapped_block wb (blockchain e) (world e) with
    | Ok (bc1, _, w1) => Ok (tt, set_world w1 (set_blockchain bc1 e))
    | Raise x => Raise x
    end.

(** [stakeholders[-1]] *)
Definition last_stakeholder (stakeholders : list (option string))
    : result (option string) :=
  match last stakeholders with
  | Some s => Ok s
  | None => Raise IndexError
  end.

(** [_am_i_roy_stakeholder] *)
Definition _am_i_roy_stakeholder (bh : BlockHeader) : Proc bool :=
  stakeholders <- blockchain_follow_the_coin (fst (calculate_hash bh)) ;;
  roy_name <- lift (last_stakeholder stakeholders) ;;
  self_name <- gets name ;;
  ret (bool_decide (Some self_name = roy_name)).

(** [_perform_normal_stakeholder_procedure] *)
Definition _perform_normal_stakeholder_procedure (bh : BlockHeader) : Proc unit :=
  sk <- gets private_key ;;
  pk <- gets employee_public_key ;;
  let signature := sign_message sk (fst (dumps_without_sig bh)) in
  let stakeholder_signature := StakeholderSignature_init bh pk signature in
  is_roy <- _am_i_roy_stakeholder (ss_block_header stakeholder_signature) ;;
  modify (fun e =>
    set_stakeholder_signatures_book
      (add_signature_to_book stakeholder_signature (Some is_roy)
         (stakeholder_signatures_book e)) e) ;;;
  connection_send (STAKEHOLDER_SIGNATURE stakeholder_signature).

(** [_check_type_of_stakeholder]; the Roy branch only logs. *)
Definition _check_type_of_stakeholder (bh : BlockHeader) : Proc unit :=
  stakeholders <- blockchain_follow_the_coin (fst (calculate_hash bh)) ;;
  self_name <- gets name ;;
  if bool_decide (Some self_name ∈ removelast stakeholders)
  then _perform_normal_stakeholder_procedure bh
  else
    roy_name <- lift (last_stakeholder stakeholders) ;;
    ret tt.

(** [_get_pending_transactions_and_set_employee]: the pending pool is copied
    and the copies are stamped. *)
Definition _get_pending_transactions_and_set_employee : Proc (list Transaction) :=
  self_name <- gets name ;;
  pending <- gets pending_transactions ;;
  let active_transactions := map (fun t => set_employee_name t (Some self_name)) pending in
  ret active_transactions.

(** [_remove_served_trans_from_pending_trans]: both lists become sets, the
    difference is a new set filled in the iteration order of the pending set. *)
Definition _remove_served_trans_from_pending_trans (reg_trans : list Transaction)
    : Proc unit :=
  modify (fun e =>
    let pending_trans_set :=
      set_iter_transactions (hash_seed (world e)) (pending_transactions e) in
    let result_trans_set :=
      List.filter (fun t => forallb (fun r => negb (Transaction_eq t r)) reg_trans)
                  pending_trans_set in
    set_pending_transactions
      (set_iter_transactions (hash_seed (world e)) result_trans_set) e).

(** [_create_wrapped_block].  [get_signatures_for_block_header] hands out the
    list object the book holds, so the wrapped block, and the block appended
    from it, read what the book appends to that list later; here the wrapped
    block holds the value the list has when it is made, which is what it reads
    as long as the book receives no further signature for the header. *)
Definition _create_wrapped_block (bh : BlockHeader) : Proc WrappedBlock :=
  active_transactions <- _get_pending_transactions_and_set_employee ;;
  m <- gets model ;;
  match m with
  | None => raise AttributeError
  | Some m =>
      book <- gets stakeholder_signatures_book ;;
      let stakeholder_signatures :=
        get_signatures_for_block_header (get_id_s m) (fst (get_id bh)) book in
      user <- gets employee_user ;;
      pk <- gets employee_public_key ;;
      fun e =>
        let (wb, w1) :=
          WrappedBlock_init user m pk active_transactions stakeholder_signatures bh
            (world e) in
        Ok (wb, set_world w1 e)
  end.

(** [_perform_roy_stakeholder_procedure] *)
Definition _perform_roy_stakeholder_procedure (bh : BlockHeader) : Proc unit :=
  wb <- _create_wrapped_block bh ;;
  sk <- gets private_key ;;
  let wrapped_block := sign wb sk in
  connection_send (WRAPPED_BLOCK wrapped_block) ;;;
  blockchain_append_fitted_wrapped_block wrapped_block ;;;
  _remove_served_trans_from_pending_trans (wb_transactions wrapped_block) ;;;
  modify (set_protocol_restart_flag true).

(** The messages [_verify_alien_message_soundness] accepts. *)
Inductive AlienMessage : Type :=
  | AlienTD (td : TrainingDeclaration)
  | AlienBH (bh : BlockHeader)
  | AlienWB (wb : WrappedBlock).

Definition signature_is_valid {M} `{HashSignSerial M} (message : M) : result bool :=
  verify_signature (public_key message) (fst (dumps_without_sig message))
    (signature message).

(** [_verify_alien_message_soundness] *)
Definition _verify_alien_message_soundness (message : AlienMessage) : result bool :=
  let valid :=
    match message with
    | AlienTD td => signature_is_valid td
    | AlienBH bh => signature_is_valid bh
    | AlienWB wb => signature_is_valid wb
    end in
  match valid with
  | Raise x => Raise x
  | Ok false => Ok false
  | Ok true =>
      match message with
      | AlienTD td =>
          match check_meeting_pos_td_difficulty td with
          | Raise x => Raise x
          | Ok false => Ok false
          | Ok true => Ok true
          end
      | AlienBH bh =>
          match check_meeting_pos_bh_difficulty bh with
          | Raise x => Raise x
          | Ok false => Ok false
          | Ok true =>
              match check_included_training_declarations bh with
              | Raise x => Raise x
              | Ok false => Ok false
              | Ok true => Ok true
              end
          end
      | AlienWB wb =>
          match verify_stakeholder_signatures wb with
          | Raise x => Raise x
          | Ok false => Ok false
          | Ok true => Ok true
          end
      end
  end.

(** One turn of the loop of [_collect_messages]: the dispatch on the type of
    the received message. *)
Definition collect_message (recv_message : Message) : Proc unit :=
  match recv_message with
  | TRANSACTION t =>
      modify (fun e => set_pending_transactions (pending_transactions e ++ [t]) e)
  | TRAINING_DECLARATION td =>
      sound <- lift (_verify_alien_message_soundness (AlienTD td)) ;;
      if sound
      then modify (fun e =>
             set_training_declarations_book
               (add_training_declaration_to_book td (training_declarations_book e)) e)
      else ret tt
  | BLOCK_HEADER bh =>
      sound <- lift (_verify_alien_message_soundness (AlienBH bh)) ;;
      if sound then _check_type_of_stakeholder bh else ret tt
  | STAKEHOLDER_SIGNATURE ss =>
      let id_s := bh_id_s (ss_block_header ss) in
      let id_bh := fst (get_id (ss_block_header ss)) in
      is_roy <- _am_i_roy_stakeholder (ss_block_header ss) ;;
      modify (fun e =>
        set_stakeholder_signatures_book
          (add_signature_to_book ss (Some is_roy) (stakeholder_signatures_book e)) e) ;;;
      if is_roy
      then
        ss_for_roy_bh_num <- gets (fun e =>
          get_signatures_num id_s id_bh (stakeholder_signatures_book e)) ;;
        if bool_decide (STAKEHOLDERS_NUM - 1 <= ss_for_roy_bh_num)
        then _perform_roy_stakeholder_procedure (ss_block_header ss)
        else ret tt
      else ret tt
  | WRAPPED_BLOCK wb =>
      latest_block <- (fun e => lift (get_latest_block (blockchain e)) e) ;;
      if bool_decide (block_index (wb_block_header wb) <= index latest_block)
      then ret tt
      else
        sound <- lift (_verify_alien_message_soundness (AlienWB wb)) ;;
        if sound
        then
          modify (set_protocol_restart_flag true) ;;;
          modify (fun e =>
            set_stakeholder_signatures_book
              (ss_book_close (wb_id_s wb) (stakeholder_signatures_book e)) e) ;;;
          blockchain_append_fitted_wrapped_block wb ;;;
          _remove_served_trans_from_pending_trans (wb_transactions wb)
        else ret tt
  | EMPLOYEE_ALIVE => ret tt
  | EMPLOYEE_FINISHED => raise TypeError
  | RESULT_LOCAL_BLOCKCHAIN _ => raise TypeError
  end.

(** [_collect_messages]: the loop runs until the connection has nothing left;
    [inbox] lists what it delivers during the call. *)
Fixpoint _collect_messages (inbox : list Message) : Proc unit :=
  match inbox with
  | [] => ret tt
  | recv_message :: rest => collect_message recv_message ;;; _collect_messages rest
  end.

End Protocol.

(** ** Contracts of the library functions

    What the theorems below assume of [PyEnv], each stated on its own. *)

(** The iteration of a set visits every distinct element once, whatever the
    hash seed of the process. *)
Definition set_iter_names_is_set (env : PyEnv) : Prop :=
  forall (seed : nat) (l : list (option string)),
    set_iter_names seed l ≡ₚ remove_dups l.

(** [random.sample] returns as many elements as asked for. *)
Definition random_draw_has_length (env : PyEnv) : Prop :=
  forall (g : prng) (population : list (option string)) (k : nat),
    k <= length population -> length (fst (random_draw g population k)) = k.

(** Ed25519 accepts the signatures it makes. *)
Definition ed25519_correct (env : PyEnv) : Prop :=
  forall sk message : bytes,
    ed25519_verify (ed25519_public_key sk) message (ed25519_sign sk message) = Ok true.

(** Ed25519 accepts a signature for the signed message only (unforgeability,
    taken as exact). *)
Definition ed25519_binding (env : PyEnv) : Prop :=
  forall sk message message' : bytes,
    ed25519_verify (ed25519_public_key sk) message (ed25519_sign sk message') = Ok true ->
    message = message'.

(** The pickle of a training declaration shows whether it carries a signature. *)
Definition pickle_td_shows_signature (env : PyEnv) : Prop :=
  forall (td : TrainingDeclaration) (s : bytes),
    pickle_td (with_signature (Some s) td) <> pickle_td (with_signature None td).

(** ** Predicates used in the statements *)

(** Consecutive blocks are linked by hash and numbered consecutively. *)
Definition chain_linked (c : list Block) : Prop :=
  forall (i : nat) (b b' : Block),
    c !! i = Some b -> c !! S i = Some b' ->
    previous_hash b' = hash b /\ index b' = index b + 1.

(** The chain after [append_genesis_block] and the given calls of
    [append_fitted_wrapped_block], oldest first. *)
Fixpoint append_all {env : PyEnv} (wbs : list WrappedBlock) (bc : Blockchain) (w : World)
    : result (Blockchain * World) :=
  match wbs with
  | [] => Ok (bc, w)
  | wb :: rest =>
      match append_fitted_wrapped_block wb bc w with
      | Ok (bc1, _, w1) => append_all rest bc1 w1
      | Raise x => Raise x
      end
  end.

Definition build_chain {env : PyEnv} (owner : string) (employees_names : list string)
    (wbs : list WrappedBlock) (w : World) : result (Blockchain * World) :=
  let (bc, w1) :=
    append_genesis_block employees_names
      {| owner_name := owner; chain := []; all_transactions := [] |} w in
  append_all wbs bc w1.

(** The calls a training-declarations book receives in its lifetime. *)
Inductive TDBookCall : Type :=
  | TDAdd (td : TrainingDeclaration)
  | TDClose (id_s : string).

(** The book after the given calls, oldest first; a raising call ends the run. *)
Fixpoint td_book_after (calls : list TDBookCall) (book : gmap string TDStage)
    : result (gmap string TDStage) :=
  match calls with
  | [] => Ok book
  | TDAdd td :: rest => td_book_after rest (add_training_declaration_to_book td book)
  | TDClose id_s :: rest =>
      match td_book_close id_s book with
      | Ok book1 => td_book_after rest book1
      | Raise x => Raise x
      end
  end.

(** ** A small instance of [PyEnv], to run the model on concrete inputs *)

Module Stub.

Definition pickle_signature (s : option bytes) : bytes :=
  match s with
  | None => ["0"%byte]
  | Some s => "1"%byte :: s
  end.

Fixpoint dedup_transactions (l : list Transaction) : list Transaction :=
  match l with
  | [] => []
  | t :: rest =>
      t :: List.filter (fun r => negb (bool_decide (id r = id t))) (dedup_transactions rest)
  end.

Definition stub_key (k : nat) : bytes := encode (pretty k).

Definition stub_env : PyEnv := {|
  sha256_digest := fun data => data;
  pickle_td := fun td => (pickle_signature (td_signature td) ++ encode (td_timestamp td))%list;
  pickle_bh := fun bh => (pickle_signature (bh_signature bh) ++ encode (bh_timestamp bh))%list;
  pickle_wb := fun wb => (pickle_signature (wb_signature wb) ++ encode (wb_timestamp wb))%list;
  ed25519_public_key := fun sk => sk;
  ed25519_sign := fun sk message => (sk ++ message)%list;
  load_pem_public_key := fun _ => Ok tt;
  ed25519_verify := fun pk message s => Ok (bool_decide (s = (pk ++ message)%list));
  math_log2 := fun _ => 256%Q;
  coinbase_reward := fun _ => 1%Q;
  str_User := user_name;
  str_amount := fun _ => "1";
  str_Transaction := id;
  str_BlockHeader := bh_timestamp;
  str_StakeholderSignature := block_header_id;
  set_iter_names := fun seed l =>
    if Nat.even seed then remove_dups l else reverse (remove_dups l);
  set_iter_transactions := fun _ => dedup_transactions;
  prng := bytes;
  random_seed := fun rand_source => rand_source;
  random_draw := fun g population k => (take k population, g);
  datetime_now := fun k => pretty k;
  generate_key_pair_bytes := fun k => (stub_key k, stub_key k);
|}.

#[local] Existing Instance stub_env.

(** Concrete inputs: a three-node network after genesis, a header, signatures
    on it, and the node "C", which the stub generator draws last. *)

Definition sample_world : @World stub_env :=
  {| ticks := 0; keys_generated := 0; rng := (([] : bytes) : @prng stub_env);
     hash_seed := 0 |}.

Definition sample_model : Model :=
  {| model_id := "dnn"; current_iteration := 0; hashed_serialization := "h" |}.

Definition empty_chain : Blockchain :=
  {| owner_name := "C"; chain := []; all_transactions := [] |}.

Definition sample_chain : Blockchain :=
  fst (append_genesis_block (env := stub_env) ["A"; "B"; "C"] empty_chain sample_world).

(** The node "A" in a process of its own: another clock, other keys, another
    generator state and another hash seed; its chain after
    [append_genesis_block] for the same employees. *)
Definition other_world : @World stub_env :=
  {| ticks := 5; keys_generated := 2; rng := (encode "other" : @prng stub_env);
     hash_seed := 1 |}.





Definition sample_header : BlockHeader :=
  {| bh_id_m := "dnn"; bh_id_s := "dnn:0"; bh_public_key := stub_key 9;
     bh_timestamp := "t1"; bh_signature := None; bh_coinstake := BH_COINSTAKE;
     parent_block_hash := []; block_index := 1; bh_training_secret := [];
     training_declarations := [] |}.

Definition other_header : BlockHeader :=
  {| bh_id_m := "dnn"; bh_id_s := "dnn:0"; bh_public_key := stub_key 6;
     bh_timestamp := "u2"; bh_signature := None; bh_coinstake := BH_COINSTAKE;
     parent_block_hash := []; block_index := 1; bh_training_secret := [];
     training_declarations := [] |}.

Definition stale_header : BlockHeader :=
  {| bh_id_m := "dnn"; bh_id_s := "dnn:0"; bh_public_key := stub_key 9;
     bh_timestamp := "t0"; bh_signature := None; bh_coinstake := BH_COINSTAKE;
     parent_block_hash := []; block_index := 0; bh_training_secret := [];
     training_declarations := [] |}.

Definition signature_by (k : nat) (bh : BlockHeader) : StakeholderSignature :=
  StakeholderSignature_init (env := stub_env) bh (stub_key k)
    (sign_message (env := stub_env) (stub_key k) (fst (dumps_without_sig bh))).

Definition sample_user : User :=
  {| user_class := EmployeeUserOf "C"; user_name := "C"; balance := 0%Q;
     user_private_key := stub_key 9; user_public_key := stub_key 9 |}.

Definition sample_transaction : Transaction :=
  fst (Transaction_init (env := stub_env) sample_user 1%Q sample_user None sample_world).

Definition sample_wrapped_block : WrappedBlock :=
  {| wb_id_m := "dnn"; wb_id_s := "dnn:0"; wb_public_key := stub_key 9;
     wb_timestamp := "t0"; wb_signature := None; wb_block_header := stale_header;
     wb_coinbase_transaction := sample_transaction; wb_transactions := [];
     wb_stakeholders_signatures := [] |}.

Definition sample_roy : @Employee stub_env :=
  {| name := "C"; private_key := stub_key 9; employee_public_key := stub_key 9;
     td_coinstake_of := TD_COINSTAKE; bh_coinstake_of := BH_COINSTAKE;
     blockchain := sample_chain; model := Some sample_model;
     training_declaration := None; training_secret := None;
     employee_block_header := None; pending_transactions := [];
     training_declarations_book := ∅;
     stakeholder_signatures_book :=
       add_signature_to_book (env := stub_env) (signature_by 1 sample_header)
         (Some true) ∅;
     employee_user := sample_user; protocol_restart_flag := false;
     sent := []; world := sample_world |}.

Definition signed_declaration : TrainingDeclaration :=
  {| td_id_m := "dnn"; td_id_s := "dnn:0"; td_public_key := stub_key 9;
     td_timestamp := "t1"; td_signature := Some (stub_key 3);
     td_coinstake := TD_COINSTAKE; training_secret_commitment := []; h_s := "h" |}.

Definition fresh_declaration : TrainingDeclaration :=
  {| td_id_m := "dnn"; td_id_s := "dnn:0"; td_public_key := stub_key 9;
     td_timestamp := "t1"; td_signature := None;
     td_coinstake := TD_COINSTAKE; training_secret_commitment := []; h_s := "h" |}.

Definition closed_td_book : gmap string TDStage :=
  {[ "dnn:0" := {| td_open := false; stage_training_declarations := [fresh_declaration] |} ]}.

Definition closed_ss_book : gmap string SSStage :=
  ss_book_close "dnn:0"
    (add_signature_to_book (env := stub_env) (signature_by 1 sample_header) (Some false) ∅).

End Stub.

(** ** Further parts of the sources *)

Section Further.

Context {env : PyEnv}.

(** The loop of [Blockchain.is_chain_valid] from index 1 on: [previous_block]
    is [chain[i - 1]] and the list holds [chain[i]] and what follows. *)
Fixpoint is_chain_valid_loop (previous_block : Block) (rest : list Block) : bool :=
  match rest with
  | [] => true
  | current_block :: rest' =>
      if bool_decide (hash current_block <> Block_calculate_hash current_block)
      then false
      else if bool_decide (previous_hash current_block <> hash previous_block)
      then false
      else is_chain_valid_loop current_block rest'
  end.

(** [Blockchain.is_chain_valid] *)
Definition is_chain_valid (bc : Blockchain) : bool :=
  match chain bc with
  | [] => true
  | first :: rest => is_chain_valid_loop first rest
  end.

End Further.

(** [int.from_bytes(bs, "big")], to state what [count_leading_zeros] counts. *)
Fixpoint int_from_bytes_big (bs : bytes) : N :=
  match bs with
  | [] => 0%N
  | b :: rest => (Byte.to_N b * 256 ^ N.of_nat (length rest) + int_from_bytes_big rest)%N
  end.

(** The number a list of bits denotes, most significant bit first. *)
Fixpoint bits_to_N (bits : list bool) : N :=
  match bits with
  | [] => 0%N
  | b :: rest => (N.b2n b * 2 ^ N.of_nat (length rest) + bits_to_N rest)%N
  end.

(** A block whose stored hash is the hash of its fields. *)
Definition block_hash_consistent {env : PyEnv} (b : Block) : Prop :=
  hash b = Block_calculate_hash b.

(** [random.sample] draws without replacement from the population. *)
Definition random_draw_is_sample (env : PyEnv) : Prop :=
  forall (g : prng) (population : list (option string)) (k : nat),
    k <= length population ->
    (forall x, x ∈ fst (random_draw g population k) -> x ∈ population)
    /\ (NoDup population -> NoDup (fst (random_draw g population k))).

(** The iteration of a set of transactions visits transactions of the list it
    was built from, one for each id that occurs. *)
Definition set_iter_transactions_is_set (env : PyEnv) : Prop :=
  forall (seed : nat) (l : list Transaction),
    (forall t, t ∈ set_iter_transactions seed l -> t ∈ l)
    /\ (forall t, t ∈ l ->
          exists t', t' ∈ set_iter_transactions seed l /\ id t' = id t).

(** What the chain keeps: links, consistent hashes, and the aggregate of the
    blocks' transactions. *)
Definition chain_sound {env : PyEnv} (bc : Blockchain) : Prop :=
  chain_linked (chain bc)
  /\ Forall block_hash_consistent (chain bc)
  /\ all_transactions bc = concat (map transactions (chain bc)).


(** Assigning the attribute [stakeholders_signatures] of a block; the stored
    [hash] stays as it is. *)
Definition with_stakeholders_signatures (ss : option (list StakeholderSignature))
    (b : Block) : Block :=
  {| index := index b; previous_hash := previous_hash b; timestamp := timestamp b;
     block_header := block_header b; coinbase_transaction := coinbase_transaction b;
     transactions := transactions b; stakeholders_signatures := ss; hash := hash b |}.

(** A block without its list of stakeholder signatures.  The Roy procedure
    puts into the wrapped block, and so into the block it appends, the very
    list object that the signatures book holds for the header, and the book
    appends to that list when a further signature arrives: what the list of an
    appended block reads later is not settled when the block is appended.
    Every other field is. *)
Definition forget_signatures (b : Block) : Block :=
  with_stakeholders_signatures None b.

(** What the chain keeps whatever the signature lists of its blocks read:
    links, the stored hash of every block that has transactions (that hash
    does not cover the signatures), and the aggregate of the blocks'
    transactions. *)
Definition chain_kept {env : PyEnv} (bc : Blockchain) : Prop :=
  chain_linked (chain bc)
  /\ Forall (fun b => transactions b <> [] -> block_hash_consistent b) (chain bc)
  /\ all_transactions bc = concat (map transactions (chain bc)).

(** How a node's state can differ after it has handled inbound messages: who
    it is and what it works on stay, its chain (signature lists apart),
    aggregated transactions and sent messages are only extended, its clock and
    key counters only advance, the hash seed of its process stays, a raised
    restart flag stays raised, and what the chain keeps is kept. *)
Record evolves {env : PyEnv} (e e1 : Employee) : Prop := mkEvolves {
  ev_name : name e1 = name e;
  ev_private_key : private_key e1 = private_key e;
  ev_public_key : employee_public_key e1 = employee_public_key e;
  ev_td_coinstake : td_coinstake_of e1 = td_coinstake_of e;
  ev_bh_coinstake : bh_coinstake_of e1 = bh_coinstake_of e;
  ev_model : model e1 = model e;
  ev_training_declaration : training_declaration e1 = training_declaration e;
  ev_training_secret : training_secret e1 = training_secret e;
  ev_block_header : employee_block_header e1 = employee_block_header e;
  ev_user : employee_user e1 = employee_user e;
  ev_owner : owner_name (blockchain e1) = owner_name (blockchain e);
  ev_chain :
    map forget_signatures (chain (blockchain e))
    `prefix_of` map forget_signatures (chain (blockchain e1));
  ev_all_transactions :
    all_transactions (blockchain e) `prefix_of` all_transactions (blockchain e1);
  ev_sent : sent e `prefix_of` sent e1;
  ev_ticks : ticks (world e) <= ticks (world e1);
  ev_keys : keys_generated (world e) <= keys_generated (world e1);
  ev_hash_seed : hash_seed (world e1) = hash_seed (world e);
  ev_flag : protocol_restart_flag e = true -> protocol_restart_flag e1 = true;
  ev_kept : chain_kept (blockchain e) -> chain_kept (blockchain e1);
}.

(** A method all of whose returns leave the node evolved. *)
Definition keeps {env : PyEnv} {A : Type} (c : Proc A) : Prop :=
  forall (e : Employee) (a : A) (e1 : Employee), c e = Ok (a, e1) -> evolves e e1.

(** ** The broadcast fabric ([network/broadcaster.py]) *)

(** The attributes of a [Broadcaster]; a connection is represented by what was
    sent on it, oldest first. *)
Record Broadcaster : Type := mkBroadcaster {
  employees_connections : list (list Message);
  simulation_conn : list Message;
  should_stop : bool;
  finished_employees_num : nat;
  result_local_blockchain_sent : bool;
}.

(** [_broadcast_message]; without an excluded list nobody is excluded. *)
Definition _broadcast_message (message : Message) (excluded_list : option (list nat))
    (b : Broadcaster) : Broadcaster :=
  let excluded := default [] excluded_list in
  {| employees_connections :=
       imap (fun send_conn_id send_connection =>
               if bool_decide (send_conn_id ∈ excluded) then send_connection
               else (send_connection ++ [message])%list)
            (employees_connections b);
     simulation_conn := simulation_conn b;
     should_stop := should_stop b;
     finished_employees_num := finished_employees_num b;
     result_local_blockchain_sent := result_local_blockchain_sent b |}.

(** [_register_finished_employee] *)
Definition _register_finished_employee (b : Broadcaster) : Broadcaster :=
  let n := finished_employees_num b + 1 in
  {| employees_connections := employees_connections b;
     simulation_conn := simulation_conn b;
     should_stop := if bool_decide (EMPLOYEES_NUM <= n) then true else should_stop b;
     finished_employees_num := n;
     result_local_blockchain_sent := result_local_blockchain_sent b |}.

(** The dispatch of [stay_tuned_for_messages] on a message received from the
    employee connection [recv_conn_id]. *)
Definition relay_employee_message (recv_conn_id : nat) (recv_message : Message)
    (b : Broadcaster) : Broadcaster :=
  match recv_message with
  | EMPLOYEE_FINISHED => _register_finished_employee b
  | RESULT_LOCAL_BLOCKCHAIN _ =>
      if result_local_blockchain_sent b then b
      else
        {| employees_connections := employees_connections b;
           simulation_conn := simulation_conn b ++ [recv_message];
           should_stop := should_stop b;
           finished_employees_num := finished_employees_num b;
           result_local_blockchain_sent := true |}
  | _ => _broadcast_message recv_message (Some [recv_conn_id]) b
  end.




(** [Broadcaster.__init__], with [employees_num] connections nothing was sent
    on yet. *)
Definition Broadcaster_init (employees_num : nat) : Broadcaster :=
  {| employees_connections := replicate employees_num [];
     simulation_conn := []; should_stop := false; finished_employees_num := 0;
     result_local_blockchain_sent := false |}.

(** A message the fabric absorbs instead of relaying it. *)
Definition absorbed (m : Message) : bool :=
  match m with
  | EMPLOYEE_FINISHED | RESULT_LOCAL_BLOCKCHAIN _ => true
  | _ => false
  end.


(** ** Waiting and declaring ([employee/employee.py]) *)

Section Waiting.

Context {env : PyEnv}.

#[local] Notation "x <- c ;; k" := (bind c (fun x => k))
  (at level 100, c at next level, right associativity).
#[local] Notation "c ;;; k" := (bind c (fun _ => k))
  (at level 100, right associativity).

Definition set_training_declaration (td : option TrainingDeclaration) (e : Employee)
    : Employee :=
  {| name := name e; private_key := private_key e;
     employee_public_key := employee_public_key e;
     td_coinstake_of := td_coinstake_of e; bh_coinstake_of := bh_coinstake_of e;
     blockchain := blockchain e; model := model e;
     training_declaration := td;
     training_secret := training_secret e;
     employee_block_header := employee_block_header e;
     pending_transactions := pending_transactions e;
     training_declarations_book := training_declarations_book e;
     stakeholder_signatures_book := stakeholder_signatures_book e;
     employee_user := employee_user e;
     protocol_restart_flag := protocol_restart_flag e;
     sent := sent e; world := world e |}.

Definition set_employee_block_header (bh : option BlockHeader) (e : Employee)
    : Employee :=
  {| name := name e; private_key := private_key e;
     employee_public_key := employee_public_key e;
     td_coinstake_of := td_coinstake_of e; bh_coinstake_of := bh_coinstake_of e;
     blockchain := blockchain e; model := model e;
     training_declaration := training_declaration e;
     training_secret := training_secret e;
     employee_block_header := bh;
     pending_transactions := pending_transactions e;
     training_declarations_book := training_declarations_book e;
     stakeholder_signatures_book := stakeholder_signatures_book e;
     employee_user := employee_user e;
     protocol_restart_flag := protocol_restart_flag e;
     sent := sent e; world := world e |}.

(** [datetime.now().strftime(...)] in a method of the node. *)
Definition clock_now : Proc string :=
  fun e => let (now, w1) := read_clock (world e) in Ok (now, set_world w1 e).

(** [_create_training_declaration]: [sign_message] raises [TypeError] on a
    training secret that is still [None], and the constructor reads the
    attributes of the model. *)
Definition _create_training_declaration : Proc TrainingDeclaration :=
  sk <- gets private_key ;;
  secret <- gets training_secret ;;
  match secret with
  | None => raise TypeError
  | Some secret =>
      let training_secret_commitment := sign_message sk secret in
      m <- gets model ;;
      match m with
      | None => raise AttributeError
      | Some m =>
          pk <- gets employee_public_key ;;
          coinstake <- gets td_coinstake_of ;;
          fun e =>
            let (td, w1) :=
              TrainingDeclaration_init m training_secret_commitment coinstake pk
                (world e) in
            Ok (td, set_world w1 e)
      end
  end.

(** The message [_perform_pos_waiting_mechanism] is called on.  [simulate]
    passes the object held by [self.training_declaration] or the one held by
    [self.block_header]; the method changes that object in place, which here
    is a change of the attribute. *)
Inductive PoSMessageRef : Type :=
  | OwnTrainingDeclaration
  | OwnBlockHeader.

(** What one turn of a waiting loop meets: the messages its call of
    [_collect_messages] receives, and whether the turn has taken more than a
    second when it reaches [time.sleep(1.0 - execution_time)], which raises
    [ValueError] on a negative length. *)
Record WaitingTurn : Type := mkWaitingTurn {
  arrived : list Message;
  took_over_a_second : bool;
}.

(** [_perform_pos_waiting_mechanism] over the given turns.  The result is
    [true] when the method has returned, and [false] when it is still waiting
    after the last of the turns.  The debug line written before the test
    evaluates the difficulty of the node's own coinstake, which can raise. *)
Fixpoint _perform_pos_waiting_mechanism (pos_message : PoSMessageRef)
    (turns : list WaitingTurn) : Proc bool :=
  match turns with
  | [] => ret false
  | turn :: rest =>
      _collect_messages (arrived turn) ;;;
      flag <- gets protocol_restart_flag ;;
      if flag then ret true
      else
        match pos_message with
        | OwnTrainingDeclaration =>
            td <- gets training_declaration ;;
            match td with
            | None => raise AttributeError
            | Some td =>
                coinstake <- gets td_coinstake_of ;;
                lift (pos_td_difficulty coinstake) ;;;
                meets <- lift (check_meeting_pos_td_difficulty td) ;;
                if meets
                then
                  sk <- gets private_key ;;
                  let signed := sign td sk in
                  modify (set_training_declaration (Some signed)) ;;;
                  modify (fun e =>
                    set_training_declarations_book
                      (add_training_declaration_to_book signed
                         (training_declarations_book e)) e) ;;;
                  ret true
                else
                  now <- clock_now ;;
                  modify (set_training_declaration (Some (set_timestamp td now))) ;;;
                  if took_over_a_second turn then raise ValueError
                  else _perform_pos_waiting_mechanism pos_message rest
            end
        | OwnBlockHeader =>
            bh <- gets employee_block_header ;;
            match bh with
            | None => raise AttributeError
            | Some bh =>
                coinstake <- gets bh_coinstake_of ;;
                lift (pos_bh_difficulty coinstake) ;;;
                meets <- lift (check_meeting_pos_bh_difficulty bh) ;;
                if meets
                then
                  sk <- gets private_key ;;
                  modify (set_employee_block_header (Some (sign bh sk))) ;;;
                  ret true
                else
                  now <- clock_now ;;
                  modify (set_employee_block_header (Some (set_timestamp bh now))) ;;;
                  if took_over_a_second turn then raise ValueError
                  else _perform_pos_waiting_mechanism pos_message rest
            end
        end
  end.

(** [_wait_for_training_declarations] over the given calls of
    [_collect_messages]; [true] when the loop has ended. *)
Fixpoint _wait_for_training_declarations (id_s : string) (inboxes : list (list Message))
    : Proc bool :=
  fun e =>
    if bool_decide (get_training_declarations_num id_s (training_declarations_book e)
                    < EMPLOYER_CONFIDENCE)
    then
      match inboxes with
      | [] => Ok (false, e)
      | inbox :: rest =>
          (_collect_messages inbox ;;; _wait_for_training_declarations id_s rest) e
      end
    else Ok (true, e).


(** Two training declarations that differ in timestamp and signature at
    most. *)
Definition same_stake (td td1 : TrainingDeclaration) : Prop :=
  td_id_m td1 = td_id_m td /\ td_id_s td1 = td_id_s td
  /\ td_public_key td1 = td_public_key td /\ td_coinstake td1 = td_coinstake td
  /\ training_secret_commitment td1 = training_secret_commitment td
  /\ h_s td1 = h_s td.

(** Two block headers that differ in timestamp and signature at most. *)
Definition same_header (bh bh1 : BlockHeader) : Prop :=
  with_signature None (with_timestamp EmptyString bh1)
  = with_signature None (with_timestamp EmptyString bh).

End Waiting.

(** ** Further concrete inputs *)

Module Scenario.

Import Stub.

#[local] Existing Instance stub_env.

(** The genesis block of [sample_chain]. *)
Definition sample_tip : Block :=
  Block_init (env := stub_env) 0 (encode "0") "1969-07-20 20:17:40" None None
    (all_transactions sample_chain) None.

(** A header made on that block, then re-timestamped and signed, and a
    wrapped block around it. *)
Definition fitting_header : BlockHeader :=
  with_signature (Some (stub_key 4))
    (with_timestamp "t9"
       (fst (BlockHeader_init (env := stub_env) sample_model sample_tip [] BH_COINSTAKE
               (stub_key 9) [] sample_world))).

Definition fitting_wrapped_block : WrappedBlock :=
  {| wb_id_m := "dnn"; wb_id_s := "dnn:0"; wb_public_key := stub_key 9;
     wb_timestamp := "t2"; wb_signature := None; wb_block_header := fitting_header;
     wb_coinbase_transaction := sample_transaction; wb_transactions := [];
     wb_stakeholders_signatures := [] |}.

(** A wrapped block for index 1, signed by its maker. *)
Definition next_wrapped_block : WrappedBlock :=
  sign (env := stub_env)
    {| wb_id_m := "dnn"; wb_id_s := "dnn:0"; wb_public_key := stub_key 9;
       wb_timestamp := "t2"; wb_signature := None; wb_block_header := sample_header;
       wb_coinbase_transaction := sample_transaction;
       wb_transactions := [sample_transaction];
       wb_stakeholders_signatures := [signature_by 1 sample_header] |}
    (stub_key 9).

(** A declaration signed by its maker. *)
Definition sound_declaration : TrainingDeclaration :=
  sign (env := stub_env) fresh_declaration (stub_key 9).

Definition open_td_book : gmap string TDStage :=
  add_training_declaration_to_book fresh_declaration ∅.

(** The node "A", which the stub generator draws first. *)
Definition node_a : @Employee stub_env :=
  {| name := "A"; private_key := stub_key 7; employee_public_key := stub_key 7;
     td_coinstake_of := TD_COINSTAKE; bh_coinstake_of := BH_COINSTAKE;
     blockchain := sample_chain; model := Some sample_model;
     training_declaration := None; training_secret := None;
     employee_block_header := None; pending_transactions := [];
     training_declarations_book := ∅; stakeholder_signatures_book := ∅;
     employee_user := sample_user; protocol_restart_flag := false;
     sent := []; world := sample_world |}.

(** The node "C" after training, holding its unsigned declaration and header
    and one pending transaction. *)
Definition declaring_node : @Employee stub_env :=
  {| name := "C"; private_key := stub_key 9; employee_public_key := stub_key 9;
     td_coinstake_of := TD_COINSTAKE; bh_coinstake_of := BH_COINSTAKE;
     blockchain := sample_chain; model := Some sample_model;
     training_declaration := Some fresh_declaration;
     training_secret := Some (encode "secret");
     employee_block_header := Some sample_header;
     pending_transactions := [sample_transaction];
     training_declarations_book := ∅; stakeholder_signatures_book := ∅;
     employee_user := sample_user; protocol_restart_flag := false;
     sent := []; world := sample_world |}.

Definition quick_turn : WaitingTurn := {| arrived := []; took_over_a_second := false |}.

Definition slow_turn : WaitingTurn := {| arrived := []; took_over_a_second := true |}.

(** The stub with the highest difficulty: no hash meets it. *)
Definition hard_env : PyEnv := {|
  sha256_digest := fun data => data;
  pickle_td := fun td => (pickle_signature (td_signature td) ++ encode (td_timestamp td))%list;
  pickle_bh := fun bh => (pickle_signature (bh_signature bh) ++ encode (bh_timestamp bh))%list;
  pickle_wb := fun wb => (pickle_signature (wb_signature wb) ++ encode (wb_timestamp wb))%list;
  ed25519_public_key := fun sk => sk;
  ed25519_sign := fun sk message => (sk ++ message)%list;
  load_pem_public_key := fun _ => Ok tt;
  ed25519_verify := fun pk message s => Ok (bool_decide (s = (pk ++ message)%list));
  math_log2 := fun _ => 0%Q;
  coinbase_reward := fun _ => 1%Q;
  str_User := user_name;
  str_amount := fun _ => "1";
  str_Transaction := id;
  str_BlockHeader := bh_timestamp;
  str_StakeholderSignature := block_header_id;
  set_iter_names := fun seed l =>
    if Nat.even seed then remove_dups l else reverse (remove_dups l);
  set_iter_transactions := fun _ => dedup_transactions;
  prng := bytes;
  random_seed := fun rand_source => rand_source;
  random_draw := fun g population k => (take k population, g);
  datetime_now := fun k => pretty k;
  generate_key_pair_bytes := fun k => (stub_key k, stub_key k);
|}.

Definition slow_node : @Employee hard_env :=
  {| name := "C"; private_key := stub_key 9; employee_public_key := stub_key 9;
     td_coinstake_of := TD_COINSTAKE; bh_coinstake_of := BH_COINSTAKE;
     blockchain := empty_chain; model := Some sample_model;
     training_declaration := Some fresh_declaration;
     training_secret := Some (encode "secret");
     employee_block_header := Some sample_header;
     pending_transactions := [];
     training_declarations_book := ∅; stakeholder_signatures_book := ∅;
     employee_user := sample_user; protocol_restart_flag := false;
     sent := [];
     world := {| ticks := 0; keys_generated := 0;
                 rng := (([] : bytes) : @prng hard_env); hash_seed := 0 |} |}.

End Scenario.

(** ** Properties *)

Section Properties.

Context {env : PyEnv}.

(** *** Messages: serialization without signature, signing *)

Section MessageFrame.

Context {M : Type} `{HashSignSerial M}.

Hypothesis restore : forall (m : M) (s : option bytes),
  with_signature (signature m) (with_signature s m) = m.

Lemma dumps_without_sig_frame (m : M) : snd (dumps_without_sig m) = m.
Proof. unfold dumps_without_sig. cbn [snd]. apply restore. Qed.

Lemma dumps_without_sig_data (m : M) :
  fst (dumps_without_sig m) = pickle_dumps (with_signature None m).
Proof. reflexivity. Qed.

Lemma calculate_hash_frame (m : M) : snd (calculate_hash m) = m.
Proof.
  unfold calculate_hash.
  destruct (dumps_without_sig m) as [data m1] eqn:E.
  cbn [snd]. change m1 with (snd (data, m1)). rewrite <- E.
  apply dumps_without_sig_frame.
Qed.

Lemma get_id_frame (m : M) : snd (get_id m) = m.
Proof.
  unfold get_id.
  destruct (calculate_hash m) as [h m1] eqn:E.
  cbn [snd]. change m1 with (snd (h, m1)). rewrite <- E.
  apply calculate_hash_frame.
Qed.

End MessageFrame.

Lemma TrainingDeclaration_restore (m : TrainingDeclaration) (s : option bytes) :
  with_signature (signature m) (with_signature s m) = m.
Proof. destruct m; reflexivity. Qed.

Lemma BlockHeader_restore (m : BlockHeader) (s : option bytes) :
  with_signature (signature m) (with_signature s m) = m.
Proof. destruct m; reflexivity. Qed.

Lemma WrappedBlock_restore (m : WrappedBlock) (s : option bytes) :
  with_signature (signature m) (with_signature s m) = m.
Proof. destruct m; reflexivity. Qed.

(** C9.  [dumps_without_sig], and with it [calculate_hash] and [get_id], leave
    a message of each of the three classes as it was: the object after the
    call equals the object before it, signature included, and the pickle taken
    in between is the one of the object with its signature set to [None]. *)
Theorem dumps_without_sig_leaves_message_unchanged :
  (forall td : TrainingDeclaration,
      snd (dumps_without_sig td) = td /\ snd (calculate_hash td) = td
      /\ snd (get_id td) = td
      /\ fst (dumps_without_sig td) = pickle_td (with_signature None td))
  /\ (forall bh : BlockHeader,
      snd (dumps_without_sig bh) = bh /\ snd (calculate_hash bh) = bh
      /\ snd (get_id bh) = bh
      /\ fst (dumps_without_sig bh) = pickle_bh (with_signature None bh))
  /\ (forall wb : WrappedBlock,
      snd (dumps_without_sig wb) = wb /\ snd (calculate_hash wb) = wb
      /\ snd (get_id wb) = wb
      /\ fst (dumps_without_sig wb) = pickle_wb (with_signature None wb)).
Proof.
  split; [| split]; intros m; repeat split.
  - apply dumps_without_sig_frame, TrainingDeclaration_restore.
  - apply calculate_hash_frame, TrainingDeclaration_restore.
  - apply get_id_frame, TrainingDeclaration_restore.
  - apply dumps_without_sig_frame, BlockHeader_restore.
  - apply calculate_hash_frame, BlockHeader_restore.
  - apply get_id_frame, BlockHeader_restore.
  - apply dumps_without_sig_frame, WrappedBlock_restore.
  - apply calculate_hash_frame, WrappedBlock_restore.
  - apply get_id_frame, WrappedBlock_restore.
Qed.

(** *** Transactions *)




Lemma stamped_ids (n : option string) (ts : list Transaction) :
  map id (map (fun t => set_employee_name t n) ts) = map id ts.
Proof.
  induction ts as [| t ts IH]; [reflexivity |].
  cbn [map]. rewrite IH. reflexivity.
Qed.



(** *** Blocks *)

Lemma Block_init_hash (i : nat) (prev : bytes) (ts : string) (bh : option BlockHeader)
    (cb : option Transaction) (txs : list Transaction)
    (ss : option (list StakeholderSignature)) :
  hash (Block_init i prev ts bh cb txs ss)
  = sha256_digest (encode (block_data (Block_init i prev ts bh cb txs ss))).
Proof. reflexivity. Qed.

Lemma block_data_nonempty_transactions (i : nat) (prev : bytes) (ts : string)
    (bh : option BlockHeader) (cb : option Transaction) (t : Transaction)
    (txs : list Transaction) (ss ss' : option (list StakeholderSignature)) :
  block_data_of i prev ts bh cb (t :: txs) ss = block_data_of i prev ts bh cb (t :: txs) ss'.
Proof. reflexivity. Qed.

(** C3 (the code departs from this claim).  What [Block.__init__] stores as
    hash: without transactions and without signatures it is the digest of the
    empty string, whatever the index, the previous hash, the timestamp, the
    header and the coinbase transaction are; with transactions, the signatures
    do not enter it; and for the block of index 1 shown here the hashed string
    differs from the documented concatenation. *)
Theorem Block_hash_drops_fields :
  (forall (i : nat) (prev : bytes) (ts : string) (bh : option BlockHeader)
          (cb : option Transaction),
      hash (Block_init i prev ts bh cb [] None) = sha256_digest (encode "")
      /\ hash (Block_init i prev ts bh cb [] (Some [])) = sha256_digest (encode ""))
  /\ (forall (i : nat) (prev : bytes) (ts : string) (bh : option BlockHeader)
             (cb : option Transaction) (t : Transaction) (txs : list Transaction)
             (ss ss' : option (list StakeholderSignature)),
      hash (Block_init i prev ts bh cb (t :: txs) ss)
      = hash (Block_init i prev ts bh cb (t :: txs) ss'))
  /\ block_data (Block_init 1 (encode "0") "2024-01-01 00:00:00" None None [] None)
     <> block_data_documented
          (Block_init 1 (encode "0") "2024-01-01 00:00:00" None None [] None).
Proof.
  split; [| split].
  - intros i prev ts bh cb. split; reflexivity.
  - intros i prev ts bh cb t txs ss ss'. rewrite !Block_init_hash.
    unfold block_data. cbn [Block_init index previous_hash timestamp block_header
      coinbase_transaction transactions stakeholders_signatures].
    rewrite (block_data_nonempty_transactions i prev ts bh cb t txs ss ss'). reflexivity.
  - vm_compute. discriminate.
Qed.

(** *** The chain *)

Lemma chain_linked_snoc (c : list Block) (tip b : Block) :
  chain_linked c -> last c = Some tip ->
  previous_hash b = hash tip -> index b = index tip + 1 ->
  chain_linked (c ++ [b])%list.
Proof.
  intros Hc Hlast Hprev Hidx i x y Hx Hy.
  destruct (decide (S i < length c)) as [Hlt | Hge].
  - rewrite lookup_app_l in Hx by lia. rewrite lookup_app_l in Hy by lia.
    exact (Hc i x y Hx Hy).
  - assert (Hlen : S i < length (c ++ [b])%list) by (apply lookup_lt_is_Some; eauto).
    rewrite length_app in Hlen. cbn in Hlen.
    assert (Hi : S i = length c) by lia.
    rewrite lookup_app_l in Hx by lia.
    rewrite lookup_app_r in Hy by lia.
    replace (S i - length c) with 0 in Hy by lia. cbn in Hy.
    rewrite last_lookup in Hlast.
    replace (pred (length c)) with i in Hlast by lia.
    assert (x = tip) by congruence. assert (y = b) by congruence. subst x y.
    split; assumption.
Qed.

Lemma last_snoc_block (c : list Block) (b : Block) : last (c ++ [b])%list = Some b.
Proof. apply last_snoc. Qed.

Lemma append_fitted_wrapped_block_linked (wb : WrappedBlock) (bc : Blockchain)
    (w : World) (tip : Block) :
  chain_linked (chain bc) -> last (chain bc) = Some tip ->
  exists bc1 warned w1 b,
    append_fitted_wrapped_block wb bc w = Ok (bc1, warned, w1)
    /\ warned = fork_detected wb tip
    /\ chain bc1 = (chain bc ++ [b])%list
    /\ previous_hash b = hash tip /\ index b = index tip + 1
    /\ transactions b = wb_transactions wb
    /\ block_header b = Some (wb_block_header wb)
    /\ all_transactions bc1 = (all_transactions bc ++ wb_transactions wb)%list
    /\ chain_linked (chain bc1).
Proof.
  intros Hc Hlast. unfold append_fitted_wrapped_block, get_latest_block.
  rewrite Hlast. cbn [read_clock].
  eexists _, _, _, _. split; [reflexivity |].
  cbn [add_block chain all_transactions Block_init previous_hash index transactions
         block_header].
  repeat (split; [reflexivity |]).
  eapply chain_linked_snoc; eauto.
Qed.

Lemma append_all_linked (wbs : list WrappedBlock) :
  forall (bc : Blockchain) (w : World) (tip : Block),
    chain_linked (chain bc) -> last (chain bc) = Some tip ->
    exists bc1 w1,
      append_all wbs bc w = Ok (bc1, w1)
      /\ chain_linked (chain bc1)
      /\ length (chain bc1) = length (chain bc) + length wbs.
Proof.
  induction wbs as [| wb wbs IH]; intros bc w tip Hc Hlast.
  - exists bc, w. cbn [append_all length]. split; [reflexivity |]. split; [exact Hc | lia].
  - destruct (append_fitted_wrapped_block_linked wb bc w tip Hc Hlast)
      as (bc1 & warned & w1 & b & Happ & _ & Hchain & _ & _ & _ & _ & _ & Hc1).
    assert (Hlast1 : last (chain bc1) = Some b)
      by (rewrite Hchain; apply last_snoc_block).
    destruct (IH bc1 w1 b Hc1 Hlast1) as (bc2 & w2 & Hrun & Hc2 & Hlen).
    exists bc2, w2. cbn [append_all]. rewrite Happ. split; [exact Hrun |].
    split; [exact Hc2 |]. rewrite Hlen, Hchain, length_app. cbn. lia.
Qed.

Lemma append_genesis_block_chain (employees_names : list string) (owner : string)
    (w : World) :
  exists b,
    chain (fst (append_genesis_block employees_names
                  {| owner_name := owner; chain := []; all_transactions := [] |} w)) = [b]
    /\ index b = 0.
Proof.
  unfold append_genesis_block.
  destruct (User_init PlainUser "Genesis A" _ w) as [user_a w1].
  destruct (User_init PlainUser "Genesis B" _ w1) as [user_b w2].
  destruct (genesis_transactions user_a user_b employees_names w2) as [txs w3].
  eexists. split; reflexivity.
Qed.

(** C4.  The chain built by [append_genesis_block] followed by any calls of
    [append_fitted_wrapped_block] exists (no call raises), has one block per
    call after the genesis block, and links every block to its predecessor:
    the previous hash is the predecessor's hash and the index is the
    predecessor's plus one.  The wrapped blocks are arbitrary: nothing is
    assumed of their parent hashes.  A single append onto any tip succeeds
    whether or not the fork warning is given, and the new block carries the
    hash of the tip as previous hash and the next index. *)
Theorem chain_links_after_genesis_and_appends :
  (forall (owner : string) (employees_names : list string) (wbs : list WrappedBlock)
          (w : World),
    exists (bc : Blockchain) (w' : World),
      build_chain owner employees_names wbs w = Ok (bc, w')
      /\ length (chain bc) = 1 + length wbs
      /\ forall (i : nat) (b b' : Block),
           chain bc !! i = Some b -> chain bc !! (i + 1) = Some b' ->
           previous_hash b' = hash b /\ index b' = index b + 1)
  /\ (forall (owner : string) (c : list Block) (tip : Block) (txs : list Transaction)
             (wb : WrappedBlock) (w : World),
        exists (b : Block) (w' : World),
          append_fitted_wrapped_block wb
            {| owner_name := owner; chain := c ++ [tip]; all_transactions := txs |} w
          = Ok ({| owner_name := owner; chain := (c ++ [tip]) ++ [b];
                   all_transactions := txs ++ wb_transactions wb |},
                fork_detected wb tip, w')
          /\ previous_hash b = hash tip /\ index b = index tip + 1).
Proof.
  split.
  2: { intros owner c tip txs wb w.
       unfold append_fitted_wrapped_block, get_latest_block. cbn [chain].
       rewrite last_snoc_block. cbn [read_clock].
       eexists _, _. split; [reflexivity |]. split; reflexivity. }
  intros owner employees_names wbs w. unfold build_chain.
  destruct (append_genesis_block_chain employees_names owner w) as (g & Hg & _).
  destruct (append_genesis_block employees_names _ w) as [bc0 w0]. cbn [fst] in Hg.
  assert (Hc0 : chain_linked (chain bc0)).
  { rewrite Hg. intros i b b' _ Hb'. destruct i; discriminate. }
  assert (Hlast0 : last (chain bc0) = Some g) by (rewrite Hg; reflexivity).
  destruct (append_all_linked wbs bc0 w0 g Hc0 Hlast0) as (bc & w' & Hrun & Hc & Hlen).
  exists bc, w'. split; [exact Hrun |]. split.
  - rewrite Hlen, Hg. reflexivity.
  - intros i b b' Hb Hb'. replace (i + 1) with (S i) in Hb' by lia.
    exact (Hc i b b' Hb Hb').
Qed.

(** *** The books *)

Lemma add_training_declaration_other_stage (td : TrainingDeclaration)
    (book : gmap string TDStage) (id_s : string) :
  td_id_s td <> id_s ->
  add_training_declaration_to_book td book !! id_s = book !! id_s.
Proof.
  intros Hne. unfold add_training_declaration_to_book.
  destruct (book !! td_id_s td) as [stage |] eqn:E.
  - rewrite E. destruct (negb (td_open stage)); [reflexivity |].
    rewrite lookup_insert_ne by exact Hne. reflexivity.
  - rewrite lookup_insert_eq. cbn [negb td_open].
    rewrite !lookup_insert_ne by exact Hne. reflexivity.
Qed.

Lemma td_book_close_other_stage (id_s id_s' : string) (book book1 : gmap string TDStage) :
  td_book_close id_s' book = Ok book1 -> book !! id_s = None -> book1 !! id_s = None.
Proof.
  unfold td_book_close. intros Hclose Hnone.
  destruct (book !! id_s') as [stage |] eqn:E; [| discriminate].
  injection Hclose as <-.
  destruct (decide (id_s' = id_s)) as [-> | Hne]; [congruence |].
  rewrite lookup_insert_ne by exact Hne. exact Hnone.
Qed.

Lemma td_book_after_unknown_stage (id_s : string) (calls : list TDBookCall) :
  forall book book1 : gmap string TDStage,
    td_book_after calls book = Ok book1 ->
    (forall td, TDAdd td ∈ calls -> td_id_s td <> id_s) ->
    book !! id_s = None -> book1 !! id_s = None.
Proof.
  induction calls as [| call calls IH]; intros book book1 Hrun Hadds Hnone.
  - cbn in Hrun. congruence.
  - destruct call as [td | id_s']; cbn [td_book_after] in Hrun.
    + apply (IH _ _ Hrun).
      * intros td' Hin. apply Hadds. right. exact Hin.
      * rewrite add_training_declaration_other_stage; [exact Hnone |].
        apply Hadds. left.
    + destruct (td_book_close id_s' book) as [book' | x] eqn:E; [| discriminate].
      apply (IH _ _ Hrun).
      * intros td' Hin. apply Hadds. right. exact Hin.
      * eapply td_book_close_other_stage; eauto.
Qed.

(** C10.  A stage for which no declaration was ever added to the
    training-declarations book makes [close] and [get_training_declarations]
    raise [KeyError], while [get_training_declarations_num] returns 0; a stage
    the stakeholder-signatures book does not know makes its [close] return
    without changing the book, [get_signatures_for_block_header] return the
    empty list, [get_signatures_num] return 0 and [is_open] return true. *)
Theorem unknown_stage_queries :
  forall (id_s id_bh : string) (calls : list TDBookCall)
         (td_book : gmap string TDStage) (ss_book : gmap string SSStage),
    td_book_after calls ∅ = Ok td_book ->
    (forall td, TDAdd td ∈ calls -> td_id_s td <> id_s) ->
    ss_book !! id_s = None ->
    td_book_close id_s td_book = Raise KeyError
    /\ get_training_declarations id_s td_book = Raise KeyError
    /\ get_training_declarations_num id_s td_book = 0
    /\ ss_book_close id_s ss_book = ss_book
    /\ get_signatures_for_block_header id_s id_bh ss_book = []
    /\ get_signatures_num id_s id_bh ss_book = 0
    /\ is_open id_s ss_book = true.
Proof.
  intros id_s id_bh calls td_book ss_book Hrun Hadds Hss.
  assert (Htd : td_book !! id_s = None).
  { apply (td_book_after_unknown_stage id_s calls ∅ td_book Hrun Hadds).
    apply lookup_empty. }
  unfold td_book_close, get_training_declarations, get_training_declarations_num,
    ss_book_close, get_signatures_for_block_header, get_signatures_num, is_open.
  rewrite Htd, Hss. repeat split.
Qed.

Lemma add_training_declaration_closed (td : TrainingDeclaration)
    (book : gmap string TDStage) (stage : TDStage) :
  book !! td_id_s td = Some stage -> td_open stage = false ->
  add_training_declaration_to_book td book = book.
Proof.
  intros Hstage Hclosed. unfold add_training_declaration_to_book.
  rewrite Hstage, Hstage, Hclosed. reflexivity.
Qed.

Lemma add_signature_closed_known_header (ss : StakeholderSignature)
    (roy_flag : option bool) (book : gmap string SSStage) (stage : SSStage) :
  book !! bh_id_s (ss_block_header ss) = Some stage -> ss_open stage = false ->
  is_Some (sh_info stage !! fst (get_id (ss_block_header ss))) ->
  add_signature_to_book ss roy_flag book = book.
Proof.
  intros Hstage Hclosed [entry Hentry]. unfold add_signature_to_book.
  rewrite Hstage, Hstage, Hentry, Hclosed. cbn [negb].
  rewrite <- Hclosed. destruct stage as [o i]. cbn [ss_open sh_info].
  apply insert_id. exact Hstage.
Qed.

Lemma add_signature_closed_new_header (ss : StakeholderSignature)
    (roy_flag : option bool) (book : gmap string SSStage) (stage : SSStage) :
  book !! bh_id_s (ss_block_header ss) = Some stage -> ss_open stage = false ->
  sh_info stage !! fst (get_id (ss_block_header ss)) = None ->
  add_signature_to_book ss roy_flag book
  = <[bh_id_s (ss_block_header ss) :=
        {| ss_open := false;
           sh_info := <[fst (get_id (ss_block_header ss)) :=
                          {| sigs := []; roy := roy_flag |}]> (sh_info stage) |}]> book.
Proof.
  intros Hstage Hclosed Hentry. unfold add_signature_to_book.
  rewrite Hstage, Hstage, Hentry, Hclosed. reflexivity.
Qed.

(** C6 (as amended).  An add that targets a closed stage appends nothing.  The
    training-declarations book is left unchanged.  The stakeholder-signatures
    book is left unchanged when the header already has an entry in the stage;
    otherwise it gains an entry for the header with no signatures and the
    given Roy flag, and nothing else changes: the stage stays closed, and every
    list, count and open flag the book answers is as before. *)
Theorem add_to_closed_stage_appends_nothing :
  forall (td : TrainingDeclaration) (td_book : gmap string TDStage) (td_stage : TDStage)
         (ss : StakeholderSignature) (roy_flag : option bool)
         (ss_book : gmap string SSStage) (ss_stage : SSStage),
    td_book !! td_id_s td = Some td_stage -> td_open td_stage = false ->
    ss_book !! bh_id_s (ss_block_header ss) = Some ss_stage -> ss_open ss_stage = false ->
    add_training_declaration_to_book td td_book = td_book
    /\ (is_Some (sh_info ss_stage !! fst (get_id (ss_block_header ss))) ->
        add_signature_to_book ss roy_flag ss_book = ss_book)
    /\ (sh_info ss_stage !! fst (get_id (ss_block_header ss)) = None ->
        add_signature_to_book ss roy_flag ss_book
        = <[bh_id_s (ss_block_header ss) :=
              {| ss_open := false;
                 sh_info := <[fst (get_id (ss_block_header ss)) :=
                                {| sigs := []; roy := roy_flag |}]> (sh_info ss_stage) |}]>
            ss_book)
    /\ (forall s h : string,
          get_signatures_for_block_header s h (add_signature_to_book ss roy_flag ss_book)
          = get_signatures_for_block_header s h ss_book
          /\ get_signatures_num s h (add_signature_to_book ss roy_flag ss_book)
             = get_signatures_num s h ss_book
          /\ is_open s (add_signature_to_book ss roy_flag ss_book) = is_open s ss_book).
Proof.
  intros td td_book td_stage ss roy_flag ss_book ss_stage Htd Htdc Hss Hssc.
  split; [eapply add_training_declaration_closed; eauto |].
  split; [intros Hk; eapply add_signature_closed_known_header; eauto |].
  split; [intros Hn; eapply add_signature_closed_new_header; eauto |].
  intros s h.
  destruct (sh_info ss_stage !! fst (get_id (ss_block_header ss))) as [entry |] eqn:E.
  - rewrite (add_signature_closed_known_header ss roy_flag ss_book ss_stage Hss Hssc)
      by (rewrite E; eauto).
    repeat split.
  - rewrite (add_signature_closed_new_header ss roy_flag ss_book ss_stage Hss Hssc E).
    unfold get_signatures_for_block_header, get_signatures_num, is_open.
    destruct (decide (bh_id_s (ss_block_header ss) = s)) as [<- | Hne].
    + rewrite lookup_insert_eq, Hss. cbn [sh_info ss_open].
      destruct (decide (fst (get_id (ss_block_header ss)) = h)) as [<- | Hneh].
      * rewrite lookup_insert_eq, E. cbn [sigs length]. rewrite Hssc. repeat split.
      * rewrite lookup_insert_ne by exact Hneh. rewrite Hssc. repeat split.
    + rewrite lookup_insert_ne by exact Hne. repeat split.
Qed.

(** *** Inbound wrapped blocks *)

(** C7.  A wrapped block whose header index does not exceed the index of the
    local tip is dropped: the dispatch returns the node exactly as it was, with
    the same chain, pending pool, books, restart flag, sent messages and
    ambient state. *)
Theorem stale_wrapped_block_is_dropped :
  forall (e : Employee) (wb : WrappedBlock) (tip : Block),
    get_latest_block (blockchain e) = Ok tip ->
    block_index (wb_block_header wb) <= index tip ->
    collect_message (WRAPPED_BLOCK wb) e = Ok (tt, e).
Proof.
  intros e wb tip Htip Hle. unfold collect_message, bind, lift.
  rewrite Htip. rewrite bool_decide_eq_true_2 by exact Hle. reflexivity.
Qed.

(** *** Follow the coin *)

(** The committee is computed from the seed, the employee names of the
    aggregated transactions and the hash seed of the process; the generator is
    seeded anew, so its earlier state plays no part. *)
Lemma follow_the_coin_unfold (rand_source : bytes) (bc : Blockchain) (w : World) :
  follow_the_coin rand_source bc w
  = (fst (random_sample
            (set_iter_names (hash_seed w) (map employee_name (all_transactions bc)))
            STAKEHOLDERS_NUM (random_seed rand_source)),
     set_rng (snd (random_sample
                     (set_iter_names (hash_seed w)
                        (map employee_name (all_transactions bc)))
                     STAKEHOLDERS_NUM (random_seed rand_source))) w).
Proof.
  unfold follow_the_coin.
  destruct (random_sample _ _ _) as [r g]. reflexivity.
Qed.

Lemma follow_the_coin_same_names (rand_source : bytes) (bc1 bc2 : Blockchain)
    (w1 w2 : World) :
  map employee_name (all_transactions bc1) = map employee_name (all_transactions bc2) ->
  hash_seed w1 = hash_seed w2 ->
  fst (follow_the_coin rand_source bc1 w1) = fst (follow_the_coin rand_source bc2 w2)
  /\ rng (snd (follow_the_coin rand_source bc1 w1))
     = rng (snd (follow_the_coin rand_source bc2 w2)).
Proof.
  intros Hnames Hseed. rewrite !follow_the_coin_unfold. cbn [fst snd set_rng rng].
  rewrite Hnames, Hseed. split; reflexivity.
Qed.

Lemma random_sample_length (population : list (option string)) (k : nat) (g : prng)
    (l : list (option string)) :
  random_draw_has_length env ->
  fst (random_sample population k g) = Ok l -> length l = k.
Proof.
  intros Hdraw. unfold random_sample.
  destruct (decide (k <= length population)) as [Hle | Hgt]; [| discriminate].
  specialize (Hdraw g population k Hle).
  destruct (random_draw g population k) as [sample g1]. cbn [fst] in *.
  intros [= <-]. exact Hdraw.
Qed.

Lemma random_sample_returns (population : list (option string)) (k : nat) (g : prng) :
  k <= length population -> exists l, fst (random_sample population k g) = Ok l.
Proof.
  intros Hle. unfold random_sample.
  destruct (decide (k <= length population)) as [_ | Hgt]; [| contradiction].
  destruct (random_draw g population k) as [sample g1]. exists sample. reflexivity.
Qed.

(** *** Signing *)

Lemma sign_signature (td : TrainingDeclaration) (sk : bytes) :
  signature (sign td sk) = Some (sign_message sk (pickle_td td)).
Proof. reflexivity. Qed.

Lemma sign_dumps_without_sig (td : TrainingDeclaration) (sk : bytes) :
  fst (dumps_without_sig (sign td sk)) = pickle_td (with_signature None td).
Proof. reflexivity. Qed.

Lemma with_signature_own (td : TrainingDeclaration) (s : option bytes) :
  td_signature td = s -> with_signature s td = td.
Proof. intros <-. destruct td; reflexivity. Qed.

(** C5 (the code departs from this claim).  [sign] signs the pickle of the
    message as it is, its current signature included.  For a training
    declaration that already carries a signature, and a private key matching
    its public key, the new signature is therefore not one over
    [dumps_without_sig()], and verifying it against [dumps_without_sig()] does
    not return true. *)
Theorem sign_of_signed_message_does_not_verify :
  ed25519_binding env -> pickle_td_shows_signature env ->
  forall (td : TrainingDeclaration) (sk s : bytes),
    td_public_key td = ed25519_public_key sk ->
    td_signature td = Some s ->
    signature (sign td sk) = Some (sign_message sk (pickle_td td))
    /\ fst (dumps_without_sig (sign td sk)) <> pickle_td td
    /\ verify_signature (public_key (sign td sk)) (fst (dumps_without_sig (sign td sk)))
         (signature (sign td sk)) <> Ok true.
Proof.
  intros Hbind Hshow td sk s Hpk Hsig.
  assert (Hdiff : pickle_td (with_signature None td) <> pickle_td td).
  { intros Heq. apply (Hshow td s). rewrite (with_signature_own td (Some s) Hsig).
    symmetry. exact Heq. }
  split; [apply sign_signature |]. split.
  - rewrite sign_dumps_without_sig. exact Hdiff.
  - rewrite sign_signature, sign_dumps_without_sig.
    change (public_key (sign td sk)) with (td_public_key td). rewrite Hpk.
    cbn [verify_signature]. unfold sign_message. intros Hok.
    apply Hdiff. exact (Hbind sk _ _ Hok).
Qed.

(** *** The Roy stakeholder *)

Lemma add_signature_open_stage (ss : StakeholderSignature) (roy_flag : option bool)
    (book : gmap string SSStage) :
  is_open (bh_id_s (ss_block_header ss)) book = true ->
  get_signatures_num (bh_id_s (ss_block_header ss)) (fst (get_id (ss_block_header ss)))
    (add_signature_to_book ss roy_flag book)
  = S (get_signatures_num (bh_id_s (ss_block_header ss))
         (fst (get_id (ss_block_header ss))) book)
  /\ is_open (bh_id_s (ss_block_header ss)) (add_signature_to_book ss roy_flag book) = true.
Proof.
  unfold is_open, get_signatures_num, add_signature_to_book.
  set (id_s := bh_id_s (ss_block_header ss)).
  set (id_bh := fst (get_id (ss_block_header ss))).
  destruct (book !! id_s) as [stage |] eqn:Hstage.
  - intros Hopen. rewrite Hstage, Hopen. cbn [negb].
    destruct (sh_info stage !! id_bh) as [entry |] eqn:Hentry.
    + rewrite Hentry.
      repeat (rewrite lookup_insert_eq || cbn [sh_info ss_open sigs]).
      rewrite length_app. cbn [length]. split; [lia | reflexivity].
    + repeat (rewrite lookup_insert_eq || cbn [sh_info ss_open sigs]).
      split; reflexivity.
  - intros _.
    repeat (rewrite lookup_insert_eq || rewrite lookup_singleton_eq
            || cbn [sh_info ss_open sigs negb]).
    split; reflexivity.
Qed.

Lemma _am_i_roy_stakeholder_run (bh : BlockHeader) (e : Employee)
    (committee : list (option string)) (roy_name : option string) :
  fst (follow_the_coin (fst (calculate_hash bh)) (blockchain e) (world e)) = Ok committee ->
  last committee = Some roy_name ->
  exists w1 : World,
    _am_i_roy_stakeholder bh e
    = Ok (bool_decide (Some (name e) = roy_name), set_world w1 e)
    /\ hash_seed w1 = hash_seed (world e).
Proof.
  intros Hcoin Hlast.
  unfold _am_i_roy_stakeholder, bind, blockchain_follow_the_coin.
  rewrite follow_the_coin_unfold in Hcoin |- *.
  cbn [fst] in Hcoin. rewrite Hcoin.
  unfold lift, last_stakeholder. rewrite Hlast.
  eexists. split; reflexivity.
Qed.

Lemma _perform_roy_stakeholder_procedure_run (bh : BlockHeader) (e : Employee)
    (m : Model) (tip : Block) :
  model e = Some m -> get_latest_block (blockchain e) = Ok tip ->
  exists (e1 : Employee) (wb : WrappedBlock) (b : Block),
    _perform_roy_stakeholder_procedure bh e = Ok (tt, e1)
    /\ sent e1 = (sent e ++ [WRAPPED_BLOCK wb])%list
    /\ wb_block_header wb = bh
    /\ wb_transactions wb
       = map (fun t => set_employee_name t (Some (name e))) (pending_transactions e)
    /\ chain (blockchain e1) = (chain (blockchain e) ++ [b])%list
    /\ all_transactions (blockchain e1)
       = (all_transactions (blockchain e) ++ wb_transactions wb)%list
    /\ stakeholder_signatures_book e1 = stakeholder_signatures_book e
    /\ name e1 = name e /\ model e1 = model e
    /\ protocol_restart_flag e1 = true
    /\ hash_seed (world e1) = hash_seed (world e).
Proof.
  intros Hmodel Htip.
  unfold get_latest_block in Htip.
  destruct (last (chain (blockchain e))) as [tip' |] eqn:Hlast; [| discriminate].
  unfold _perform_roy_stakeholder_procedure, _create_wrapped_block,
    _get_pending_transactions_and_set_employee, bind, gets, ret.
  rewrite Hmodel. unfold WrappedBlock_init, message_init, CoinbaseUser_init, User_init,
    fresh_key_pair, read_clock.
  cbn [world ticks keys_generated rng].
  destruct (generate_key_pair_bytes (keys_generated (world e))) as [csk cpk].
  unfold create_transaction. cbn [user_class].
  unfold Transaction_init, read_clock. cbn [ticks keys_generated rng].
  unfold connection_send, modify, blockchain_append_fitted_wrapped_block,
    append_fitted_wrapped_block, get_latest_block,
    _remove_served_trans_from_pending_trans, modify.
  cbn [blockchain set_sent set_world set_blockchain world]. rewrite Hlast.
  cbn [read_clock ticks].
  eexists _, _, _. split; [reflexivity |].
  cbn. repeat split. exact Hmodel.
Qed.

(** A stakeholder signature received by the Roy node of its header, when the
    book is open for the stage and holds all but at most one of the signatures
    the trigger asks for: the signature is added and the Roy procedure runs. *)
Lemma collect_signature_as_roy (e : Employee) (ss : StakeholderSignature) (m : Model)
    (tip : Block) (committee : list (option string)) :
  model e = Some m ->
  get_latest_block (blockchain e) = Ok tip ->
  fst (follow_the_coin (fst (calculate_hash (ss_block_header ss))) (blockchain e) (world e))
  = Ok committee ->
  last committee = Some (Some (name e)) ->
  is_open (bh_id_s (ss_block_header ss)) (stakeholder_signatures_book e) = true ->
  STAKEHOLDERS_NUM - 2
  <= get_signatures_num (bh_id_s (ss_block_header ss))
       (fst (get_id (ss_block_header ss))) (stakeholder_signatures_book e) ->
  exists (e1 : Employee) (wb : WrappedBlock) (b : Block),
    collect_message (STAKEHOLDER_SIGNATURE ss) e = Ok (tt, e1)
    /\ sent e1 = (sent e ++ [WRAPPED_BLOCK wb])%list
    /\ wb_block_header wb = ss_block_header ss
    /\ chain (blockchain e1) = (chain (blockchain e) ++ [b])%list
    /\ all_transactions (blockchain e1)
       = (all_transactions (blockchain e)
            ++ map (fun t => set_employee_name t (Some (name e))) (pending_transactions e))%list
    /\ stakeholder_signatures_book e1
       = add_signature_to_book ss (Some true) (stakeholder_signatures_book e)
    /\ name e1 = name e /\ model e1 = model e
    /\ protocol_restart_flag e1 = true
    /\ hash_seed (world e1) = hash_seed (world e).
Proof.
  intros Hmodel Htip Hcoin Hlast Hopen Hnum.
  destruct (_am_i_roy_stakeholder_run _ e committee _ Hcoin Hlast) as [w1 [Hroy Hseed1]].
  rewrite bool_decide_eq_true_2 in Hroy by reflexivity.
  destruct (add_signature_open_stage ss (Some true) _ Hopen) as [Hcount _].
  set (ea := set_stakeholder_signatures_book
               (add_signature_to_book ss (Some true) (stakeholder_signatures_book e))
               (set_world w1 e)).
  destruct (_perform_roy_stakeholder_procedure_run (ss_block_header ss) ea m tip)
    as (e1 & wb & b & Hrun & Hsent & Hbh & Htxs & Hchain & Hall & Hbook & Hname & Hmod
        & Hflag & Hseed);
    [exact Hmodel | exact Htip |].
  exists e1, wb, b. split.
  - unfold collect_message, bind at 1. rewrite Hroy.
    unfold bind at 1, modify at 1. cbn [stakeholder_signatures_book set_world].
    fold ea. unfold bind at 1, gets at 1.
    change (stakeholder_signatures_book ea)
      with (add_signature_to_book ss (Some true) (stakeholder_signatures_book e)).
    rewrite Hcount. rewrite bool_decide_eq_true_2 by (unfold STAKEHOLDERS_NUM in *; lia).
    exact Hrun.
  - rewrite Hsent, Hbh, Hchain, Hall, Htxs, Hbook, Hname, Hmod, Hflag, Hseed.
    repeat split. exact Hseed1.
Qed.

(** C2 (the code departs from this claim).  On the Roy node of a header, with
    an empty pending pool and one signature short of the trigger, a received
    stakeholder signature makes the node finalize: a wrapped block is sent and
    appended.  The stage of the header is still open in the book afterwards,
    and a further signature for the same header is counted and makes the node
    finalize once more: a second wrapped block is sent and appended. *)
Theorem roy_finalization_leaves_book_open :
  forall (e : Employee) (ss1 ss2 : StakeholderSignature) (m : Model) (tip : Block)
         (committee : list (option string)),
    ss_block_header ss2 = ss_block_header ss1 ->
    model e = Some m ->
    get_latest_block (blockchain e) = Ok tip ->
    pending_transactions e = [] ->
    fst (follow_the_coin (fst (calculate_hash (ss_block_header ss1)))
           (blockchain e) (world e)) = Ok committee ->
    last committee = Some (Some (name e)) ->
    is_open (bh_id_s (ss_block_header ss1)) (stakeholder_signatures_book e) = true ->
    get_signatures_num (bh_id_s (ss_block_header ss1))
      (fst (get_id (ss_block_header ss1))) (stakeholder_signatures_book e)
    = STAKEHOLDERS_NUM - 2 ->
    exists (e1 e2 : Employee) (wb1 wb2 : WrappedBlock),
      collect_message (STAKEHOLDER_SIGNATURE ss1) e = Ok (tt, e1)
      /\ sent e1 = (sent e ++ [WRAPPED_BLOCK wb1])%list
      /\ get_chain_length (blockchain e1) = get_chain_length (blockchain e) + 1
      /\ is_open (bh_id_s (ss_block_header ss1)) (stakeholder_signatures_book e1) = true
      /\ collect_message (STAKEHOLDER_SIGNATURE ss2) e1 = Ok (tt, e2)
      /\ get_signatures_num (bh_id_s (ss_block_header ss1))
           (fst (get_id (ss_block_header ss1))) (stakeholder_signatures_book e2)
         = STAKEHOLDERS_NUM
      /\ sent e2 = (sent e ++ [WRAPPED_BLOCK wb1; WRAPPED_BLOCK wb2])%list
      /\ wb_block_header wb1 = ss_block_header ss1
      /\ wb_block_header wb2 = ss_block_header ss1
      /\ get_chain_length (blockchain e2) = get_chain_length (blockchain e) + 2.
Proof.
  intros e ss1 ss2 m tip committee Hsame Hmodel Htip Hpending Hcoin Hlast Hopen Hnum.
  destruct (collect_signature_as_roy e ss1 m tip committee Hmodel Htip Hcoin Hlast Hopen)
    as (e1 & wb1 & b1 & Hrun1 & Hsent1 & Hbh1 & Hchain1 & Hall1 & Hbook1 & Hname1
        & Hmod1 & _ & Hseed1); [rewrite Hnum; lia |].
  destruct (add_signature_open_stage ss1 (Some true) _ Hopen) as [Hcount1 Hopen1].
  rewrite Hpending in Hall1. cbn [map] in Hall1. rewrite app_nil_r in Hall1.
  assert (Hcoin2 : fst (follow_the_coin (fst (calculate_hash (ss_block_header ss2)))
                          (blockchain e1) (world e1)) = Ok committee).
  { rewrite Hsame, <- Hcoin.
    apply follow_the_coin_same_names; [rewrite Hall1; reflexivity | exact Hseed1]. }
  assert (Htip1 : get_latest_block (blockchain e1) = Ok b1).
  { unfold get_latest_block. rewrite Hchain1, last_snoc_block. reflexivity. }
  assert (Hopen2 : is_open (bh_id_s (ss_block_header ss2))
                     (stakeholder_signatures_book e1) = true).
  { rewrite Hsame, Hbook1. exact Hopen1. }
  destruct (collect_signature_as_roy e1 ss2 m b1 committee) as
    (e2 & wb2 & b2 & Hrun2 & Hsent2 & Hbh2 & Hchain2 & _ & Hbook2 & _);
    [congruence | exact Htip1 | exact Hcoin2 | congruence | exact Hopen2
    | rewrite Hsame, Hbook1, Hcount1, Hnum; unfold STAKEHOLDERS_NUM; lia |].
  destruct (add_signature_open_stage ss2 (Some true) _ Hopen2) as [Hcount2 _].
  exists e1, e2, wb1, wb2.
  split; [exact Hrun1 |]. split; [exact Hsent1 |].
  split; [unfold get_chain_length; rewrite Hchain1, length_app; reflexivity |].
  split; [rewrite Hbook1; exact Hopen1 |].
  split; [exact Hrun2 |].
  split.
  { rewrite Hbook2. rewrite Hsame in Hcount2. rewrite Hcount2, Hbook1, Hcount1, Hnum.
    reflexivity. }
  split; [rewrite Hsent2, Hsent1, <- app_assoc; reflexivity |].
  split; [exact Hbh1 |]. split; [congruence |].
  unfold get_chain_length. rewrite Hchain2, Hchain1, !length_app. cbn [length]. lia.
Qed.

(** *** Signing a fresh message *)

Lemma sign_fresh_training_declaration (td : TrainingDeclaration) (sk : bytes) :
  ed25519_correct env -> td_signature td = None ->
  td_public_key td = ed25519_public_key sk ->
  signature_is_valid (sign td sk) = Ok true.
Proof.
  intros Hcorrect Hsig Hpk. unfold signature_is_valid.
  rewrite sign_signature, sign_dumps_without_sig.
  change (public_key (sign td sk)) with (td_public_key td).
  rewrite (with_signature_own td None Hsig), Hpk. apply Hcorrect.
Qed.

Lemma sign_fresh_block_header (bh : BlockHeader) (sk : bytes) :
  ed25519_correct env -> bh_signature bh = None ->
  bh_public_key bh = ed25519_public_key sk ->
  signature_is_valid (sign bh sk) = Ok true.
Proof.
  intros Hcorrect Hsig Hpk. unfold signature_is_valid.
  change (public_key (sign bh sk)) with (bh_public_key bh).
  change (signature (sign bh sk)) with (Some (sign_message sk (pickle_bh bh))).
  change (fst (dumps_without_sig (sign bh sk))) with (pickle_bh (with_signature None bh)).
  replace (with_signature None bh) with bh by (destruct bh; cbn in *; subst; reflexivity).
  rewrite Hpk. apply Hcorrect.
Qed.

Lemma sign_fresh_wrapped_block (wb : WrappedBlock) (sk : bytes) :
  ed25519_correct env -> wb_signature wb = None ->
  wb_public_key wb = ed25519_public_key sk ->
  signature_is_valid (sign wb sk) = Ok true.
Proof.
  intros Hcorrect Hsig Hpk. unfold signature_is_valid.
  change (public_key (sign wb sk)) with (wb_public_key wb).
  change (signature (sign wb sk)) with (Some (sign_message sk (pickle_wb wb))).
  change (fst (dumps_without_sig (sign wb sk))) with (pickle_wb (with_signature None wb)).
  replace (with_signature None wb) with wb by (destruct wb; cbn in *; subst; reflexivity).
  rewrite Hpk. apply Hcorrect.
Qed.

(** X1.  A message that carries no signature yet and is signed with the
    private key of its public key passes the signature check of
    [_verify_alien_message_soundness]. *)
Theorem sign_then_verify_fresh :
  ed25519_correct env ->
  forall (td : TrainingDeclaration) (bh : BlockHeader) (wb : WrappedBlock) (sk : bytes),
    td_signature td = None -> td_public_key td = ed25519_public_key sk ->
    bh_signature bh = None -> bh_public_key bh = ed25519_public_key sk ->
    wb_signature wb = None -> wb_public_key wb = ed25519_public_key sk ->
    signature_is_valid (sign td sk) = Ok true
    /\ signature_is_valid (sign bh sk) = Ok true
    /\ signature_is_valid (sign wb sk) = Ok true.
Proof.
  intros Hcorrect td bh wb sk Htd Htdk Hbh Hbhk Hwb Hwbk.
  split; [apply sign_fresh_training_declaration; assumption |].
  split; [apply sign_fresh_block_header; assumption
         | apply sign_fresh_wrapped_block; assumption].
Qed.

End Properties.

(** ** Further properties *)

Section FurtherProperties.

Context {env : PyEnv}.

(** *** Leading zero bits *)

Lemma bits_to_N_bound (bits : list bool) :
  (bits_to_N bits < 2 ^ N.of_nat (length bits))%N.
Proof.
  induction bits as [| b bits IH]; [cbn; lia |].
  cbn [bits_to_N length]. rewrite Nat2N.inj_succ, N.pow_succ_r'.
  destruct b; cbn [N.b2n]; lia.
Qed.

Lemma bits_to_N_app (l1 l2 : list bool) :
  bits_to_N (l1 ++ l2)%list
  = (bits_to_N l1 * 2 ^ N.of_nat (length l2) + bits_to_N l2)%N.
Proof.
  induction l1 as [| b l1 IH]; [cbn; lia |].
  cbn [app bits_to_N]. rewrite IH, length_app, Nat2N.inj_add, N.pow_add_r. lia.
Qed.

Lemma byte_bits_value (b : byte) : bits_to_N (byte_bits b) = Byte.to_N b.
Proof. destruct b; vm_compute; reflexivity. Qed.

Lemma byte_bits_length (b : byte) : length (byte_bits b) = 8.
Proof. reflexivity. Qed.

Lemma bits_of_bytes_length (bs : bytes) :
  length (concat (map byte_bits bs)) = 8 * length bs.
Proof.
  induction bs as [| b bs IH]; [reflexivity |].
  cbn [map concat]. rewrite length_app, IH, byte_bits_length. cbn [length]. lia.
Qed.

Lemma bits_of_bytes_value (bs : bytes) :
  bits_to_N (concat (map byte_bits bs)) = int_from_bytes_big bs.
Proof.
  induction bs as [| b bs IH]; [reflexivity |].
  cbn [map concat int_from_bytes_big].
  rewrite bits_to_N_app, IH, byte_bits_value, bits_of_bytes_length.
  replace (N.of_nat (8 * length bs)) with (8 * N.of_nat (length bs))%N by lia.
  rewrite N.pow_mul_r. reflexivity.
Qed.

Lemma leading_zeros_bound (bits : list bool) : leading_zeros bits <= length bits.
Proof.
  induction bits as [| [] bits IH]; cbn [leading_zeros length]; lia.
Qed.

Lemma leading_zeros_value (bits : list bool) :
  forall k : nat,
    k <= length bits ->
    (k <= leading_zeros bits
     <-> (bits_to_N bits < 2 ^ N.of_nat (length bits - k))%N).
Proof.
  induction bits as [| b bits IH]; intros k Hk.
  - cbn in *. replace k with 0 by lia. cbn. split; lia.
  - pose proof (bits_to_N_bound bits) as Hb.
    destruct k as [| k].
    + split; [intros _ | lia].
      rewrite Nat.sub_0_r. apply (bits_to_N_bound (b :: bits)).
    + cbn [length] in Hk. cbn [length Nat.sub].
      destruct b; cbn [leading_zeros bits_to_N N.b2n].
      * split; [lia |]. intros Hlt.
        assert (2 ^ N.of_nat (length bits - k) <= 2 ^ N.of_nat (length bits))%N
          by (apply N.pow_le_mono_r; lia).
        lia.
      * rewrite <- (IH k) by lia. lia.
Qed.

(** X2.  [count_leading_zeros] never exceeds the number of bits, and it is at
    least [k] exactly when the byte string, read as a big-endian number, is
    below [2 ^ (8 * len - k)]: the difficulty test is a bound on the hash. *)
Theorem count_leading_zeros_is_a_bound :
  forall (bytes_obj : bytes) (k : nat),
    k <= 8 * length bytes_obj ->
    count_leading_zeros bytes_obj <= 8 * length bytes_obj
    /\ (k <= count_leading_zeros bytes_obj
        <-> (int_from_bytes_big bytes_obj < 2 ^ N.of_nat (8 * length bytes_obj - k))%N).
Proof.
  intros bs k Hk. unfold count_leading_zeros.
  rewrite <- bits_of_bytes_length, <- bits_of_bytes_value. split.
  - apply leading_zeros_bound.
  - apply leading_zeros_value. rewrite bits_of_bytes_length. exact Hk.
Qed.

(** *** The chain: validity, genesis, committee *)

Lemma is_chain_valid_loop_spec (rest : list Block) :
  forall previous_block : Block,
    is_chain_valid_loop previous_block rest = true
    <-> forall (i : nat) (prev cur : Block),
          (previous_block :: rest) !! i = Some prev ->
          (previous_block :: rest) !! S i = Some cur ->
          hash cur = Block_calculate_hash cur /\ previous_hash cur = hash prev.
Proof.
  induction rest as [| current rest IH]; intros previous_block.
  - cbn [is_chain_valid_loop]. split; [| reflexivity].
    intros _ i prev cur _ Hcur. destruct i; discriminate.
  - cbn [is_chain_valid_loop].
    destruct (decide (hash current = Block_calculate_hash current)) as [Hh | Hh].
    + rewrite (bool_decide_eq_false_2 _ (fun H => H Hh)).
      destruct (decide (previous_hash current = hash previous_block)) as [Hp | Hp].
      * rewrite (bool_decide_eq_false_2 _ (fun H => H Hp)). rewrite IH. split.
        -- intros Hrest [| i] prev cur Hprev Hcur.
           ++ cbn in Hprev, Hcur. injection Hprev as <-. injection Hcur as <-.
              split; assumption.
           ++ exact (Hrest i prev cur Hprev Hcur).
        -- intros Hall i prev cur Hprev Hcur. exact (Hall (S i) prev cur Hprev Hcur).
      * rewrite (bool_decide_eq_true_2 _ Hp). split; [discriminate |].
        intros Hall. destruct (Hall 0 previous_block current eq_refl eq_refl) as [_ Hp'].
        contradiction.
    + rewrite (bool_decide_eq_true_2 _ Hh). split; [discriminate |].
      intros Hall. destruct (Hall 0 previous_block current eq_refl eq_refl) as [Hh' _].
      contradiction.
Qed.

(** X3.  [is_chain_valid] returns true exactly when every block after the first
    stores the hash its fields give and names the stored hash of its
    predecessor as previous hash; the first block is never examined, and block
    indices never are. *)
Theorem is_chain_valid_spec :
  forall bc : Blockchain,
    is_chain_valid bc = true
    <-> forall (i : nat) (prev cur : Block),
          chain bc !! i = Some prev -> chain bc !! S i = Some cur ->
          hash cur = Block_calculate_hash cur /\ previous_hash cur = hash prev.
Proof.
  intros bc. unfold is_chain_valid.
  destruct (chain bc) as [| first rest].
  - split; [| reflexivity]. intros _ i prev cur Hprev. discriminate.
  - apply is_chain_valid_loop_spec.
Qed.

Lemma Block_init_consistent (i : nat) (prev : bytes) (ts : string)
    (bh : option BlockHeader) (cb : option Transaction) (txs : list Transaction)
    (ss : option (list StakeholderSignature)) :
  block_hash_consistent (Block_init i prev ts bh cb txs ss).
Proof. reflexivity. Qed.

Lemma append_fitted_wrapped_block_sound (wb : WrappedBlock) (bc : Blockchain)
    (w : World) (tip : Block) :
  chain_sound bc -> last (chain bc) = Some tip ->
  exists bc1 w1 b,
    append_fitted_wrapped_block wb bc w = Ok (bc1, fork_detected wb tip, w1)
    /\ chain bc1 = (chain bc ++ [b])%list
    /\ chain_sound bc1.
Proof.
  intros (Hlink & Hcons & Hall) Hlast.
  unfold append_fitted_wrapped_block, get_latest_block. rewrite Hlast. cbn [read_clock].
  eexists _, _, _. split; [reflexivity |].
  unfold chain_sound. cbn [add_block chain all_transactions]. split; [reflexivity |].
  split; [| split].
  - eapply chain_linked_snoc; eauto.
  - apply Forall_app. split; [exact Hcons |].
    constructor; [apply Block_init_consistent | constructor].
  - rewrite List.map_app, concat_app, Hall. cbn. rewrite app_nil_r. reflexivity.
Qed.

Lemma append_all_sound (wbs : list WrappedBlock) :
  forall (bc : Blockchain) (w : World) (tip : Block),
    chain_sound bc -> last (chain bc) = Some tip ->
    exists bc1 w1, append_all wbs bc w = Ok (bc1, w1) /\ chain_sound bc1.
Proof.
  induction wbs as [| wb wbs IH]; intros bc w tip Hs Hlast.
  - exists bc, w. split; [reflexivity | exact Hs].
  - destruct (append_fitted_wrapped_block_sound wb bc w tip Hs Hlast)
      as (bc1 & w1 & b & Happ & Hchain & Hs1).
    assert (Hlast1 : last (chain bc1) = Some b)
      by (rewrite Hchain; apply last_snoc_block).
    destruct (IH bc1 w1 b Hs1 Hlast1) as (bc2 & w2 & Hrun & Hs2).
    exists bc2, w2. cbn [append_all]. rewrite Happ. split; assumption.
Qed.

Lemma genesis_transactions_names (user_a user_b : User) (names : list string) :
  user_class user_a = PlainUser ->
  forall w : World,
    map employee_name (fst (genesis_transactions user_a user_b names w))
    = map Some names
    /\ Forall (fun t => sender t = user_a /\ receiver t = user_b /\ amount t = 1%Q)
         (fst (genesis_transactions user_a user_b names w)).
Proof.
  intros Hcls. induction names as [| n names IH]; intros w.
  - split; [reflexivity | constructor].
  - cbn [genesis_transactions]. unfold create_transaction. rewrite Hcls.
    unfold Transaction_init. cbn [read_clock].
    specialize (IH {| ticks := S (ticks w); keys_generated := keys_generated w;
                      rng := rng w;
                     hash_seed := hash_seed w |}).
    destruct (genesis_transactions user_a user_b names _) as [ts w2].
    cbn [fst map employee_name] in *. destruct IH as [IHn IHf].
    split; [rewrite IHn; reflexivity |].
    constructor; [repeat split | exact IHf].
Qed.

Lemma User_init_fields (cls : UserClass) (n : string) (b : Amount) (w : World) :
  user_class (fst (User_init cls n b w)) = cls
  /\ user_name (fst (User_init cls n b w)) = n.
Proof.
  unfold User_init, fresh_key_pair.
  destruct (generate_key_pair_bytes (keys_generated w)) as [sk pk].
  split; reflexivity.
Qed.

(** X4.  After [append_genesis_block] on a new blockchain the chain is the one
    genesis block, of index 0 and previous hash "0", without header, coinbase
    transaction and signatures; its transactions are the aggregated ones, one
    per employee name in the order given, each of amount 1 from "Genesis A" to
    "Genesis B". *)
Theorem genesis_block_lists_every_employee :
  forall (owner : string) (employees_names : list string) (w : World),
  exists b : Block,
    chain (fst (append_genesis_block employees_names
                  {| owner_name := owner; chain := []; all_transactions := [] |} w)) = [b]
    /\ index b = 0 /\ previous_hash b = encode "0"
    /\ block_header b = None /\ coinbase_transaction b = None
    /\ stakeholders_signatures b = None
    /\ all_transactions (fst (append_genesis_block employees_names
                  {| owner_name := owner; chain := []; all_transactions := [] |} w))
       = transactions b
    /\ map employee_name (transactions b) = map Some employees_names
    /\ Forall (fun t => user_name (sender t) = "Genesis A"
                        /\ user_name (receiver t) = "Genesis B" /\ amount t = 1%Q)
         (transactions b).
Proof.
  intros owner names w. unfold append_genesis_block.
  pose proof (User_init_fields PlainUser "Genesis A"
                (inject_Z (Z.of_nat EMPLOYEES_NUM)) w) as [Hca Hna].
  destruct (User_init PlainUser "Genesis A" _ w) as [user_a w1].
  pose proof (User_init_fields PlainUser "Genesis B" 0%Q w1) as [_ Hnb].
  destruct (User_init PlainUser "Genesis B" _ w1) as [user_b w2].
  cbn [fst] in Hca, Hna, Hnb.
  destruct (genesis_transactions_names user_a user_b names Hca w2) as [Hn Hf].
  destruct (genesis_transactions user_a user_b names w2) as [txs w3].
  cbn [fst] in Hn, Hf. eexists. split; [reflexivity |].
  cbn [Block_init index previous_hash block_header coinbase_transaction
         stakeholders_signatures transactions add_block all_transactions fst app].
  repeat (split; [reflexivity |]). split; [exact Hn |].
  eapply Forall_impl; [exact Hf |].
  intros t (-> & -> & Ha). repeat split; assumption.
Qed.

Lemma chain_sound_is_valid (bc : Blockchain) :
  chain_sound bc -> is_chain_valid bc = true.
Proof.
  intros (Hl & Hc & _). unfold is_chain_valid.
  destruct (chain bc) as [| first rest] eqn:E; [reflexivity |].
  apply is_chain_valid_loop_spec. intros i prev cur Hprev Hcur. split.
  - rewrite Forall_lookup in Hc. exact (Hc (S i) cur Hcur).
  - exact (proj1 (Hl i prev cur Hprev Hcur)).
Qed.

Lemma append_genesis_block_sound (owner : string) (employees_names : list string)
    (w : World) :
  exists g : Block,
    chain (fst (append_genesis_block employees_names
                  {| owner_name := owner; chain := []; all_transactions := [] |} w)) = [g]
    /\ chain_sound (fst (append_genesis_block employees_names
                  {| owner_name := owner; chain := []; all_transactions := [] |} w)).
Proof.
  unfold append_genesis_block.
  destruct (User_init PlainUser "Genesis A" _ w) as [user_a w1].
  destruct (User_init PlainUser "Genesis B" _ w1) as [user_b w2].
  destruct (genesis_transactions user_a user_b employees_names w2) as [txs w3].
  cbn [fst add_block chain all_transactions app]. eexists. split; [reflexivity |].
  unfold chain_sound. cbn [chain all_transactions]. split; [| split].
  - intros i b b' _ Hb'. destruct i; discriminate.
  - constructor; [apply Block_init_consistent | constructor].
  - cbn. rewrite app_nil_r. reflexivity.
Qed.

(** X5.  The chain built by [append_genesis_block] and any calls of
    [append_fitted_wrapped_block] passes [is_chain_valid], every block stores
    the hash of its fields, and [all_transactions] is the concatenation of the
    blocks' transactions in chain order. *)
Theorem built_chain_is_valid :
  forall (owner : string) (employees_names : list string) (wbs : list WrappedBlock)
         (w : World),
  exists (bc : Blockchain) (w' : World),
    build_chain owner employees_names wbs w = Ok (bc, w')
    /\ is_chain_valid bc = true
    /\ Forall (fun b => hash b = Block_calculate_hash b) (chain bc)
    /\ all_transactions bc = concat (map transactions (chain bc)).
Proof.
  intros owner names wbs w. unfold build_chain.
  destruct (append_genesis_block_sound owner names w) as (g & Hg & Hs0).
  destruct (append_genesis_block names _ w) as [bc0 w0]. cbn [fst] in Hg, Hs0.
  assert (Hlast0 : last (chain bc0) = Some g) by (rewrite Hg; reflexivity).
  destruct (append_all_sound wbs bc0 w0 g Hs0 Hlast0) as (bc & w' & Hrun & Hs).
  exists bc, w'. split; [exact Hrun |]. split; [exact (chain_sound_is_valid bc Hs) |].
  destruct Hs as (_ & Hc & Ha). split; assumption.
Qed.

Lemma is_chain_valid_loop_ext (rest rest' : list Block) :
  forall p p' : Block,
    hash p = hash p' ->
    Forall2 (fun b b' => hash b = hash b' /\ previous_hash b = previous_hash b'
                         /\ Block_calculate_hash b = Block_calculate_hash b') rest rest' ->
    is_chain_valid_loop p rest = is_chain_valid_loop p' rest'.
Proof.
  intros p p' Hp Hall. revert p p' Hp.
  induction Hall as [| b b' rest rest' (Hh & Hprev & Hcalc) _ IH]; intros p p' Hp.
  - reflexivity.
  - cbn [is_chain_valid_loop]. rewrite Hh, Hprev, Hcalc, Hp, (IH b b' Hh). reflexivity.
Qed.

Lemma with_stakeholders_signatures_same (ss : option (list StakeholderSignature))
    (b : Block) :
  transactions b <> [] ->
  hash (with_stakeholders_signatures ss b) = hash b
  /\ previous_hash (with_stakeholders_signatures ss b) = previous_hash b
  /\ Block_calculate_hash (with_stakeholders_signatures ss b) = Block_calculate_hash b.
Proof.
  intros Htx. split; [reflexivity |]. split; [reflexivity |].
  unfold Block_calculate_hash, block_data, with_stakeholders_signatures.
  cbn [index previous_hash timestamp block_header coinbase_transaction transactions
         stakeholders_signatures].
  destruct (transactions b) as [| t txs]; [contradiction |].
  rewrite (block_data_nonempty_transactions _ _ _ _ _ t txs ss (stakeholders_signatures b)).
  reflexivity.
Qed.

(** X6.  What [is_chain_valid] does not notice: the stakeholder signatures of a
    block that has transactions can be replaced by anything, and the first
    block can be replaced by any block with the same stored hash; the verdict
    on the chain is the same. *)
Theorem is_chain_valid_misses_changes :
  forall (owner : string) (txs : list Transaction) (first first' b : Block)
         (c1 c2 : list Block) (ss : option (list StakeholderSignature)),
    transactions b <> [] ->
    hash first' = hash first ->
    is_chain_valid
      {| owner_name := owner;
         chain := first' :: c1 ++ with_stakeholders_signatures ss b :: c2;
         all_transactions := txs |}
    = is_chain_valid
        {| owner_name := owner; chain := first :: c1 ++ b :: c2;
           all_transactions := txs |}.
Proof.
  intros owner txs first first' b c1 c2 ss Htx Hfirst.
  unfold is_chain_valid. cbn [chain].
  apply is_chain_valid_loop_ext; [exact Hfirst |].
  apply Forall2_app.
  - apply Forall2_same_length_lookup_2; [reflexivity |].
    intros i x y Hx Hy. assert (x = y) by congruence. subst y. repeat split.
  - constructor.
    + exact (with_stakeholders_signatures_same ss b Htx).
    + apply Forall2_same_length_lookup_2; [reflexivity |].
      intros i x y Hx Hy. assert (x = y) by congruence. subst y. repeat split.
Qed.

(** *** The committee *)

Lemma last_not_in_removelast {A : Type} (l : list A) (x : A) :
  NoDup l -> last l = Some x -> x ∉ removelast l.
Proof.
  intros Hnd Hlast. apply last_Some in Hlast as [l' ->].
  rewrite removelast_last. apply NoDup_app in Hnd as (_ & Hdisj & _).
  intros Hin. apply (Hdisj x Hin). left.
Qed.

(** X7.  Under the contracts of [set] and [random.sample], a committee returned
    by [follow_the_coin] has [STAKEHOLDERS_NUM] members, all of them employee
    names of aggregated transactions and no name twice; so the last (Roy) name
    is not among the others. *)
Theorem committee_members_are_distinct :
  set_iter_names_is_set env -> random_draw_has_length env -> random_draw_is_sample env ->
  forall (rand_source : bytes) (bc : Blockchain) (w : World)
         (committee : list (option string)),
    fst (follow_the_coin rand_source bc w) = Ok committee ->
    length committee = STAKEHOLDERS_NUM
    /\ NoDup committee
    /\ (forall x, x ∈ committee -> x ∈ map employee_name (all_transactions bc))
    /\ (forall r, last committee = Some r -> r ∉ removelast committee).
Proof.
  intros Hset Hlen Hsample rand_source bc w committee Hok.
  rewrite follow_the_coin_unfold in Hok. cbn [fst] in Hok.
  split; [exact (random_sample_length _ _ _ _ Hlen Hok) |].
  unfold random_sample in Hok.
  destruct (decide (STAKEHOLDERS_NUM <= length _)) as [Hle | Hgt]; [| discriminate].
  destruct (Hsample (random_seed rand_source) _ _ Hle) as [Hin Hnd].
  destruct (random_draw _ _ _) as [sample g1]. cbn [fst] in *.
  injection Hok as ->.
  assert (Hnd' : NoDup committee).
  { apply Hnd. rewrite (Hset _ _). apply NoDup_remove_dups. }
  split; [exact Hnd' |]. split.
  - intros x Hx. apply Hin in Hx. rewrite (Hset _ _) in Hx.
    rewrite elem_of_remove_dups in Hx. exact Hx.
  - intros r Hr. apply last_not_in_removelast; assumption.
Qed.

(** X8.  A header built by [BlockHeader.__init__] on the tip of a chain whose
    tip stores the hash of its fields, later re-timestamped and signed, fits
    that tip: appending a wrapped block with it gives no fork warning, and the
    new block has the index and the previous hash the header names. *)
Theorem header_built_on_tip_fits :
  forall (model : Model) (bc : Blockchain) (tip : Block) (secret : bytes) (coinstake : Z)
         (pk : bytes) (tds : list TrainingDeclaration) (w w' : World)
         (t : string) (s : option bytes) (wb : WrappedBlock),
    last (chain bc) = Some tip ->
    hash tip = Block_calculate_hash tip ->
    wb_block_header wb
    = with_signature s
        (with_timestamp t (fst (BlockHeader_init model tip secret coinstake pk tds w))) ->
    exists (bc1 : Blockchain) (w1 : World) (b : Block),
      append_fitted_wrapped_block wb bc w' = Ok (bc1, false, w1)
      /\ last (chain bc1) = Some b
      /\ index b = block_index (wb_block_header wb)
      /\ previous_hash b = parent_block_hash (wb_block_header wb).
Proof.
  intros model bc tip secret coinstake pk tds w w' t s wb Hlast Hcons Hbh.
  unfold append_fitted_wrapped_block, get_latest_block. rewrite Hlast.
  cbn [read_clock]. unfold fork_detected. rewrite Hbh.
  cbn [with_signature with_timestamp BlockHeader_message BlockHeader_init message_init
         read_clock fst parent_block_hash block_index].
  rewrite <- Hcons. rewrite bool_decide_eq_false_2 by (intros H; apply H; reflexivity).
  eexists _, _, _. split; [reflexivity |].
  cbn [add_block chain]. rewrite last_snoc_block.
  split; [reflexivity |]. split; [reflexivity |].
  cbn [Block_init previous_hash]. reflexivity.
Qed.

(** *** The books: adding, closing, and their order *)

Lemma add_training_declaration_open (td : TrainingDeclaration)
    (book : gmap string TDStage) :
  (forall stage, book !! td_id_s td = Some stage -> td_open stage = true) ->
  add_training_declaration_to_book td book
  = <[td_id_s td :=
        {| td_open := true;
           stage_training_declarations :=
             match book !! td_id_s td with
             | Some stage => stage_training_declarations stage ++ [td]
             | None => [td]
             end |}]> book.
Proof.
  intros Hopen. unfold add_training_declaration_to_book.
  destruct (book !! td_id_s td) as [stage |] eqn:E.
  - rewrite E, (Hopen stage eq_refl). reflexivity.
  - rewrite lookup_insert_eq. cbn [negb td_open stage_training_declarations app].
    rewrite insert_insert_eq. reflexivity.
Qed.

(** X9.  Adding a training declaration whose stage is unknown or open puts it
    at the end of the list of that stage, so the count grows by one (a
    declaration added twice is counted twice), and changes no other stage. *)
Theorem add_training_declaration_appends :
  forall (td : TrainingDeclaration) (book : gmap string TDStage),
    (forall stage, book !! td_id_s td = Some stage -> td_open stage = true) ->
    get_training_declarations (td_id_s td) (add_training_declaration_to_book td book)
    = Ok (match get_training_declarations (td_id_s td) book with
          | Ok l => (l ++ [td])%list
          | Raise _ => [td]
          end)
    /\ get_training_declarations_num (td_id_s td)
         (add_training_declaration_to_book td book)
       = S (get_training_declarations_num (td_id_s td) book)
    /\ get_training_declarations_num (td_id_s td)
         (add_training_declaration_to_book td
            (add_training_declaration_to_book td book))
       = S (S (get_training_declarations_num (td_id_s td) book))
    /\ forall id_s : string,
         id_s <> td_id_s td ->
         add_training_declaration_to_book td book !! id_s = book !! id_s.
Proof.
  intros td book Hopen.
  assert (Hopen1 : forall stage,
             add_training_declaration_to_book td book !! td_id_s td = Some stage ->
             td_open stage = true).
  { rewrite (add_training_declaration_open td book Hopen), lookup_insert_eq.
    intros stage [= <-]. reflexivity. }
  split; [| split; [| split]].
  - rewrite (add_training_declaration_open td book Hopen).
    unfold get_training_declarations. rewrite lookup_insert_eq.
    destruct (book !! td_id_s td); reflexivity.
  - rewrite (add_training_declaration_open td book Hopen).
    unfold get_training_declarations_num. rewrite lookup_insert_eq.
    destruct (book !! td_id_s td); cbn [stage_training_declarations length];
      [rewrite length_app; cbn [length]; lia | reflexivity].
  - rewrite (add_training_declaration_open td _ Hopen1).
    rewrite (add_training_declaration_open td book Hopen).
    unfold get_training_declarations_num. rewrite !lookup_insert_eq.
    cbn [stage_training_declarations].
    destruct (book !! td_id_s td); rewrite !length_app; cbn [length]; lia.
  - intros id_s Hne. apply add_training_declaration_other_stage. congruence.
Qed.

(** X10.  Closing a stage of the training-declarations book freezes it: the
    list of the stage is kept, every later add for the stage leaves the book
    as it is, and closing again changes nothing; other stages are untouched. *)
Theorem td_book_close_freezes_stage :
  forall (id_s : string) (book book1 : gmap string TDStage),
    td_book_close id_s book = Ok book1 ->
    get_training_declarations id_s book1 = get_training_declarations id_s book
    /\ (forall td : TrainingDeclaration,
          td_id_s td = id_s -> add_training_declaration_to_book td book1 = book1)
    /\ td_book_close id_s book1 = Ok book1
    /\ forall id_s' : string, id_s' <> id_s -> book1 !! id_s' = book !! id_s'.
Proof.
  intros id_s book book1. unfold td_book_close.
  destruct (book !! id_s) as [stage |] eqn:E; [| discriminate].
  intros [= <-]. split; [| split; [| split]].
  - unfold get_training_declarations. rewrite lookup_insert_eq, E. reflexivity.
  - intros td <-. eapply add_training_declaration_closed.
    + apply lookup_insert_eq.
    + reflexivity.
  - rewrite lookup_insert_eq. cbn [stage_training_declarations].
    rewrite insert_insert_eq. reflexivity.
  - intros id_s' Hne. apply lookup_insert_ne. congruence.
Qed.

Lemma add_signature_open_lists (ss : StakeholderSignature) (roy_flag : option bool)
    (book : gmap string SSStage) :
  is_open (bh_id_s (ss_block_header ss)) book = true ->
  forall s h : string,
    get_signatures_for_block_header s h (add_signature_to_book ss roy_flag book)
    = (if bool_decide (s = bh_id_s (ss_block_header ss)
                       /\ h = fst (get_id (ss_block_header ss)))
       then get_signatures_for_block_header s h book ++ [ss]
       else get_signatures_for_block_header s h book)%list
    /\ is_open s (add_signature_to_book ss roy_flag book) = is_open s book.
Proof.
  unfold is_open, get_signatures_for_block_header, add_signature_to_book.
  set (id_s := bh_id_s (ss_block_header ss)).
  set (id_bh := fst (get_id (ss_block_header ss))).
  intros Hopen s h.
  destruct (book !! id_s) as [stage |] eqn:Hstage.
  - rewrite Hstage, Hopen. cbn [negb].
    destruct (decide (s = id_s)) as [-> | Hs].
    + rewrite Hstage.
      destruct (sh_info stage !! id_bh) as [entry |] eqn:Hentry.
      * rewrite Hentry.
        repeat (rewrite lookup_insert_eq || cbn [sh_info ss_open sigs]).
        destruct (decide (h = id_bh)) as [-> | Hh].
        -- rewrite bool_decide_eq_true_2 by (split; reflexivity).
           rewrite lookup_insert_eq, Hentry. split; [reflexivity | congruence].
        -- rewrite bool_decide_eq_false_2 by (intros [_ ?]; contradiction).
           rewrite lookup_insert_ne by congruence. split; [reflexivity | congruence].
      * repeat (rewrite lookup_insert_eq || cbn [sh_info ss_open sigs]).
        destruct (decide (h = id_bh)) as [-> | Hh].
        -- rewrite bool_decide_eq_true_2 by (split; reflexivity).
           rewrite lookup_insert_eq, Hentry. split; [reflexivity | congruence].
        -- rewrite bool_decide_eq_false_2 by (intros [_ ?]; contradiction).
           rewrite !lookup_insert_ne by congruence. split; [reflexivity | congruence].
    + rewrite bool_decide_eq_false_2 by (intros [? _]; contradiction).
      destruct (sh_info stage !! id_bh) as [entry |] eqn:Hentry.
      * rewrite ?Hentry. rewrite !lookup_insert_ne by congruence.
        split; reflexivity.
      * repeat (rewrite lookup_insert_eq || cbn [sh_info ss_open sigs]).
        rewrite !lookup_insert_ne by congruence. split; reflexivity.
  - repeat (rewrite lookup_insert_eq || rewrite lookup_singleton_eq
            || cbn [sh_info ss_open sigs negb]).
    destruct (decide (s = id_s)) as [-> | Hs].
    + rewrite lookup_insert_eq, Hstage. cbn [sh_info ss_open].
      destruct (decide (h = id_bh)) as [-> | Hh].
      * rewrite bool_decide_eq_true_2 by (split; reflexivity).
        rewrite lookup_insert_eq. split; reflexivity.
      * rewrite bool_decide_eq_false_2 by (intros [_ ?]; contradiction).
        rewrite lookup_insert_ne by congruence.
        rewrite lookup_singleton_ne by congruence. split; reflexivity.
    + rewrite bool_decide_eq_false_2 by (intros [? _]; contradiction).
      rewrite !lookup_insert_ne by congruence. split; reflexivity.
Qed.

(** X11.  Adding a stakeholder signature whose stage is unknown or open puts it
    at the end of the list kept for its stage and header, and changes no other
    list and no open flag; the count is the length of the list. *)
Theorem add_signature_appends :
  forall (ss : StakeholderSignature) (roy_flag : option bool)
         (book : gmap string SSStage),
    is_open (bh_id_s (ss_block_header ss)) book = true ->
    get_signatures_for_block_header (bh_id_s (ss_block_header ss))
      (fst (get_id (ss_block_header ss))) (add_signature_to_book ss roy_flag book)
    = (get_signatures_for_block_header (bh_id_s (ss_block_header ss))
         (fst (get_id (ss_block_header ss))) book ++ [ss])%list
    /\ (forall s h : string,
          ~ (s = bh_id_s (ss_block_header ss) /\ h = fst (get_id (ss_block_header ss))) ->
          get_signatures_for_block_header s h (add_signature_to_book ss roy_flag book)
          = get_signatures_for_block_header s h book)
    /\ (forall s : string,
          is_open s (add_signature_to_book ss roy_flag book) = is_open s book)
    /\ (forall s h : string,
          get_signatures_num s h (add_signature_to_book ss roy_flag book)
          = length (get_signatures_for_block_header s h
                      (add_signature_to_book ss roy_flag book))).
Proof.
  intros ss roy_flag book Hopen. split; [| split; [| split]].
  - destruct (add_signature_open_lists ss roy_flag book Hopen
                (bh_id_s (ss_block_header ss)) (fst (get_id (ss_block_header ss))))
      as [-> _].
    rewrite bool_decide_eq_true_2 by (split; reflexivity). reflexivity.
  - intros s h Hne.
    destruct (add_signature_open_lists ss roy_flag book Hopen s h) as [-> _].
    rewrite bool_decide_eq_false_2 by exact Hne. reflexivity.
  - intros s. exact (proj2 (add_signature_open_lists ss roy_flag book Hopen s "")).
  - intros s h. unfold get_signatures_num, get_signatures_for_block_header.
    destruct (_ !! s) as [stage |]; [| reflexivity].
    destruct (sh_info stage !! h); reflexivity.
Qed.

Lemma add_signature_closed_lists (ss : StakeholderSignature) (roy_flag : option bool)
    (book : gmap string SSStage) (stage : SSStage) :
  book !! bh_id_s (ss_block_header ss) = Some stage -> ss_open stage = false ->
  forall s h : string,
    get_signatures_for_block_header s h (add_signature_to_book ss roy_flag book)
    = get_signatures_for_block_header s h book
    /\ is_open s (add_signature_to_book ss roy_flag book) = is_open s book.
Proof.
  intros Hstage Hclosed s h.
  destruct (sh_info stage !! fst (get_id (ss_block_header ss))) as [entry |] eqn:E.
  - rewrite (add_signature_closed_known_header ss roy_flag book stage Hstage Hclosed)
      by (rewrite E; eauto).
    split; reflexivity.
  - rewrite (add_signature_closed_new_header ss roy_flag book stage Hstage Hclosed E).
    unfold get_signatures_for_block_header, is_open.
    destruct (decide (bh_id_s (ss_block_header ss) = s)) as [<- | Hne].
    + rewrite lookup_insert_eq, Hstage. cbn [sh_info ss_open].
      destruct (decide (fst (get_id (ss_block_header ss)) = h)) as [<- | Hneh].
      * rewrite lookup_insert_eq, E. cbn [sigs]. rewrite Hclosed. split; reflexivity.
      * rewrite lookup_insert_ne by exact Hneh. rewrite Hclosed. split; reflexivity.
    + rewrite lookup_insert_ne by exact Hne. split; reflexivity.
Qed.

(** X12.  Closing a stage the stakeholder-signatures book knows freezes it: the
    stage reads as closed, every list is kept, closing again changes nothing,
    and a signature added for the stage afterwards changes no list and leaves
    the stage closed.  Closing a stage the book does not know is forgotten: the
    first signature added for it afterwards opens the stage and is kept. *)
Theorem ss_book_close_freezes_known_stage_only :
  forall (ss : StakeholderSignature) (roy_flag : option bool)
         (book : gmap string SSStage),
    (is_Some (book !! bh_id_s (ss_block_header ss)) ->
     is_open (bh_id_s (ss_block_header ss))
       (ss_book_close (bh_id_s (ss_block_header ss)) book) = false
     /\ ss_book_close (bh_id_s (ss_block_header ss))
          (ss_book_close (bh_id_s (ss_block_header ss)) book)
        = ss_book_close (bh_id_s (ss_block_header ss)) book
     /\ forall s h : string,
          get_signatures_for_block_header s h
            (ss_book_close (bh_id_s (ss_block_header ss)) book)
          = get_signatures_for_block_header s h book
          /\ get_signatures_for_block_header s h
               (add_signature_to_book ss roy_flag
                  (ss_book_close (bh_id_s (ss_block_header ss)) book))
             = get_signatures_for_block_header s h book
          /\ is_open (bh_id_s (ss_block_header ss))
               (add_signature_to_book ss roy_flag
                  (ss_book_close (bh_id_s (ss_block_header ss)) book)) = false)
    /\ (book !! bh_id_s (ss_block_header ss) = None ->
        ss_book_close (bh_id_s (ss_block_header ss)) book = book
        /\ get_signatures_for_block_header (bh_id_s (ss_block_header ss))
             (fst (get_id (ss_block_header ss)))
             (add_signature_to_book ss roy_flag
                (ss_book_close (bh_id_s (ss_block_header ss)) book)) = [ss]
        /\ is_open (bh_id_s (ss_block_header ss))
             (add_signature_to_book ss roy_flag
                (ss_book_close (bh_id_s (ss_block_header ss)) book)) = true).
Proof.
  intros ss roy_flag book. set (id_s := bh_id_s (ss_block_header ss)). split.
  - intros [stage Hstage].
    assert (Hclose : ss_book_close id_s book
                     = <[id_s := {| ss_open := false; sh_info := sh_info stage |}]> book)
      by (unfold ss_book_close; rewrite Hstage; reflexivity).
    assert (Hlook : ss_book_close id_s book !! id_s
                    = Some {| ss_open := false; sh_info := sh_info stage |})
      by (rewrite Hclose; apply lookup_insert_eq).
    assert (Hlists : forall s h,
               get_signatures_for_block_header s h (ss_book_close id_s book)
               = get_signatures_for_block_header s h book).
    { intros s h. rewrite Hclose. unfold get_signatures_for_block_header.
      destruct (decide (id_s = s)) as [<- | Hne].
      - rewrite lookup_insert_eq, Hstage. reflexivity.
      - rewrite lookup_insert_ne by exact Hne. reflexivity. }
    split; [unfold is_open; rewrite Hlook; reflexivity |].
    split.
    { unfold ss_book_close at 1. rewrite Hlook. cbn [sh_info].
      rewrite Hclose, insert_insert_eq. reflexivity. }
    intros s h. split; [apply Hlists |].
    destruct (add_signature_closed_lists ss roy_flag (ss_book_close id_s book) _
                Hlook eq_refl s h) as [Hl _].
    destruct (add_signature_closed_lists ss roy_flag (ss_book_close id_s book) _
                Hlook eq_refl id_s h) as [_ Ho].
    split; [rewrite Hl; apply Hlists |].
    fold id_s in Ho. rewrite Ho. unfold is_open. rewrite Hlook. reflexivity.
  - intros Hnone.
    assert (Hclose : ss_book_close id_s book = book)
      by (unfold ss_book_close; rewrite Hnone; reflexivity).
    assert (Hopen : is_open id_s book = true)
      by (unfold is_open; rewrite Hnone; reflexivity).
    split; [exact Hclose |]. rewrite Hclose.
    destruct (add_signature_open_lists ss roy_flag book Hopen id_s
                (fst (get_id (ss_block_header ss)))) as [Hl Ho].
    split.
    + rewrite Hl. rewrite bool_decide_eq_true_2 by (split; reflexivity).
      unfold get_signatures_for_block_header. rewrite Hnone. reflexivity.
    + rewrite Ho. exact Hopen.
Qed.

(** *** Messages: the hash does not see the signature *)

Lemma TrainingDeclaration_hash_without_signature (td : TrainingDeclaration)
    (s : option bytes) :
  fst (dumps_without_sig (with_signature s td)) = fst (dumps_without_sig td).
Proof. reflexivity. Qed.

Lemma BlockHeader_hash_without_signature (bh : BlockHeader) (s : option bytes) :
  fst (dumps_without_sig (with_signature s bh)) = fst (dumps_without_sig bh).
Proof. reflexivity. Qed.

Lemma WrappedBlock_hash_without_signature (wb : WrappedBlock) (s : option bytes) :
  fst (dumps_without_sig (with_signature s wb)) = fst (dumps_without_sig wb).
Proof. reflexivity. Qed.

Lemma calculate_hash_of_data {M : Type} `{HashSignSerial M} (m m' : M) :
  fst (dumps_without_sig m) = fst (dumps_without_sig m') ->
  fst (calculate_hash m) = fst (calculate_hash m')
  /\ fst (get_id m) = fst (get_id m').
Proof.
  unfold get_id, calculate_hash, dumps_without_sig. cbn [fst]. intros ->.
  split; reflexivity.
Qed.

(** X13.  Signing changes neither the hash nor the id of a message, for each of
    the three classes: both are computed from the pickle without signature.
    So the id under which a header is filed in the signatures book is the same
    before and after the header is signed, and a declaration or header that
    met its difficulty before [sign] still meets it afterwards. *)
Theorem signing_keeps_hash_and_id :
  (forall (td : TrainingDeclaration) (sk : bytes),
      fst (calculate_hash (sign td sk)) = fst (calculate_hash td)
      /\ fst (get_id (sign td sk)) = fst (get_id td)
      /\ check_meeting_pos_td_difficulty (sign td sk)
         = check_meeting_pos_td_difficulty td)
  /\ (forall (bh : BlockHeader) (sk : bytes),
      fst (calculate_hash (sign bh sk)) = fst (calculate_hash bh)
      /\ fst (get_id (sign bh sk)) = fst (get_id bh)
      /\ check_meeting_pos_bh_difficulty (sign bh sk)
         = check_meeting_pos_bh_difficulty bh)
  /\ (forall (wb : WrappedBlock) (sk : bytes),
      fst (calculate_hash (sign wb sk)) = fst (calculate_hash wb)
      /\ fst (get_id (sign wb sk)) = fst (get_id wb)).
Proof.
  split; [| split].
  - intros td sk.
    destruct (calculate_hash_of_data (sign td sk) td
                (TrainingDeclaration_hash_without_signature td _)) as [Hh Hi].
    split; [exact Hh |]. split; [exact Hi |].
    unfold check_meeting_pos_td_difficulty. rewrite Hh. reflexivity.
  - intros bh sk.
    destruct (calculate_hash_of_data (sign bh sk) bh
                (BlockHeader_hash_without_signature bh _)) as [Hh Hi].
    split; [exact Hh |]. split; [exact Hi |].
    unfold check_meeting_pos_bh_difficulty. rewrite Hh. reflexivity.
  - intros wb sk.
    exact (calculate_hash_of_data (sign wb sk) wb
             (WrappedBlock_hash_without_signature wb _)).
Qed.

(** *** Verification of alien messages *)


Lemma verify_stakeholder_signatures_loop_spec (sigs : list StakeholderSignature) :
  verify_stakeholder_signatures_loop sigs = Ok true
  <-> Forall (fun ss => verify_signature (ss_public_key ss)
                          (fst (dumps_without_sig (ss_block_header ss)))
                          (Some (ss_signature ss)) = Ok true) sigs.
Proof.
  induction sigs as [| ss sigs IH]; cbn [verify_stakeholder_signatures_loop].
  - split; [constructor | reflexivity].
  - destruct (verify_signature _ _ _) as [[|] | x] eqn:E.
    + rewrite IH. split.
      * intros Hall. constructor; assumption.
      * intros Hall. inversion Hall; assumption.
    + split; [discriminate |]. intros Hall. inversion Hall; congruence.
    + split; [discriminate |]. intros Hall. inversion Hall; congruence.
Qed.


(** X15.  A wrapped block that carries no signature yet, whose enclosed
    stakeholder signatures each verify against their own header (none at all
    is enough), and which its maker signs with the key of its public key, is
    sound for every peer, whatever header it wraps. *)
Theorem self_signed_wrapped_block_is_sound :
  ed25519_correct env ->
  forall (wb : WrappedBlock) (sk : bytes),
    wb_signature wb = None ->
    wb_public_key wb = ed25519_public_key sk ->
    Forall (fun ss => verify_signature (ss_public_key ss)
                        (fst (dumps_without_sig (ss_block_header ss)))
                        (Some (ss_signature ss)) = Ok true)
      (wb_stakeholders_signatures wb) ->
    _verify_alien_message_soundness (AlienWB (sign wb sk)) = Ok true.
Proof.
  intros Hcorrect wb sk Hnone Hpk Hsigs.
  unfold _verify_alien_message_soundness.
  rewrite (sign_fresh_wrapped_block wb sk Hcorrect Hnone Hpk).
  unfold verify_stakeholder_signatures.
  change (wb_stakeholders_signatures (sign wb sk)) with (wb_stakeholders_signatures wb).
  apply verify_stakeholder_signatures_loop_spec in Hsigs. rewrite Hsigs. reflexivity.
Qed.

(** *** The dispatch of inbound messages *)

(** X16.  A wrapped block for a higher index than the local tip that passes
    verification is accepted: the restart flag is raised, the signatures book
    is closed for the stage named by the wrapped block, and a block with the
    wrapped block's content is appended right after the tip, with the tip's
    hash as previous hash and the tip's index plus one as index, also when the
    header names a later index; nothing is sent. *)
Theorem sound_wrapped_block_is_accepted :
  forall (e : Employee) (wb : WrappedBlock) (tip : Block),
    get_latest_block (blockchain e) = Ok tip ->
    index tip < block_index (wb_block_header wb) ->
    _verify_alien_message_soundness (AlienWB wb) = Ok true ->
    exists (e1 : Employee) (b : Block),
      collect_message (WRAPPED_BLOCK wb) e = Ok (tt, e1)
      /\ chain (blockchain e1) = (chain (blockchain e) ++ [b])%list
      /\ index b = index tip + 1 /\ previous_hash b = hash tip
      /\ block_header b = Some (wb_block_header wb)
      /\ coinbase_transaction b = Some (wb_coinbase_transaction wb)
      /\ transactions b = wb_transactions wb
      /\ stakeholders_signatures b = Some (wb_stakeholders_signatures wb)
      /\ all_transactions (blockchain e1)
         = (all_transactions (blockchain e) ++ wb_transactions wb)%list
      /\ protocol_restart_flag e1 = true
      /\ stakeholder_signatures_book e1
         = ss_book_close (wb_id_s wb) (stakeholder_signatures_book e)
      /\ training_declarations_book e1 = training_declarations_book e
      /\ sent e1 = sent e.
Proof.
  intros e wb tip Htip Hlt Hsound.
  unfold collect_message, bind at 1, lift at 1. rewrite Htip.
  rewrite bool_decide_eq_false_2 by lia.
  unfold bind at 1, lift at 1. rewrite Hsound.
  unfold bind, modify, blockchain_append_fitted_wrapped_block,
    append_fitted_wrapped_block, _remove_served_trans_from_pending_trans, modify.
  cbn [blockchain set_protocol_restart_flag set_stakeholder_signatures_book world].
  rewrite Htip. cbn [read_clock].
  eexists _, _. split; [reflexivity |].
  cbn. repeat split.
Qed.

(** X17.  A training declaration, a block header or a wrapped block that fails
    verification is dropped and the node stays exactly as it was; when the
    verification raises (a message without signature raises [TypeError]), so
    does the dispatch. *)
Theorem unsound_message_is_dropped :
  forall (e : Employee) (tip : Block) (td : TrainingDeclaration) (bh : BlockHeader)
         (wb : WrappedBlock),
    get_latest_block (blockchain e) = Ok tip ->
    (_verify_alien_message_soundness (AlienTD td) = Ok false ->
     collect_message (TRAINING_DECLARATION td) e = Ok (tt, e))
    /\ (_verify_alien_message_soundness (AlienBH bh) = Ok false ->
        collect_message (BLOCK_HEADER bh) e = Ok (tt, e))
    /\ (_verify_alien_message_soundness (AlienWB wb) = Ok false ->
        collect_message (WRAPPED_BLOCK wb) e = Ok (tt, e))
    /\ (forall x : exn,
          (_verify_alien_message_soundness (AlienTD td) = Raise x ->
           collect_message (TRAINING_DECLARATION td) e = Raise x)
          /\ (_verify_alien_message_soundness (AlienBH bh) = Raise x ->
              collect_message (BLOCK_HEADER bh) e = Raise x)
          /\ (_verify_alien_message_soundness (AlienWB wb) = Raise x ->
              index tip < block_index (wb_block_header wb) ->
              collect_message (WRAPPED_BLOCK wb) e = Raise x)).
Proof.
  intros e tip td bh wb Htip.
  split; [| split; [| split]].
  - intros H. unfold collect_message, bind, lift. rewrite H. reflexivity.
  - intros H. unfold collect_message, bind, lift. rewrite H. reflexivity.
  - intros H. unfold collect_message, bind, lift. rewrite Htip, H.
    destruct (bool_decide _); reflexivity.
  - intros x. split; [| split].
    + intros H. unfold collect_message, bind, lift. rewrite H. reflexivity.
    + intros H. unfold collect_message, bind, lift. rewrite H. reflexivity.
    + intros H Hlt. unfold collect_message, bind, lift. rewrite Htip, H.
      rewrite bool_decide_eq_false_2 by lia. reflexivity.
Qed.

Lemma _collect_messages_app (l1 l2 : list Message) :
  forall e : Employee,
    _collect_messages (l1 ++ l2)%list e
    = match _collect_messages l1 e with
      | Ok (_, e1) => _collect_messages l2 e1
      | Raise x => Raise x
      end.
Proof.
  induction l1 as [| m l1 IH]; intros e; [reflexivity |].
  cbn [app _collect_messages]. unfold bind.
  destruct (collect_message m e) as [[[] e1] | x]; [apply IH | reflexivity].
Qed.

(** [_collect_messages] handles the messages in the order received:
    draining two batches one after the other is draining their concatenation,
    and a raising message ends the drain.  [EMPLOYEE_ALIVE] changes nothing;
    [EMPLOYEE_FINISHED] and [RESULT_LOCAL_BLOCKCHAIN] are not supported and
    raise [TypeError], whatever was received after them. *)
Lemma collect_messages_in_order :
  forall (e : Employee) (l1 l2 : list Message) (bc : Blockchain),
    _collect_messages (l1 ++ l2)%list e
    = match _collect_messages l1 e with
      | Ok (_, e1) => _collect_messages l2 e1
      | Raise x => Raise x
      end
    /\ _collect_messages (EMPLOYEE_ALIVE :: l2) e = _collect_messages l2 e
    /\ _collect_messages (EMPLOYEE_FINISHED :: l2) e = Raise TypeError
    /\ _collect_messages (RESULT_LOCAL_BLOCKCHAIN bc :: l2) e = Raise TypeError.
Proof.
  intros e l1 l2 bc. split; [apply _collect_messages_app |].
  split; [| split]; reflexivity.
Qed.

(** *** The pending pool *)

Lemma not_served_spec (t : Transaction) (reg_trans : list Transaction) :
  forallb (fun r => negb (Transaction_eq t r)) reg_trans = true
  <-> id t ∉ map id reg_trans.
Proof.
  induction reg_trans as [| r rs IH]; cbn [forallb map].
  - split; [intros _ Hin; inversion Hin | reflexivity].
  - rewrite andb_true_iff, IH, not_elem_of_cons. unfold Transaction_eq.
    rewrite negb_true_iff, bool_decide_eq_false. reflexivity.
Qed.

(** X18.  [_remove_served_trans_from_pending_trans] keeps of the pending pool
    the transactions whose id is not the id of a served one: what is left was
    pending and is not served, and every pending id that is not served is
    still there.  No other attribute of the node changes. *)
Theorem remove_served_keeps_unserved :
  set_iter_transactions_is_set env ->
  forall (reg_trans : list Transaction) (e : Employee),
  exists e1 : Employee,
    _remove_served_trans_from_pending_trans reg_trans e = Ok (tt, e1)
    /\ e1 = set_pending_transactions (pending_transactions e1) e
    /\ (forall t, t ∈ pending_transactions e1 ->
          t ∈ pending_transactions e /\ id t ∉ map id reg_trans)
    /\ (forall t, t ∈ pending_transactions e -> id t ∉ map id reg_trans ->
          exists t', t' ∈ pending_transactions e1 /\ id t' = id t).
Proof.
  intros Hset reg_trans e. eexists. split; [reflexivity |].
  cbn [pending_transactions set_pending_transactions].
  split; [reflexivity |]. split.
  - intros t Ht. apply (proj1 (Hset _ _)) in Ht.
    apply list_elem_of_In, filter_In in Ht as [Ht Hns].
    apply list_elem_of_In in Ht. apply (proj1 (Hset _ _)) in Ht.
    split; [exact Ht | apply not_served_spec; exact Hns].
  - intros t Ht Hns.
    destruct (proj2 (Hset (hash_seed (world e)) (pending_transactions e)) t Ht)
      as (t1 & Ht1 & Hid1).
    assert (Hf : t1 ∈ List.filter
                   (fun t => forallb (fun r => negb (Transaction_eq t r)) reg_trans)
                   (set_iter_transactions (hash_seed (world e))
                      (pending_transactions e))).
    { apply list_elem_of_In, filter_In. split; [apply list_elem_of_In; exact Ht1 |].
      apply not_served_spec. rewrite Hid1. exact Hns. }
    destruct (proj2 (Hset (hash_seed (world e)) _) t1 Hf) as (t2 & Ht2 & Hid2).
    exists t2. split; [exact Ht2 | congruence].
Qed.

(** *** Stakeholder roles *)

Lemma blockchain_follow_the_coin_run (rand_source : bytes) (e : Employee)
    (committee : list (option string)) :
  fst (follow_the_coin rand_source (blockchain e) (world e)) = Ok committee ->
  exists w1 : World,
    blockchain_follow_the_coin rand_source e = Ok (committee, set_world w1 e)
    /\ hash_seed w1 = hash_seed (world e).
Proof.
  intros Hcoin. unfold blockchain_follow_the_coin.
  rewrite follow_the_coin_unfold in Hcoin |- *.
  cbn [fst] in Hcoin. rewrite Hcoin. eexists. split; reflexivity.
Qed.

Lemma removelast_nonempty_last {A : Type} (l : list A) (x : A) :
  x ∈ removelast l -> exists y, last l = Some y.
Proof.
  destruct l as [| a l]; [intros H; inversion H |].
  intros _. destruct (last (a :: l)) as [y |] eqn:E; [eauto |].
  apply last_None in E. discriminate.
Qed.

(** X19.  Role evaluation for a header.  A node whose name is among the
    committee members before the last, with matching keys and the stage open
    or unknown in its signatures book, sends exactly one message, a stakeholder
    signature on that header under its public key which passes the check peers
    apply to the signatures of a wrapped block, and files the same signature
    at the end of its own list for the header.  Chain, pending pool and restart
    flag are untouched. *)
Theorem normal_stakeholder_signs_and_files :
  ed25519_correct env ->
  forall (e : Employee) (bh : BlockHeader) (committee : list (option string)),
    employee_public_key e = ed25519_public_key (private_key e) ->
    fst (follow_the_coin (fst (calculate_hash bh)) (blockchain e) (world e))
    = Ok committee ->
    Some (name e) ∈ removelast committee ->
    is_open (bh_id_s bh) (stakeholder_signatures_book e) = true ->
    exists (e1 : Employee) (ss : StakeholderSignature),
      _check_type_of_stakeholder bh e = Ok (tt, e1)
      /\ sent e1 = (sent e ++ [STAKEHOLDER_SIGNATURE ss])%list
      /\ ss_block_header ss = bh
      /\ block_header_id ss = fst (get_id bh)
      /\ ss_public_key ss = employee_public_key e
      /\ verify_stakeholder_signatures_loop [ss] = Ok true
      /\ get_signatures_for_block_header (bh_id_s bh) (fst (get_id bh))
           (stakeholder_signatures_book e1)
         = (get_signatures_for_block_header (bh_id_s bh) (fst (get_id bh))
              (stakeholder_signatures_book e) ++ [ss])%list
      /\ blockchain e1 = blockchain e
      /\ pending_transactions e1 = pending_transactions e
      /\ protocol_restart_flag e1 = protocol_restart_flag e.
Proof.
  intros Hcorrect e bh committee Hkeys Hcoin Hnormal Hopen.
  destruct (blockchain_follow_the_coin_run _ e committee Hcoin) as [w1 [Hrun Hseed1]].
  destruct (removelast_nonempty_last committee _ Hnormal) as [r Hlast].
  assert (Hcoin1 : fst (follow_the_coin (fst (calculate_hash bh))
                          (blockchain (set_world w1 e)) (world (set_world w1 e)))
                   = Ok committee).
  { rewrite <- Hcoin. apply follow_the_coin_same_names; [reflexivity | exact Hseed1]. }
  destruct (_am_i_roy_stakeholder_run bh (set_world w1 e) committee r Hcoin1 Hlast)
    as [w2 [Hroy _]].
  set (ss := StakeholderSignature_init bh (employee_public_key e)
               (sign_message (private_key e) (fst (dumps_without_sig bh)))).
  eexists _, ss. split.
  - unfold _check_type_of_stakeholder, bind at 1. rewrite Hrun.
    unfold bind at 1, gets at 1. cbn [name set_world].
    rewrite bool_decide_eq_true_2 by exact Hnormal.
    unfold _perform_normal_stakeholder_procedure, bind at 1, gets at 1.
    unfold bind at 1, gets at 1. cbn [private_key employee_public_key set_world].
    fold ss. unfold bind at 1.
    change (ss_block_header ss) with bh. rewrite Hroy.
    unfold bind, modify, connection_send, modify. reflexivity.
  - cbn [sent set_sent set_stakeholder_signatures_book set_world blockchain
           pending_transactions protocol_restart_flag stakeholder_signatures_book].
    split; [reflexivity |]. split; [reflexivity |]. split; [reflexivity |].
    split; [reflexivity |]. split.
    { cbn [verify_stakeholder_signatures_loop]. subst ss.
      cbn [StakeholderSignature_init ss_block_header ss_public_key ss_signature].
      unfold verify_signature, sign_message. rewrite Hkeys, Hcorrect. reflexivity. }
    split; [| repeat split].
    destruct (add_signature_open_lists ss (Some (bool_decide (Some (name e) = r)))
                (stakeholder_signatures_book e) Hopen (bh_id_s bh) (fst (get_id bh)))
      as [Hl _].
    cbn [name set_world] in *. rewrite Hl.
    rewrite bool_decide_eq_true_2 by (split; reflexivity). reflexivity.
Qed.

(** A node whose name is not among the committee members before the last
    (the Roy node, or a node with no role) does nothing on role evaluation but
    reseed the generator: it sends nothing and signs nothing. *)
Lemma roy_or_bystander_sends_nothing :
  forall (e : Employee) (bh : BlockHeader) (committee : list (option string)),
    fst (follow_the_coin (fst (calculate_hash bh)) (blockchain e) (world e))
    = Ok committee ->
    committee <> [] ->
    Some (name e) ∉ removelast committee ->
    exists w1 : World,
      _check_type_of_stakeholder bh e = Ok (tt, set_world w1 e)
      /\ ticks w1 = ticks (world e) /\ keys_generated w1 = keys_generated (world e).
Proof.
  intros e bh committee Hcoin Hne Hnot.
  unfold _check_type_of_stakeholder, bind at 1, blockchain_follow_the_coin.
  rewrite follow_the_coin_unfold in *. cbn [fst] in Hcoin. rewrite Hcoin.
  eexists. split.
  - unfold bind at 1, gets at 1. cbn [name set_world].
    rewrite bool_decide_eq_false_2 by exact Hnot.
    unfold bind, lift, last_stakeholder.
    destruct (last committee) as [r |] eqn:E; [reflexivity |].
    apply last_None in E. contradiction.
  - split; reflexivity.
Qed.

Lemma stamped_pool_is_served (seed : nat) (n : option string)
    (pending : list Transaction) :
  set_iter_transactions_is_set env ->
  set_iter_transactions seed
    (List.filter
       (fun t => forallb (fun r => negb (Transaction_eq t r))
                   (map (fun t => set_employee_name t n) pending))
       (set_iter_transactions seed pending)) = [].
Proof.
  intros Hset.
  destruct (set_iter_transactions seed (List.filter _ _)) as [| t rest] eqn:E;
    [reflexivity |].
  assert (Ht : t ∈ set_iter_transactions seed
                 (List.filter
                    (fun t => forallb (fun r => negb (Transaction_eq t r))
                                (map (fun t => set_employee_name t n) pending))
                    (set_iter_transactions seed pending)))
    by (rewrite E; left).
  apply (proj1 (Hset _ _)) in Ht.
  apply list_elem_of_In, filter_In in Ht as [Ht Hns].
  apply list_elem_of_In in Ht. apply (proj1 (Hset _ _)) in Ht.
  apply not_served_spec in Hns. rewrite stamped_ids in Hns.
  exfalso. apply Hns. apply list_elem_of_fmap. exists t. split; [reflexivity | exact Ht].
Qed.

(** X20.  The Roy procedure, on a node that has a model, a non-empty chain and
    matching keys: it sends one wrapped block, signed so that it passes the
    signature check of every peer, for the stage of the node's own model,
    holding the given header, the pending pool stamped with the node's name,
    the signatures filed under the node's own stage and the header's id, and a
    coinbase transaction to the node's user for the reward of the header's
    block index; it appends the block to its chain, empties the pending pool
    and raises the restart flag.  The signatures book is left as it is. *)
Theorem roy_procedure_wraps_and_appends :
  ed25519_correct env -> set_iter_transactions_is_set env ->
  forall (e : Employee) (bh : BlockHeader) (m : Model) (tip : Block),
    model e = Some m ->
    get_latest_block (blockchain e) = Ok tip ->
    employee_public_key e = ed25519_public_key (private_key e) ->
    exists (e1 : Employee) (wb : WrappedBlock) (b : Block),
      _perform_roy_stakeholder_procedure bh e = Ok (tt, e1)
      /\ sent e1 = (sent e ++ [WRAPPED_BLOCK wb])%list
      /\ signature_is_valid wb = Ok true
      /\ wb_block_header wb = bh
      /\ wb_id_s wb = get_id_s m
      /\ wb_stakeholders_signatures wb
         = get_signatures_for_block_header (get_id_s m) (fst (get_id bh))
             (stakeholder_signatures_book e)
      /\ wb_transactions wb
         = map (fun t => set_employee_name t (Some (name e))) (pending_transactions e)
      /\ receiver (wb_coinbase_transaction wb) = employee_user e
      /\ amount (wb_coinbase_transaction wb) = coinbase_reward (block_index bh)
      /\ employee_name (wb_coinbase_transaction wb)
         = Some (user_name (employee_user e))
      /\ chain (blockchain e1) = (chain (blockchain e) ++ [b])%list
      /\ index b = index tip + 1 /\ previous_hash b = hash tip
      /\ transactions b = wb_transactions wb
      /\ pending_transactions e1 = []
      /\ protocol_restart_flag e1 = true
      /\ stakeholder_signatures_book e1 = stakeholder_signatures_book e.
Proof.
  intros Hcorrect Hset e bh m tip Hmodel Htip Hkeys.
  unfold get_latest_block in Htip.
  destruct (last (chain (blockchain e))) as [tip' |] eqn:Hlast; [| discriminate].
  injection Htip as ->.
  unfold _perform_roy_stakeholder_procedure, _create_wrapped_block,
    _get_pending_transactions_and_set_employee, bind, gets, ret.
  rewrite Hmodel. unfold WrappedBlock_init, message_init, CoinbaseUser_init, User_init,
    fresh_key_pair, read_clock.
  cbn [world ticks keys_generated rng].
  destruct (generate_key_pair_bytes (keys_generated (world e))) as [csk cpk].
  unfold create_transaction. cbn [user_class].
  unfold Transaction_init, read_clock. cbn [ticks keys_generated rng].
  unfold connection_send, modify, blockchain_append_fitted_wrapped_block,
    append_fitted_wrapped_block, get_latest_block,
    _remove_served_trans_from_pending_trans, modify.
  cbn [blockchain set_sent set_world set_blockchain world]. rewrite Hlast.
  cbn [read_clock ticks].
  eexists _, _, _. split; [reflexivity |].
  cbn [sent set_sent set_world set_blockchain set_pending_transactions
         set_protocol_restart_flag blockchain add_block chain Block_init index
         previous_hash transactions pending_transactions protocol_restart_flag
         stakeholder_signatures_book].
  split; [reflexivity |]. split.
  { apply sign_fresh_wrapped_block; [exact Hcorrect | reflexivity | exact Hkeys]. }
  do 11 (split; [reflexivity |]).
  split; [| split; reflexivity].
  apply stamped_pool_is_served. exact Hset.
Qed.

(** X21.  A stakeholder signature received by a node that is not the Roy node
    of its header is filed without any check of its signature bytes, with the
    Roy flag false, and nothing else happens: nothing is sent, and chain,
    pending pool and restart flag are untouched, however many signatures the
    header has by then. *)
Theorem bystander_files_signature_unchecked :
  forall (e : Employee) (ss : StakeholderSignature) (committee : list (option string))
         (r : option string),
    fst (follow_the_coin (fst (calculate_hash (ss_block_header ss)))
           (blockchain e) (world e)) = Ok committee ->
    last committee = Some r ->
    r <> Some (name e) ->
    exists (e1 : Employee),
      collect_message (STAKEHOLDER_SIGNATURE ss) e = Ok (tt, e1)
      /\ stakeholder_signatures_book e1
         = add_signature_to_book ss (Some false) (stakeholder_signatures_book e)
      /\ sent e1 = sent e /\ blockchain e1 = blockchain e
      /\ pending_transactions e1 = pending_transactions e
      /\ protocol_restart_flag e1 = protocol_restart_flag e.
Proof.
  intros e ss committee r Hcoin Hlast Hnot.
  destruct (_am_i_roy_stakeholder_run _ e committee r Hcoin Hlast) as [w1 [Hroy _]].
  rewrite bool_decide_eq_false_2 in Hroy by congruence.
  eexists. split.
  - unfold collect_message, bind at 1. rewrite Hroy.
    unfold bind, modify, ret. reflexivity.
  - repeat split.
Qed.

End FurtherProperties.

(** *** What handling messages never changes *)

Section Evolution.

Context {env : PyEnv}.

Lemma evolves_refl (e : Employee) : evolves e e.
Proof. constructor; first [reflexivity | lia | tauto]. Qed.

Lemma evolves_trans (e e1 e2 : Employee) : evolves e e1 -> evolves e1 e2 -> evolves e e2.
Proof.
  intros [] []. constructor; first [congruence | etransitivity; eassumption | tauto].
Qed.

Lemma keeps_ret {A : Type} (a : A) : keeps (ret a).
Proof. intros e a' e1 [= _ <-]. apply evolves_refl. Qed.

Lemma keeps_raise {A : Type} (x : exn) : keeps (raise (A := A) x).
Proof. intros e a e1. discriminate. Qed.

Lemma keeps_lift {A : Type} (r : result A) : keeps (lift r).
Proof. intros e a e1. unfold lift. destruct r; [intros [= _ <-] | discriminate].
  apply evolves_refl. Qed.

Lemma keeps_gets {A : Type} (f : Employee -> A) : keeps (gets f).
Proof. intros e a e1 [= _ <-]. apply evolves_refl. Qed.

Lemma keeps_modify (f : Employee -> Employee) :
  (forall e, evolves e (f e)) -> keeps (modify f).
Proof. intros Hf e a e1 H. injection H as H. subst e1. apply Hf. Qed.

Lemma keeps_bind {A B : Type} (c : Proc A) (k : A -> Proc B) :
  keeps c -> (forall a, keeps (k a)) -> keeps (bind c k).
Proof.
  intros Hc Hk e b e2. unfold bind.
  destruct (c e) as [[a e1] | x] eqn:E; [| discriminate].
  intros Hrun. exact (evolves_trans _ _ _ (Hc e a e1 E) (Hk a e1 b e2 Hrun)).
Qed.

Lemma keeps_if {A : Type} (b : bool) (c1 c2 : Proc A) :
  keeps c1 -> keeps c2 -> keeps (if b then c1 else c2).
Proof. destruct b; tauto. Qed.

Lemma keeps_connection_send (m : Message) : keeps (connection_send m).
Proof.
  apply keeps_modify. intros e. constructor; cbn;
    first [reflexivity | lia | tauto | apply prefix_app_r; reflexivity].
Qed.

Lemma keeps_set_book (f : gmap string SSStage -> gmap string SSStage) :
  keeps (modify (fun e =>
           set_stakeholder_signatures_book (f (stakeholder_signatures_book e)) e)).
Proof.
  apply keeps_modify. intros e. constructor; cbn; first [reflexivity | lia | tauto].
Qed.

Lemma keeps_set_td_book (f : gmap string TDStage -> gmap string TDStage) :
  keeps (modify (fun e =>
           set_training_declarations_book (f (training_declarations_book e)) e)).
Proof.
  apply keeps_modify. intros e. constructor; cbn; first [reflexivity | lia | tauto].
Qed.

Lemma keeps_raise_flag : keeps (modify (set_protocol_restart_flag true)).
Proof.
  apply keeps_modify. intros e. constructor; cbn; first [reflexivity | lia | tauto].
Qed.

Lemma keeps_remove_served (reg_trans : list Transaction) :
  keeps (_remove_served_trans_from_pending_trans reg_trans).
Proof.
  apply keeps_modify. intros e. constructor; cbn; first [reflexivity | lia | tauto].
Qed.

Lemma keeps_follow_the_coin (rand_source : bytes) :
  keeps (blockchain_follow_the_coin rand_source).
Proof.
  intros e a e1. unfold blockchain_follow_the_coin.
  rewrite follow_the_coin_unfold.
  destruct (fst (random_sample _ _ _)) as [l | x]; [| discriminate].
  intros [= _ <-]. constructor; cbn; first [reflexivity | lia | tauto].
Qed.

Lemma keeps_append (wb : WrappedBlock) :
  keeps (blockchain_append_fitted_wrapped_block wb).
Proof.
  intros e a e1. unfold blockchain_append_fitted_wrapped_block.
  destruct (append_fitted_wrapped_block wb (blockchain e) (world e))
    as [[[bc1 warned] w1] | x] eqn:E; [| discriminate].
  intros Hret. injection Hret as Hret. subst e1.
  assert (Hshape : exists tip,
             last (chain (blockchain e)) = Some tip
             /\ w1 = snd (read_clock (world e))
             /\ owner_name bc1 = owner_name (blockchain e)
             /\ chain bc1 = (chain (blockchain e)
                              ++ [Block_init (index tip + 1) (hash tip)
                                    (datetime_now (ticks (world e)))
                                    (Some (wb_block_header wb))
                                    (Some (wb_coinbase_transaction wb))
                                    (wb_transactions wb)
                                    (Some (wb_stakeholders_signatures wb))])%list
             /\ all_transactions bc1
                = (all_transactions (blockchain e) ++ wb_transactions wb)%list).
  { unfold append_fitted_wrapped_block, get_latest_block in E.
    destruct (last (chain (blockchain e))) as [tip |]; [| discriminate].
    cbn [read_clock] in E. injection E as <- _ <-. exists tip. repeat split. }
  destruct Hshape as (tip & Hlast & -> & Hown & Hchain & Hall).
  constructor; cbn [name private_key employee_public_key td_coinstake_of bh_coinstake_of
                      model training_declaration training_secret employee_block_header
                      employee_user blockchain sent world protocol_restart_flag
                      set_world set_blockchain read_clock snd ticks keys_generated];
    try first [reflexivity | lia | tauto | exact Hown].
  - rewrite Hchain, List.map_app. apply prefix_app_r. reflexivity.
  - rewrite Hall. apply prefix_app_r. reflexivity.
  - intros (Hlink & Hcons & Haggr). unfold chain_kept. rewrite Hchain, Hall.
    split; [| split].
    + eapply chain_linked_snoc; [exact Hlink | exact Hlast | reflexivity | reflexivity].
    + apply Forall_app. split; [exact Hcons |].
      constructor; [intros _; apply Block_init_consistent | constructor].
    + rewrite List.map_app, concat_app, Haggr. cbn. rewrite app_nil_r. reflexivity.
Qed.

Lemma keeps__am_i_roy_stakeholder (bh : BlockHeader) : keeps (_am_i_roy_stakeholder bh).
Proof.
  unfold _am_i_roy_stakeholder.
  apply keeps_bind; [apply keeps_follow_the_coin | intros stakeholders].
  apply keeps_bind; [apply keeps_lift | intros roy_name].
  apply keeps_bind; [apply keeps_gets | intros self_name]. apply keeps_ret.
Qed.

Lemma keeps__perform_normal_stakeholder_procedure (bh : BlockHeader) :
  keeps (_perform_normal_stakeholder_procedure bh).
Proof.
  unfold _perform_normal_stakeholder_procedure.
  apply keeps_bind; [apply keeps_gets | intros sk].
  apply keeps_bind; [apply keeps_gets | intros pk].
  apply keeps_bind; [apply keeps__am_i_roy_stakeholder | intros is_roy].
  apply keeps_bind; [| intros _; apply keeps_connection_send].
  apply (keeps_set_book (add_signature_to_book _ _)).
Qed.

Lemma keeps__check_type_of_stakeholder (bh : BlockHeader) :
  keeps (_check_type_of_stakeholder bh).
Proof.
  unfold _check_type_of_stakeholder.
  apply keeps_bind; [apply keeps_follow_the_coin | intros stakeholders].
  apply keeps_bind; [apply keeps_gets | intros self_name].
  apply keeps_if; [apply keeps__perform_normal_stakeholder_procedure |].
  apply keeps_bind; [apply keeps_lift | intros roy_name]. apply keeps_ret.
Qed.

Lemma keeps__create_wrapped_block (bh : BlockHeader) : keeps (_create_wrapped_block bh).
Proof.
  unfold _create_wrapped_block, _get_pending_transactions_and_set_employee.
  apply keeps_bind.
  { apply keeps_bind; [apply keeps_gets | intros self_name].
    apply keeps_bind; [apply keeps_gets | intros pending]. apply keeps_ret. }
  intros active. apply keeps_bind; [apply keeps_gets | intros [m |]];
    [| apply keeps_raise].
  apply keeps_bind; [apply keeps_gets | intros book].
  apply keeps_bind; [apply keeps_gets | intros user].
  apply keeps_bind; [apply keeps_gets | intros pk].
  intros e wb e1.
  unfold WrappedBlock_init, message_init, CoinbaseUser_init, User_init, fresh_key_pair,
    read_clock.
  cbn [ticks keys_generated rng].
  destruct (generate_key_pair_bytes (keys_generated (world e))) as [csk cpk].
  unfold create_transaction. cbn [user_class]. unfold Transaction_init, read_clock.
  cbn [ticks keys_generated rng]. intros [= _ <-].
  constructor; cbn; first [reflexivity | lia | tauto].
Qed.

Lemma keeps__perform_roy_stakeholder_procedure (bh : BlockHeader) :
  keeps (_perform_roy_stakeholder_procedure bh).
Proof.
  unfold _perform_roy_stakeholder_procedure.
  apply keeps_bind; [apply keeps__create_wrapped_block | intros wb].
  apply keeps_bind; [apply keeps_gets | intros sk].
  apply keeps_bind; [apply keeps_connection_send | intros _].
  apply keeps_bind; [apply keeps_append | intros _].
  apply keeps_bind; [apply keeps_remove_served | intros _].
  apply keeps_raise_flag.
Qed.

Lemma keeps_collect_message (m : Message) : keeps (collect_message m).
Proof.
  destruct m as [t | bh | ss | wb | td | | | bc]; cbn [collect_message].
  - apply keeps_modify. intros e. constructor; cbn; first [reflexivity | lia | tauto].
  - apply keeps_bind; [apply keeps_lift | intros sound].
    apply keeps_if; [apply keeps__check_type_of_stakeholder | apply keeps_ret].
  - apply keeps_bind; [apply keeps__am_i_roy_stakeholder | intros is_roy].
    apply keeps_bind; [apply (keeps_set_book (add_signature_to_book _ _)) | intros _].
    apply keeps_if; [| apply keeps_ret].
    apply keeps_bind; [apply keeps_gets | intros n].
    apply keeps_if; [apply keeps__perform_roy_stakeholder_procedure | apply keeps_ret].
  - apply keeps_bind.
    { intros e a e1. unfold lift. destruct (get_latest_block (blockchain e));
        [intros [= _ <-]; apply evolves_refl | discriminate]. }
    intros latest. apply keeps_if; [apply keeps_ret |].
    apply keeps_bind; [apply keeps_lift | intros sound].
    apply keeps_if; [| apply keeps_ret].
    apply keeps_bind; [apply keeps_raise_flag | intros _].
    apply keeps_bind; [apply (keeps_set_book (ss_book_close _)) | intros _].
    apply keeps_bind; [apply keeps_append | intros _]. apply keeps_remove_served.
  - apply keeps_bind; [apply keeps_lift | intros sound].
    apply keeps_if; [| apply keeps_ret].
    apply (keeps_set_td_book (add_training_declaration_to_book _)).
  - apply keeps_ret.
  - apply keeps_raise.
  - apply keeps_raise.
Qed.

Lemma keeps__collect_messages (inbox : list Message) : keeps (_collect_messages inbox).
Proof.
  induction inbox as [| m inbox IH]; cbn [_collect_messages].
  - apply keeps_ret.
  - apply keeps_bind; [apply keeps_collect_message | intros _; exact IH].
Qed.

Lemma chain_kept_is_valid (bc : Blockchain) :
  chain_kept bc -> Forall (fun b => transactions b <> []) (chain bc) ->
  is_chain_valid bc = true.
Proof.
  intros (Hlink & Hcons & Haggr) Hfull. apply chain_sound_is_valid.
  split; [exact Hlink |]. split; [| exact Haggr].
  rewrite Forall_forall in Hcons, Hfull |- *.
  intros b Hb. exact (Hcons b Hb (Hfull b Hb)).
Qed.

(** X22.  Whatever messages [_collect_messages] handles, when it returns the
    node still has its name, keys, model, own training declaration and own
    block header; its chain, read without the signature lists of the blocks
    (a block appended by the Roy procedure shares its list with the
    signatures book, which goes on appending to it), its aggregated
    transactions and the list of messages it sent have only been extended; a
    restart flag that was raised is still raised; and a chain that was linked,
    with the stored hash right on every block that has transactions and with
    the aggregate right, still is, so that [is_chain_valid] accepts it when
    every block has transactions. *)
Theorem collect_messages_only_extends :
  forall (inbox : list Message) (e e1 : Employee),
    _collect_messages inbox e = Ok (tt, e1) ->
    name e1 = name e /\ private_key e1 = private_key e
    /\ employee_public_key e1 = employee_public_key e /\ model e1 = model e
    /\ training_declaration e1 = training_declaration e
    /\ employee_block_header e1 = employee_block_header e
    /\ map forget_signatures (chain (blockchain e))
       `prefix_of` map forget_signatures (chain (blockchain e1))
    /\ all_transactions (blockchain e) `prefix_of` all_transactions (blockchain e1)
    /\ sent e `prefix_of` sent e1
    /\ (protocol_restart_flag e = true -> protocol_restart_flag e1 = true)
    /\ (chain_kept (blockchain e) ->
        chain_kept (blockchain e1)
        /\ (Forall (fun b => transactions b <> []) (chain (blockchain e1)) ->
            is_chain_valid (blockchain e1) = true)).
Proof.
  intros inbox e e1 Hrun.
  destruct (keeps__collect_messages inbox e tt e1 Hrun)
    as [Hname Hsk Hpk _ _ Hmodel Htd _ Hbh _ _ Hchain Hall Hsent _ _ _ Hflag Hkept].
  repeat (split; [assumption |]).
  intros Hk. specialize (Hkept Hk). split; [exact Hkept |].
  exact (chain_kept_is_valid _ Hkept).
Qed.

End Evolution.

(** *** The broadcast fabric *)

Lemma _broadcast_message_lookup (message : Message) (excluded_list : option (list nat))
    (b : Broadcaster) (j : nat) :
  employees_connections (_broadcast_message message excluded_list b) !! j
  = (fun conn => if bool_decide (j ∈ default [] excluded_list) then conn
                 else (conn ++ [message])%list)
      <$> employees_connections b !! j.
Proof. unfold _broadcast_message. cbn [employees_connections]. apply list_lookup_imap. Qed.

(** X23.  A message from employee connection [i] that the fabric does not
    absorb is put at the end of every other employee connection and not on
    connection [i]; nothing goes to the simulation and the counters stay.  A
    message from the users puppeteer is put at the end of every employee
    connection. *)
Theorem relayed_message_reaches_all_but_sender :
  forall (i : nat) (recv_message : Message) (b : Broadcaster),
    absorbed recv_message = false ->
    length (employees_connections (relay_employee_message i recv_message b))
    = length (employees_connections b)
    /\ (forall (j : nat) (conn : list Message),
          employees_connections b !! j = Some conn ->
          employees_connections (relay_employee_message i recv_message b) !! j
          = Some (if bool_decide (j = i) then conn else (conn ++ [recv_message])%list)
          /\ employees_connections (_broadcast_message recv_message None b) !! j
             = Some (conn ++ [recv_message])%list)
    /\ simulation_conn (relay_employee_message i recv_message b) = simulation_conn b
    /\ should_stop (relay_employee_message i recv_message b) = should_stop b
    /\ finished_employees_num (relay_employee_message i recv_message b)
       = finished_employees_num b.
Proof.
  intros i m b Hm.
  assert (Hrelay : relay_employee_message i m b = _broadcast_message m (Some [i]) b)
    by (destruct m; try reflexivity; discriminate).
  rewrite Hrelay. split; [| split; [| repeat split]].
  - unfold _broadcast_message. cbn [employees_connections]. apply length_imap.
  - intros j conn Hj. rewrite !_broadcast_message_lookup, Hj. cbn [fmap option_fmap option_map default].
    split.
    + f_equal. destruct (decide (j = i)) as [-> | Hne].
      * rewrite !bool_decide_eq_true_2;
          [reflexivity | reflexivity | apply list_elem_of_singleton; reflexivity].
      * rewrite !bool_decide_eq_false_2;
          [reflexivity | exact Hne | intros Hin%list_elem_of_singleton; exact (Hne Hin)].
    + rewrite bool_decide_eq_false_2 by apply not_elem_of_nil. reflexivity.
Qed.

(** The two kinds of message the fabric absorbs reach no employee.
    [EMPLOYEE_FINISHED] is counted, and the count reaching [EMPLOYEES_NUM] sets
    [should_stop]; [RESULT_LOCAL_BLOCKCHAIN] goes to the simulation when it is
    the first of its kind and is discarded otherwise. *)
Lemma absorbed_messages_are_not_relayed :
  forall (i : nat) (bc : Blockchain) (b : Broadcaster),
    employees_connections (relay_employee_message i EMPLOYEE_FINISHED b)
    = employees_connections b
    /\ finished_employees_num (relay_employee_message i EMPLOYEE_FINISHED b)
       = finished_employees_num b + 1
    /\ should_stop (relay_employee_message i EMPLOYEE_FINISHED b)
       = (bool_decide (EMPLOYEES_NUM <= finished_employees_num b + 1) || should_stop b)
    /\ simulation_conn (relay_employee_message i EMPLOYEE_FINISHED b) = simulation_conn b
    /\ employees_connections (relay_employee_message i (RESULT_LOCAL_BLOCKCHAIN bc) b)
       = employees_connections b
    /\ simulation_conn (relay_employee_message i (RESULT_LOCAL_BLOCKCHAIN bc) b)
       = (if result_local_blockchain_sent b then simulation_conn b
          else simulation_conn b ++ [RESULT_LOCAL_BLOCKCHAIN bc])%list
    /\ result_local_blockchain_sent
         (relay_employee_message i (RESULT_LOCAL_BLOCKCHAIN bc) b) = true.
Proof.
  intros i bc b. cbn [relay_employee_message _register_finished_employee
    employees_connections finished_employees_num should_stop simulation_conn].
  split; [reflexivity |]. split; [reflexivity |].
  split; [destruct (bool_decide (EMPLOYEES_NUM <= finished_employees_num b + 1));
          reflexivity |].
  split; [reflexivity |].
  destruct (result_local_blockchain_sent b) eqn:E; cbn; repeat split; assumption.
Qed.






(** *** Waiting and declaring *)

Section WaitingProperties.

Context {env : PyEnv}.

Lemma check_meeting_pos_td_difficulty_signed (td : TrainingDeclaration) (sk : bytes) :
  check_meeting_pos_td_difficulty (sign td sk) = check_meeting_pos_td_difficulty td.
Proof. reflexivity. Qed.

Lemma check_meeting_pos_bh_difficulty_signed (bh : BlockHeader) (sk : bytes) :
  check_meeting_pos_bh_difficulty (sign bh sk) = check_meeting_pos_bh_difficulty bh.
Proof. reflexivity. Qed.

Lemma signed_declaration_is_sound (td : TrainingDeclaration) (sk : bytes) :
  ed25519_correct env -> td_signature td = None ->
  td_public_key td = ed25519_public_key sk ->
  check_meeting_pos_td_difficulty td = Ok true ->
  _verify_alien_message_soundness (AlienTD (sign td sk)) = Ok true.
Proof.
  intros Hcorrect Hsig Hpk Hmeets. unfold _verify_alien_message_soundness.
  rewrite (sign_fresh_training_declaration td sk Hcorrect Hsig Hpk).
  rewrite check_meeting_pos_td_difficulty_signed, Hmeets. reflexivity.
Qed.

Lemma same_stake_refl (td : TrainingDeclaration) : same_stake td td.
Proof. repeat split. Qed.

Lemma same_stake_trans (td td1 td2 : TrainingDeclaration) :
  same_stake td td1 -> same_stake td1 td2 -> same_stake td td2.
Proof.
  unfold same_stake. intros (? & ? & ? & ? & ? & ?) (? & ? & ? & ? & ? & ?).
  repeat split; congruence.
Qed.

(** X25.  However [_perform_pos_waiting_mechanism] ends on the node's unsigned
    training declaration, made under the node's key: the declaration the node
    then holds differs from the first one in timestamp and signature at most.
    When the method has returned with the restart flag down, that declaration
    is signed and sound by the check peers apply to it; when the flag is up or
    the method is still waiting, the declaration is unsigned as before. *)
Theorem pos_waiting_returns_sound_declaration :
  forall (turns : list WaitingTurn) (e : Employee) (td : TrainingDeclaration)
         (returned : bool) (e1 : Employee),
    ed25519_correct env ->
    training_declaration e = Some td ->
    td_signature td = None ->
    td_public_key td = ed25519_public_key (private_key e) ->
    _perform_pos_waiting_mechanism OwnTrainingDeclaration turns e = Ok (returned, e1) ->
    exists td1 : TrainingDeclaration,
      training_declaration e1 = Some td1
      /\ same_stake td td1
      /\ (protocol_restart_flag e1 = false -> returned = true ->
          _verify_alien_message_soundness (AlienTD td1) = Ok true)
      /\ (protocol_restart_flag e1 = true \/ returned = false ->
          td_signature td1 = None).
Proof.
  intros turns e td returned e1 Hcorrect. revert e td.
  induction turns as [| turn rest IH]; intros e td Htd Hsig Hpk Hrun.
  - cbn in Hrun. injection Hrun as <- <-. exists td.
    split; [exact Htd |]. split; [apply same_stake_refl |].
    split; [intros _ H; discriminate H | intros _; exact Hsig].
  - cbn [_perform_pos_waiting_mechanism] in Hrun. unfold bind at 1 in Hrun.
    destruct (_collect_messages (arrived turn) e) as [[[] e'] | x] eqn:Hcollect;
      [| discriminate].
    pose proof (keeps__collect_messages _ _ _ _ Hcollect) as Hev.
    pose proof (ev_training_declaration _ _ Hev) as Htd'.
    pose proof (ev_private_key _ _ Hev) as Hsk'.
    rewrite Htd in Htd'. unfold bind at 1, gets at 1 in Hrun.
    destruct (protocol_restart_flag e') eqn:Hflag.
    + injection Hrun as <- <-. exists td.
      split; [exact Htd' |]. split; [apply same_stake_refl |].
      split; [congruence | intros _; exact Hsig].
    + unfold bind at 1, gets at 1 in Hrun. rewrite Htd' in Hrun.
      unfold bind at 1, gets at 1 in Hrun. unfold bind at 1, lift at 1 in Hrun.
      destruct (pos_td_difficulty (td_coinstake_of e')) as [logged | x];
        [| discriminate].
      unfold bind at 1, lift at 1 in Hrun.
      destruct (check_meeting_pos_td_difficulty td) as [[|] | x] eqn:Hmeets;
        [| | discriminate].
      * cbn in Hrun. injection Hrun as <- <-. exists (sign td (private_key e')).
        cbn [training_declaration protocol_restart_flag set_training_declarations_book
               set_training_declaration].
        split; [reflexivity |]. split; [repeat split |].
        split.
        -- intros _ _. apply signed_declaration_is_sound; try assumption.
           rewrite Hsk'. exact Hpk.
        -- intros [Hup | Hfalse]; congruence.
      * unfold bind at 1, clock_now at 1 in Hrun. cbn [read_clock] in Hrun.
        unfold bind at 1, modify at 1 in Hrun.
        destruct (took_over_a_second turn); [discriminate |].
        match type of Hrun with
        | _perform_pos_waiting_mechanism _ _ ?e2 = _ =>
            destruct (IH e2 (set_timestamp td (datetime_now (ticks (world e')))))
              as (td1 & Htd1 & Hsame & Hsound & Hunsigned);
              [reflexivity | exact Hsig | cbn; rewrite Hsk'; exact Hpk | exact Hrun |]
        end.
        exists td1. split; [exact Htd1 |]. split; [| split; assumption].
        eapply same_stake_trans; [| exact Hsame]. repeat split.
Qed.

(** X26.  [_perform_pos_waiting_mechanism] on the node's unsigned block
    header, made under the node's key: when the method has returned with the
    restart flag down, the header the node holds carries a valid signature and
    meets its difficulty, and differs from the first one in timestamp and
    signature at most; when the flag is up or the method is still waiting, the
    header is unsigned as before. *)
Theorem pos_waiting_returns_signed_header :
  forall (turns : list WaitingTurn) (e : Employee) (bh : BlockHeader)
         (returned : bool) (e1 : Employee),
    ed25519_correct env ->
    employee_block_header e = Some bh ->
    bh_signature bh = None ->
    bh_public_key bh = ed25519_public_key (private_key e) ->
    _perform_pos_waiting_mechanism OwnBlockHeader turns e = Ok (returned, e1) ->
    exists bh1 : BlockHeader,
      employee_block_header e1 = Some bh1
      /\ same_header bh bh1
      /\ (protocol_restart_flag e1 = false -> returned = true ->
          signature_is_valid bh1 = Ok true
          /\ check_meeting_pos_bh_difficulty bh1 = Ok true)
      /\ (protocol_restart_flag e1 = true \/ returned = false ->
          bh_signature bh1 = None).
Proof.
  intros turns e bh returned e1 Hcorrect. revert e bh.
  induction turns as [| turn rest IH]; intros e bh Hbh Hsig Hpk Hrun.
  - cbn in Hrun. injection Hrun as <- <-. exists bh.
    split; [exact Hbh |]. split; [reflexivity |].
    split; [intros _ H; discriminate H | intros _; exact Hsig].
  - cbn [_perform_pos_waiting_mechanism] in Hrun. unfold bind at 1 in Hrun.
    destruct (_collect_messages (arrived turn) e) as [[[] e'] | x] eqn:Hcollect;
      [| discriminate].
    pose proof (keeps__collect_messages _ _ _ _ Hcollect) as Hev.
    pose proof (ev_block_header _ _ Hev) as Hbh'.
    pose proof (ev_private_key _ _ Hev) as Hsk'.
    rewrite Hbh in Hbh'. unfold bind at 1, gets at 1 in Hrun.
    destruct (protocol_restart_flag e') eqn:Hflag.
    + injection Hrun as <- <-. exists bh.
      split; [exact Hbh' |]. split; [reflexivity |].
      split; [congruence | intros _; exact Hsig].
    + unfold bind at 1, gets at 1 in Hrun. rewrite Hbh' in Hrun.
      unfold bind at 1, gets at 1 in Hrun. unfold bind at 1, lift at 1 in Hrun.
      destruct (pos_bh_difficulty (bh_coinstake_of e')) as [logged | x];
        [| discriminate].
      unfold bind at 1, lift at 1 in Hrun.
      destruct (check_meeting_pos_bh_difficulty bh) as [[|] | x] eqn:Hmeets;
        [| | discriminate].
      * cbn in Hrun. injection Hrun as <- <-. exists (sign bh (private_key e')).
        cbn [employee_block_header protocol_restart_flag set_employee_block_header].
        split; [reflexivity |]. split; [reflexivity |].
        split.
        -- intros _ _. split.
           ++ apply sign_fresh_block_header; try assumption. rewrite Hsk'. exact Hpk.
           ++ rewrite check_meeting_pos_bh_difficulty_signed. exact Hmeets.
        -- intros [Hup | Hfalse]; congruence.
      * unfold bind at 1, clock_now at 1 in Hrun. cbn [read_clock] in Hrun.
        unfold bind at 1, modify at 1 in Hrun.
        destruct (took_over_a_second turn); [discriminate |].
        match type of Hrun with
        | _perform_pos_waiting_mechanism _ _ ?e2 = _ =>
            destruct (IH e2 (set_timestamp bh (datetime_now (ticks (world e')))))
              as (bh1 & Hbh1 & Hsame & Hsound & Hunsigned);
              [reflexivity | exact Hsig | cbn; rewrite Hsk'; exact Hpk | exact Hrun |]
        end.
        exists bh1. split; [exact Hbh1 |]. split; [| split; assumption].
        unfold same_header in *. rewrite Hsame. reflexivity.
Qed.

(** X27.  A turn of [_perform_pos_waiting_mechanism] that finds the restart
    flag down and the message short of its difficulty, and that has taken more
    than a second, ends the method with [ValueError], whatever would have come
    after it. *)
Theorem slow_waiting_turn_raises :
  forall (turn : WaitingTurn) (rest : list WaitingTurn) (e e' : Employee),
    _collect_messages (arrived turn) e = Ok (tt, e') ->
    protocol_restart_flag e' = false ->
    took_over_a_second turn = true ->
    (forall td : TrainingDeclaration,
        training_declaration e = Some td ->
        check_meeting_pos_td_difficulty td = Ok false ->
        _perform_pos_waiting_mechanism OwnTrainingDeclaration (turn :: rest) e
        = Raise ValueError)
    /\ (forall bh : BlockHeader,
        employee_block_header e = Some bh ->
        check_meeting_pos_bh_difficulty bh = Ok false ->
        _perform_pos_waiting_mechanism OwnBlockHeader (turn :: rest) e
        = Raise ValueError).
Proof.
  intros turn rest e e' Hcollect Hflag Hslow.
  pose proof (keeps__collect_messages _ _ _ _ Hcollect) as Hev.
  split.
  - intros td Htd Hmisses. cbn [_perform_pos_waiting_mechanism].
    unfold bind at 1. rewrite Hcollect. unfold bind at 1, gets at 1. rewrite Hflag.
    unfold bind at 1, gets at 1. rewrite (ev_training_declaration _ _ Hev), Htd.
    unfold bind at 1, gets at 1. unfold bind at 1, lift at 1.
    unfold pos_td_difficulty.
    destruct (td_coinstake_of e' <=? 0)%Z; [reflexivity |].
    unfold bind at 1, lift at 1. rewrite Hmisses.
    unfold bind at 1, clock_now at 1. cbn [read_clock].
    unfold bind at 1, modify at 1. rewrite Hslow. reflexivity.
  - intros bh Hbh Hmisses. cbn [_perform_pos_waiting_mechanism].
    unfold bind at 1. rewrite Hcollect. unfold bind at 1, gets at 1. rewrite Hflag.
    unfold bind at 1, gets at 1. rewrite (ev_block_header _ _ Hev), Hbh.
    unfold bind at 1, gets at 1. unfold bind at 1, lift at 1.
    unfold pos_bh_difficulty.
    destruct (bh_coinstake_of e' <=? 0)%Z; [reflexivity |].
    unfold bind at 1, lift at 1. rewrite Hmisses.
    unfold bind at 1, clock_now at 1. cbn [read_clock].
    unfold bind at 1, modify at 1. rewrite Hslow. reflexivity.
Qed.

Lemma collect_sound_declarations (tds : list TrainingDeclaration) :
  Forall (fun td => _verify_alien_message_soundness (AlienTD td) = Ok true) tds ->
  forall e : Employee,
    _collect_messages (map TRAINING_DECLARATION tds) e
    = Ok (tt, set_training_declarations_book
                (foldl (fun book td => add_training_declaration_to_book td book)
                   (training_declarations_book e) tds) e).
Proof.
  induction 1 as [| td tds Hsound _ IH]; intros e.
  - destruct e; reflexivity.
  - cbn [map _collect_messages collect_message foldl].
    unfold bind at 1. unfold bind at 1. rewrite Hsound. cbn [lift modify].
    rewrite IH. destruct e; reflexivity.
Qed.

Lemma fold_declarations_open (id_s : string) (tds : list TrainingDeclaration) :
  Forall (fun td => td_id_s td = id_s) tds ->
  forall book : gmap string TDStage,
    (forall stage, book !! id_s = Some stage -> td_open stage = true) ->
    get_training_declarations_num id_s
      (foldl (fun book td => add_training_declaration_to_book td book) book tds)
    = get_training_declarations_num id_s book + length tds
    /\ (tds <> [] ->
        get_training_declarations id_s
          (foldl (fun book td => add_training_declaration_to_book td book) book tds)
        = Ok (match book !! id_s with
              | Some stage => stage_training_declarations stage
              | None => []
              end ++ tds)%list).
Proof.
  induction 1 as [| td tds Hid _ IH]; intros book Hopen.
  - cbn [foldl length]. split; [lia | congruence].
  - cbn [foldl length]. subst id_s.
    rewrite (add_training_declaration_open td book Hopen).
    match goal with
    | |- context [foldl _ ?b tds] =>
        destruct (IH b) as [Hnum Hlist]
    end.
    { intros stage. rewrite lookup_insert_eq. intros [= <-]. reflexivity. }
    split.
    + rewrite Hnum. unfold get_training_declarations_num.
      rewrite lookup_insert_eq. cbn [stage_training_declarations].
      destruct (book !! td_id_s td) as [stage |]; rewrite ?length_app; cbn [length]; lia.
    + intros _. destruct tds as [| td' tds'].
      * cbn [foldl]. unfold get_training_declarations. rewrite lookup_insert_eq.
        cbn [stage_training_declarations].
        destruct (book !! td_id_s td); reflexivity.
      * rewrite Hlist by discriminate. rewrite lookup_insert_eq.
        cbn [stage_training_declarations].
        destruct (book !! td_id_s td); cbn [app]; rewrite <- ?app_assoc; reflexivity.
Qed.

(** X28.  [_wait_for_training_declarations] returns at once, collecting
    nothing, when the stage already counts [EMPLOYER_CONFIDENCE] declarations.
    Otherwise one call of [_collect_messages] that receives sound training
    declarations of that stage, enough of them to reach
    [EMPLOYER_CONFIDENCE], ends the wait when the stage is not closed: they
    are filed after the ones the book had, in the order of arrival, and
    nothing else about the node changes. *)
Theorem sound_declarations_end_the_wait :
  forall (id_s : string) (tds : list TrainingDeclaration)
         (rest : list (list Message)) (e : Employee),
    Forall (fun td => _verify_alien_message_soundness (AlienTD td) = Ok true
                      /\ td_id_s td = id_s) tds ->
    (forall stage, training_declarations_book e !! id_s = Some stage ->
                   td_open stage = true) ->
    EMPLOYER_CONFIDENCE
    <= get_training_declarations_num id_s (training_declarations_book e) + length tds ->
    exists book : gmap string TDStage,
      _wait_for_training_declarations id_s (map TRAINING_DECLARATION tds :: rest) e
      = Ok (true, if bool_decide (get_training_declarations_num id_s
                                    (training_declarations_book e)
                                  < EMPLOYER_CONFIDENCE)
                  then set_training_declarations_book book e else e)
      /\ (get_training_declarations_num id_s (training_declarations_book e)
          < EMPLOYER_CONFIDENCE ->
          get_training_declarations id_s book
          = Ok (match training_declarations_book e !! id_s with
                | Some stage => stage_training_declarations stage
                | None => []
                end ++ tds)%list).
Proof.
  intros id_s tds rest e Htds Hopen Henough.
  exists (foldl (fun book td => add_training_declaration_to_book td book)
            (training_declarations_book e) tds).
  apply Forall_and in Htds as [Hsound Hids].
  destruct (fold_declarations_open id_s tds Hids _ Hopen) as [Hnum Hlist].
  split.
  - cbn [_wait_for_training_declarations]. case_bool_decide as Hfew; [| reflexivity].
    unfold bind. rewrite (collect_sound_declarations tds Hsound).
    destruct rest as [| inbox rest]; cbn [_wait_for_training_declarations];
      cbn [training_declarations_book set_training_declarations_book];
      rewrite Hnum; rewrite bool_decide_eq_false_2 by lia; reflexivity.
  - intros Hfew. apply Hlist. intros ->. cbn [length] in Henough. lia.
Qed.

(** X29.  [_create_training_declaration] raises [TypeError] while the node has
    no training secret, and [AttributeError] when it has a secret and no
    model.  With both, the declaration it returns is unsigned, carries the
    node's public key and coinstake and the stage of the model, and its
    commitment is a signature of the training secret that verifies under the
    node's key, as a block header holding that secret demands of an included
    declaration; the node reads its clock once and changes in nothing else. *)
Theorem own_declaration_commits_to_secret :
  forall (e : Employee),
    ed25519_correct env ->
    employee_public_key e = ed25519_public_key (private_key e) ->
    (training_secret e = None -> _create_training_declaration e = Raise TypeError)
    /\ (forall secret : bytes,
          training_secret e = Some secret -> model e = None ->
          _create_training_declaration e = Raise AttributeError)
    /\ (forall (secret : bytes) (m : Model),
          training_secret e = Some secret -> model e = Some m ->
          exists td : TrainingDeclaration,
            _create_training_declaration e
            = Ok (td, set_world (snd (read_clock (world e))) e)
            /\ td_signature td = None
            /\ td_public_key td = employee_public_key e
            /\ td_coinstake td = td_coinstake_of e
            /\ td_id_s td = get_id_s m
            /\ td_timestamp td = fst (read_clock (world e))
            /\ verify_signature (td_public_key td) secret
                 (Some (training_secret_commitment td)) = Ok true
            /\ check_included_training_declarations_loop secret [td] = Ok true).
Proof.
  intros e Hcorrect Hkey. unfold _create_training_declaration, bind, gets.
  split; [intros ->; reflexivity |].
  split; [intros secret -> ->; reflexivity |].
  intros secret m -> ->.
  unfold TrainingDeclaration_init, message_init. cbn [read_clock fst snd].
  eexists. split; [reflexivity |].
  cbn [td_signature td_public_key td_coinstake td_id_s td_timestamp
         training_secret_commitment check_included_training_declarations_loop].
  assert (Hverify : verify_signature (employee_public_key e) secret
                      (Some (sign_message (private_key e) secret)) = Ok true).
  { unfold verify_signature, sign_message. rewrite Hkey. apply Hcorrect. }
  rewrite Hverify. repeat split.
Qed.

End WaitingProperties.


(** ** The stub instance meets the contracts *)

Lemma stub_set_iter_names_is_set : set_iter_names_is_set Stub.stub_env.
Proof.
  intros seed l. cbn. destruct (Nat.even seed); [reflexivity |].
  apply reverse_Permutation.
Qed.

Lemma stub_random_draw_has_length : random_draw_has_length Stub.stub_env.
Proof. intros g population k Hle. cbn. rewrite length_take. lia. Qed.

Lemma stub_ed25519_correct : ed25519_correct Stub.stub_env.
Proof. intros sk message. cbn. rewrite bool_decide_eq_true_2; reflexivity. Qed.

Lemma stub_ed25519_binding : ed25519_binding Stub.stub_env.
Proof.
  intros sk message message' Hok. cbn in Hok.
  injection Hok as Hok. apply bool_decide_eq_true_1 in Hok.
  symmetry. exact (app_inv_head _ _ _ Hok).
Qed.

Lemma stub_pickle_td_shows_signature : pickle_td_shows_signature Stub.stub_env.
Proof. intros td s. cbn. discriminate. Qed.

(** ** Follow the coin across processes *)


(** ** The theorems at concrete inputs *)

#[local] Existing Instance Stub.stub_env.


Lemma roy_finalization_leaves_book_open_witness :
  exists (e1 e2 : Employee) (wb1 wb2 : WrappedBlock),
    collect_message (env := Stub.stub_env)
      (STAKEHOLDER_SIGNATURE (Stub.signature_by 2 Stub.sample_header)) Stub.sample_roy
    = Ok (tt, e1)
    /\ is_open "dnn:0" (stakeholder_signatures_book e1) = true
    /\ collect_message (env := Stub.stub_env)
         (STAKEHOLDER_SIGNATURE (Stub.signature_by 2 Stub.sample_header)) e1
       = Ok (tt, e2)
    /\ sent e2 = [WRAPPED_BLOCK wb1; WRAPPED_BLOCK wb2]
    /\ get_chain_length (blockchain e2) = 3.
Proof.
  destruct (roy_finalization_leaves_book_open (env := Stub.stub_env)
              Stub.sample_roy (Stub.signature_by 2 Stub.sample_header)
              (Stub.signature_by 2 Stub.sample_header) Stub.sample_model
              (Block_init (env := Stub.stub_env) 0 (encode "0") "1969-07-20 20:17:40"
                 None None (all_transactions Stub.sample_chain) None)
              [Some "A"; Some "B"; Some "C"])
    as (e1 & e2 & wb1 & wb2 & H1 & _ & _ & H2 & H3 & _ & H4 & _ & _ & H5);
    try (vm_compute; reflexivity).
  exists e1, e2, wb1, wb2. repeat split; assumption.
Defined.

Lemma sign_of_signed_message_does_not_verify_witness :
  td_signature Stub.signed_declaration = Some (Stub.stub_key 3)
  /\ verify_signature (env := Stub.stub_env)
       (public_key (sign Stub.signed_declaration (Stub.stub_key 9)))
       (fst (dumps_without_sig (sign Stub.signed_declaration (Stub.stub_key 9))))
       (signature (sign Stub.signed_declaration (Stub.stub_key 9))) = Ok false.
Proof.
  split; [reflexivity |].
  destruct (sign_of_signed_message_does_not_verify (env := Stub.stub_env)
              stub_ed25519_binding stub_pickle_td_shows_signature
              Stub.signed_declaration (Stub.stub_key 9) (Stub.stub_key 3))
    as (_ & _ & Hno); [reflexivity | reflexivity |].
  destruct (verify_signature _ _ _) as [[|] | x] eqn:E.
  - contradiction.
  - reflexivity.
  - vm_compute in E. discriminate E.
Defined.

(** C6, the claim as stated fails: the stage "dnn:0" is closed in the book and
    holds the signatures of one header; adding a signature on another header of
    the same stage changes the book, which now has an entry for that header. *)
Lemma add_signature_to_closed_stage_changes_book :
  exists (stage : SSStage),
    Stub.closed_ss_book !! bh_id_s (ss_block_header (Stub.signature_by 2 Stub.other_header))
    = Some stage
    /\ ss_open stage = false
    /\ add_signature_to_book (env := Stub.stub_env)
         (Stub.signature_by 2 Stub.other_header) (Some false) Stub.closed_ss_book
       <> Stub.closed_ss_book.
Proof.
  eexists. split; [vm_compute; reflexivity |]. split; [reflexivity |].
  intros Heq.
  apply (f_equal (fun book : gmap string SSStage =>
                    match book !! "dnn:0" with
                    | Some stage => size (sh_info stage)
                    | None => 0
                    end)) in Heq.
  vm_compute in Heq. discriminate Heq.
Qed.

Lemma add_to_closed_stage_appends_nothing_witness :
  add_training_declaration_to_book Stub.fresh_declaration Stub.closed_td_book
  = Stub.closed_td_book
  /\ add_signature_to_book (env := Stub.stub_env)
       (Stub.signature_by 2 Stub.sample_header) (Some false) Stub.closed_ss_book
     = Stub.closed_ss_book
  /\ get_signatures_num "dnn:0" (fst (get_id Stub.other_header))
       (add_signature_to_book (env := Stub.stub_env)
          (Stub.signature_by 2 Stub.other_header) (Some false) Stub.closed_ss_book)
     = get_signatures_num "dnn:0" (fst (get_id Stub.other_header)) Stub.closed_ss_book.
Proof.
  pose (td_stage := {| td_open := false;
                       stage_training_declarations := [Stub.fresh_declaration] |}).
  pose (ss_stage := {| ss_open := false;
                       sh_info := {[ fst (get_id Stub.sample_header)
                                     := {| sigs := [Stub.signature_by 1 Stub.sample_header];
                                           roy := Some false |} ]} |}).
  assert (Htd : Stub.closed_td_book !! "dnn:0" = Some td_stage)
    by (vm_compute; reflexivity).
  assert (Hss : Stub.closed_ss_book !! "dnn:0" = Some ss_stage)
    by (vm_compute; reflexivity).
  destruct (add_to_closed_stage_appends_nothing (env := Stub.stub_env)
              Stub.fresh_declaration Stub.closed_td_book td_stage
              (Stub.signature_by 2 Stub.sample_header) (Some false)
              Stub.closed_ss_book ss_stage Htd eq_refl Hss eq_refl)
    as (Hbook & Hknown & _ & _).
  destruct (add_to_closed_stage_appends_nothing (env := Stub.stub_env)
              Stub.fresh_declaration Stub.closed_td_book td_stage
              (Stub.signature_by 2 Stub.other_header) (Some false)
              Stub.closed_ss_book ss_stage Htd eq_refl Hss eq_refl)
    as (_ & _ & _ & Hsame).
  split; [exact Hbook |]. split.
  - apply Hknown. vm_compute. eexists. reflexivity.
  - exact (proj1 (proj2 (Hsame "dnn:0" (fst (get_id Stub.other_header))))).
Defined.

Lemma stale_wrapped_block_is_dropped_witness :
  block_index (wb_block_header Stub.sample_wrapped_block) = 0
  /\ collect_message (env := Stub.stub_env) (WRAPPED_BLOCK Stub.sample_wrapped_block)
       Stub.sample_roy
     = Ok (tt, Stub.sample_roy).
Proof.
  split; [reflexivity |].
  apply (stale_wrapped_block_is_dropped (env := Stub.stub_env) Stub.sample_roy
           Stub.sample_wrapped_block
           (Block_init (env := Stub.stub_env) 0 (encode "0") "1969-07-20 20:17:40"
              None None (all_transactions Stub.sample_chain) None)).
  - vm_compute. reflexivity.
  - cbn. lia.
Defined.

Lemma unknown_stage_queries_witness :
  td_book_close "dnn:1" Stub.closed_td_book = Raise KeyError
  /\ get_training_declarations "dnn:1" Stub.closed_td_book = Raise KeyError
  /\ get_training_declarations_num "dnn:1" Stub.closed_td_book = 0
  /\ ss_book_close "dnn:1" Stub.closed_ss_book = Stub.closed_ss_book
  /\ get_signatures_for_block_header "dnn:1" "30743100" Stub.closed_ss_book = []
  /\ get_signatures_num "dnn:1" "30743100" Stub.closed_ss_book = 0
  /\ is_open "dnn:1" Stub.closed_ss_book = true.
Proof.
  apply (unknown_stage_queries "dnn:1" "30743100"
           [TDAdd Stub.fresh_declaration; TDClose "dnn:0"]
           Stub.closed_td_book Stub.closed_ss_book).
  - vm_compute. reflexivity.
  - intros td Hin. apply list_elem_of_In in Hin.
    destruct Hin as [Hin | [Hin | []]]; [| discriminate Hin].
    injection Hin as <-. discriminate.
  - vm_compute. reflexivity.
Defined.

Lemma sign_then_verify_fresh_witness :
  signature_is_valid (env := Stub.stub_env) (sign Stub.fresh_declaration (Stub.stub_key 9))
  = Ok true
  /\ signature_is_valid (env := Stub.stub_env) (sign Stub.sample_header (Stub.stub_key 9))
     = Ok true
  /\ signature_is_valid (env := Stub.stub_env)
       (sign Stub.sample_wrapped_block (Stub.stub_key 9))
     = Ok true.
Proof.
  apply (sign_then_verify_fresh (env := Stub.stub_env) stub_ed25519_correct
           Stub.fresh_declaration Stub.sample_header Stub.sample_wrapped_block
           (Stub.stub_key 9));
    reflexivity.
Defined.

(** ** More contracts the stub instance meets *)

Lemma stub_random_draw_is_sample : random_draw_is_sample Stub.stub_env.
Proof.
  intros g population k _. cbn. split.
  - intros x Hx. exact (elem_of_sublist _ _ x Hx (sublist_take population k)).
  - intros Hnd. exact (sublist_NoDup _ _ Hnd (sublist_take population k)).
Qed.

Lemma stub_set_iter_transactions_is_set : set_iter_transactions_is_set Stub.stub_env.
Proof.
  intros seed l. cbn. induction l as [| t rest [IHin IHid]]; cbn [Stub.dedup_transactions].
  - split; [intros t H; exact H | intros t H; inversion H].
  - split.
    + intros t0 Ht0. apply elem_of_cons in Ht0 as [-> | Ht0]; [left |].
      right. apply list_elem_of_In, List.filter_In in Ht0 as [Ht0 _].
      apply IHin, list_elem_of_In, Ht0.
    + intros t0 Ht0. apply elem_of_cons in Ht0 as [-> | Ht0].
      * exists t. split; [left | reflexivity].
      * destruct (IHid t0 Ht0) as (t' & Hin' & Hid').
        destruct (decide (id t' = id t)) as [Heq | Hne].
        -- exists t. split; [left | congruence].
        -- exists t'. split; [| exact Hid']. right.
           apply list_elem_of_In, List.filter_In. split; [apply list_elem_of_In, Hin' |].
           rewrite bool_decide_eq_false_2 by exact Hne. reflexivity.
Qed.

(** ** The further theorems at concrete inputs *)

Lemma count_leading_zeros_is_a_bound_witness :
  3 <= 8 * length ["000"%byte; "031"%byte]
  /\ count_leading_zeros ["000"%byte; "031"%byte] <= 8 * length ["000"%byte; "031"%byte]
  /\ (3 <= count_leading_zeros ["000"%byte; "031"%byte]
      <-> (int_from_bytes_big ["000"%byte; "031"%byte]
           < 2 ^ N.of_nat (8 * length ["000"%byte; "031"%byte] - 3))%N).
Proof.
  split; [cbn; lia |].
  apply (count_leading_zeros_is_a_bound ["000"%byte; "031"%byte] 3). cbn. lia.
Defined.

Lemma is_chain_valid_misses_changes_witness :
  transactions Scenario.sample_tip <> []
  /\ is_chain_valid
       {| owner_name := "C";
          chain := Scenario.sample_tip
                   :: [] ++ with_stakeholders_signatures (Some []) Scenario.sample_tip :: [];
          all_transactions := [] |}
     = is_chain_valid
         {| owner_name := "C";
            chain := Scenario.sample_tip :: [] ++ Scenario.sample_tip :: [];
            all_transactions := [] |}.
Proof.
  assert (H : transactions Scenario.sample_tip <> []) by (vm_compute; discriminate).
  split; [exact H |].
  exact (is_chain_valid_misses_changes (env := Stub.stub_env) "C" []
           Scenario.sample_tip Scenario.sample_tip Scenario.sample_tip [] []
           (Some []) H eq_refl).
Defined.

Lemma committee_members_are_distinct_witness :
  fst (follow_the_coin (env := Stub.stub_env) (encode "seed") Stub.sample_chain
         Stub.sample_world)
  = Ok [Some "A"; Some "B"; Some "C"]
  /\ length [Some "A"; Some "B"; Some "C"] = STAKEHOLDERS_NUM
  /\ NoDup [Some "A"; Some "B"; Some "C"].
Proof.
  assert (H : fst (follow_the_coin (env := Stub.stub_env) (encode "seed")
                     Stub.sample_chain Stub.sample_world)
              = Ok [Some "A"; Some "B"; Some "C"]) by (vm_compute; reflexivity).
  split; [exact H |].
  destruct (committee_members_are_distinct (env := Stub.stub_env)
              stub_set_iter_names_is_set stub_random_draw_has_length
              stub_random_draw_is_sample (encode "seed") Stub.sample_chain
              Stub.sample_world [Some "A"; Some "B"; Some "C"] H) as (Hlen & Hnd & _).
  split; [exact Hlen | exact Hnd].
Defined.

Lemma header_built_on_tip_fits_witness :
  last (chain Stub.sample_chain) = Some Scenario.sample_tip
  /\ hash Scenario.sample_tip = Block_calculate_hash Scenario.sample_tip
  /\ exists (bc1 : Blockchain) (w1 : World) (b : Block),
       append_fitted_wrapped_block (env := Stub.stub_env) Scenario.fitting_wrapped_block
         Stub.sample_chain Stub.other_world = Ok (bc1, false, w1)
       /\ last (chain bc1) = Some b
       /\ index b = block_index (wb_block_header Scenario.fitting_wrapped_block)
       /\ previous_hash b
          = parent_block_hash (wb_block_header Scenario.fitting_wrapped_block).
Proof.
  assert (Hlast : last (chain Stub.sample_chain) = Some Scenario.sample_tip)
    by (vm_compute; reflexivity).
  assert (Hhash : hash Scenario.sample_tip = Block_calculate_hash Scenario.sample_tip)
    by reflexivity.
  split; [exact Hlast |]. split; [exact Hhash |].
  exact (header_built_on_tip_fits (env := Stub.stub_env) Stub.sample_model
           Stub.sample_chain Scenario.sample_tip [] BH_COINSTAKE (Stub.stub_key 9) []
           Stub.sample_world Stub.other_world "t9" (Some (Stub.stub_key 4))
           Scenario.fitting_wrapped_block Hlast Hhash eq_refl).
Defined.

Lemma add_training_declaration_appends_witness :
  get_training_declarations "dnn:0"
    (add_training_declaration_to_book Stub.fresh_declaration Scenario.open_td_book)
  = Ok [Stub.fresh_declaration; Stub.fresh_declaration]
  /\ get_training_declarations_num "dnn:0"
       (add_training_declaration_to_book Stub.fresh_declaration Scenario.open_td_book)
     = 2.
Proof.
  destruct (add_training_declaration_appends Stub.fresh_declaration
              Scenario.open_td_book) as (Hlist & Hnum & _).
  - intros stage Hstage. vm_compute in Hstage. injection Hstage as <-. reflexivity.
  - split; [exact Hlist | exact Hnum].
Defined.

Lemma td_book_close_freezes_stage_witness :
  td_book_close "dnn:0" Scenario.open_td_book = Ok Stub.closed_td_book
  /\ get_training_declarations "dnn:0" Stub.closed_td_book
     = get_training_declarations "dnn:0" Scenario.open_td_book
  /\ add_training_declaration_to_book Stub.fresh_declaration Stub.closed_td_book
     = Stub.closed_td_book
  /\ td_book_close "dnn:0" Stub.closed_td_book = Ok Stub.closed_td_book.
Proof.
  assert (H : td_book_close "dnn:0" Scenario.open_td_book = Ok Stub.closed_td_book)
    by (vm_compute; reflexivity).
  destruct (td_book_close_freezes_stage "dnn:0" Scenario.open_td_book
              Stub.closed_td_book H) as (Hlist & Hadd & Hclose & _).
  split; [exact H |]. split; [exact Hlist |].
  split; [exact (Hadd Stub.fresh_declaration eq_refl) | exact Hclose].
Defined.

Lemma add_signature_appends_witness :
  is_open "dnn:0" (∅ : gmap string SSStage) = true
  /\ get_signatures_for_block_header "dnn:0" (fst (get_id Stub.sample_header))
       (add_signature_to_book (env := Stub.stub_env)
          (Stub.signature_by 2 Stub.sample_header) (Some false) ∅)
     = [Stub.signature_by 2 Stub.sample_header].
Proof.
  assert (H : is_open "dnn:0" (∅ : gmap string SSStage) = true) by reflexivity.
  split; [exact H |].
  exact (proj1 (add_signature_appends (env := Stub.stub_env)
                  (Stub.signature_by 2 Stub.sample_header) (Some false) ∅ H)).
Defined.

Lemma self_signed_wrapped_block_is_sound_witness :
  wb_signature Stub.sample_wrapped_block = None
  /\ wb_public_key Stub.sample_wrapped_block = ed25519_public_key (Stub.stub_key 9)
  /\ _verify_alien_message_soundness (env := Stub.stub_env)
       (AlienWB (sign Stub.sample_wrapped_block (Stub.stub_key 9))) = Ok true.
Proof.
  split; [reflexivity |]. split; [reflexivity |].
  apply (self_signed_wrapped_block_is_sound (env := Stub.stub_env) stub_ed25519_correct
           Stub.sample_wrapped_block (Stub.stub_key 9) eq_refl eq_refl).
  constructor.
Defined.

Lemma sound_wrapped_block_is_accepted_witness :
  get_latest_block (blockchain Stub.sample_roy) = Ok Scenario.sample_tip
  /\ _verify_alien_message_soundness (env := Stub.stub_env)
       (AlienWB Scenario.next_wrapped_block) = Ok true
  /\ exists (e1 : Employee) (b : Block),
       collect_message (env := Stub.stub_env) (WRAPPED_BLOCK Scenario.next_wrapped_block)
         Stub.sample_roy = Ok (tt, e1)
       /\ chain (blockchain e1) = (chain (blockchain Stub.sample_roy) ++ [b])%list
       /\ index b = 1
       /\ transactions b = [Stub.sample_transaction]
       /\ protocol_restart_flag e1 = true.
Proof.
  assert (Htip : get_latest_block (blockchain Stub.sample_roy) = Ok Scenario.sample_tip)
    by (vm_compute; reflexivity).
  assert (Hsound : _verify_alien_message_soundness (env := Stub.stub_env)
                     (AlienWB Scenario.next_wrapped_block) = Ok true)
    by (vm_compute; reflexivity).
  assert (Hlt : index Scenario.sample_tip
                < block_index (wb_block_header Scenario.next_wrapped_block))
    by (cbn; lia).
  split; [exact Htip |]. split; [exact Hsound |].
  destruct (sound_wrapped_block_is_accepted (env := Stub.stub_env) Stub.sample_roy
              Scenario.next_wrapped_block Scenario.sample_tip Htip Hlt Hsound)
    as (e1 & b & Hrun & Hchain & Hindex & _ & _ & _ & Htxs & _ & _ & Hflag & _).
  exists e1, b. split; [exact Hrun |]. split; [exact Hchain |].
  split; [exact Hindex |]. split; [exact Htxs | exact Hflag].
Defined.

Lemma unsound_message_is_dropped_witness :
  get_latest_block (blockchain Stub.sample_roy) = Ok Scenario.sample_tip
  /\ _verify_alien_message_soundness (env := Stub.stub_env)
       (AlienTD Stub.signed_declaration) = Ok false
  /\ collect_message (env := Stub.stub_env) (TRAINING_DECLARATION Stub.signed_declaration)
       Stub.sample_roy = Ok (tt, Stub.sample_roy)
  /\ collect_message (env := Stub.stub_env) (BLOCK_HEADER Stub.sample_header)
       Stub.sample_roy = Raise TypeError.
Proof.
  assert (Htip : get_latest_block (blockchain Stub.sample_roy) = Ok Scenario.sample_tip)
    by (vm_compute; reflexivity).
  assert (Hbad : _verify_alien_message_soundness (env := Stub.stub_env)
                   (AlienTD Stub.signed_declaration) = Ok false)
    by (vm_compute; reflexivity).
  destruct (unsound_message_is_dropped (env := Stub.stub_env) Stub.sample_roy
              Scenario.sample_tip Stub.signed_declaration Stub.sample_header
              Stub.sample_wrapped_block Htip) as (Htd & _ & _ & Hraise).
  split; [exact Htip |]. split; [exact Hbad |]. split; [exact (Htd Hbad) |].
  apply (Hraise TypeError). vm_compute. reflexivity.
Defined.

Lemma remove_served_keeps_unserved_witness :
  exists e1 : Employee,
    _remove_served_trans_from_pending_trans (env := Stub.stub_env)
      [Stub.sample_transaction] Scenario.declaring_node = Ok (tt, e1)
    /\ e1 = set_pending_transactions (pending_transactions e1) Scenario.declaring_node
    /\ forall t, t ∈ pending_transactions e1 ->
         t ∈ pending_transactions Scenario.declaring_node
         /\ id t ∉ map id [Stub.sample_transaction].
Proof.
  destruct (remove_served_keeps_unserved (env := Stub.stub_env)
              stub_set_iter_transactions_is_set [Stub.sample_transaction]
              Scenario.declaring_node) as (e1 & Hrun & Hframe & Hleft & _).
  exists e1. split; [exact Hrun |]. split; [exact Hframe | exact Hleft].
Defined.

Lemma normal_stakeholder_signs_and_files_witness :
  fst (follow_the_coin (env := Stub.stub_env) (fst (calculate_hash Stub.sample_header))
         (blockchain Scenario.node_a) (world Scenario.node_a))
  = Ok [Some "A"; Some "B"; Some "C"]
  /\ exists (e1 : Employee) (ss : StakeholderSignature),
       _check_type_of_stakeholder (env := Stub.stub_env) Stub.sample_header
         Scenario.node_a = Ok (tt, e1)
       /\ sent e1 = (sent Scenario.node_a ++ [STAKEHOLDER_SIGNATURE ss])%list
       /\ ss_block_header ss = Stub.sample_header
       /\ ss_public_key ss = employee_public_key Scenario.node_a
       /\ verify_stakeholder_signatures_loop [ss] = Ok true.
Proof.
  assert (Hcoin : fst (follow_the_coin (env := Stub.stub_env)
                         (fst (calculate_hash Stub.sample_header))
                         (blockchain Scenario.node_a) (world Scenario.node_a))
                  = Ok [Some "A"; Some "B"; Some "C"]) by (vm_compute; reflexivity).
  split; [exact Hcoin |].
  destruct (normal_stakeholder_signs_and_files (env := Stub.stub_env)
              stub_ed25519_correct Scenario.node_a Stub.sample_header
              [Some "A"; Some "B"; Some "C"] eq_refl Hcoin)
    as (e1 & ss & Hrun & Hsent & Hbh & _ & Hpk & Hok & _).
  - cbn [removelast]. apply list_elem_of_here.
  - reflexivity.
  - exists e1, ss. repeat (split; [assumption |]). exact Hok.
Defined.

Lemma roy_procedure_wraps_and_appends_witness :
  model Stub.sample_roy = Some Stub.sample_model
  /\ get_latest_block (blockchain Stub.sample_roy) = Ok Scenario.sample_tip
  /\ exists (e1 : Employee) (wb : WrappedBlock) (b : Block),
       _perform_roy_stakeholder_procedure (env := Stub.stub_env) Stub.sample_header
         Stub.sample_roy = Ok (tt, e1)
       /\ sent e1 = (sent Stub.sample_roy ++ [WRAPPED_BLOCK wb])%list
       /\ signature_is_valid wb = Ok true
       /\ wb_block_header wb = Stub.sample_header
       /\ chain (blockchain e1) = (chain (blockchain Stub.sample_roy) ++ [b])%list
       /\ pending_transactions e1 = []
       /\ protocol_restart_flag e1 = true.
Proof.
  assert (Htip : get_latest_block (blockchain Stub.sample_roy) = Ok Scenario.sample_tip)
    by (vm_compute; reflexivity).
  split; [reflexivity |]. split; [exact Htip |].
  destruct (roy_procedure_wraps_and_appends (env := Stub.stub_env)
              stub_ed25519_correct stub_set_iter_transactions_is_set Stub.sample_roy
              Stub.sample_header Stub.sample_model Scenario.sample_tip eq_refl Htip
              eq_refl)
    as (e1 & wb & b & Hrun & Hsent & Hvalid & Hbh & _ & _ & _ & _ & _ & _ & Hchain
        & _ & _ & _ & Hpending & Hflag & _).
  exists e1, wb, b. repeat (split; [assumption |]). exact Hflag.
Defined.

Lemma bystander_files_signature_unchecked_witness :
  fst (follow_the_coin (env := Stub.stub_env)
         (fst (calculate_hash
                 (ss_block_header (Stub.signature_by 2 Stub.sample_header))))
         (blockchain Scenario.node_a) (world Scenario.node_a))
  = Ok [Some "A"; Some "B"; Some "C"]
  /\ exists e1 : Employee,
       collect_message (env := Stub.stub_env)
         (STAKEHOLDER_SIGNATURE (Stub.signature_by 2 Stub.sample_header))
         Scenario.node_a = Ok (tt, e1)
       /\ stakeholder_signatures_book e1
          = add_signature_to_book (Stub.signature_by 2 Stub.sample_header) (Some false)
              (stakeholder_signatures_book Scenario.node_a)
       /\ sent e1 = sent Scenario.node_a.
Proof.
  assert (Hcoin : fst (follow_the_coin (env := Stub.stub_env)
                         (fst (calculate_hash
                                 (ss_block_header
                                    (Stub.signature_by 2 Stub.sample_header))))
                         (blockchain Scenario.node_a) (world Scenario.node_a))
                  = Ok [Some "A"; Some "B"; Some "C"]) by (vm_compute; reflexivity).
  split; [exact Hcoin |].
  destruct (bystander_files_signature_unchecked (env := Stub.stub_env) Scenario.node_a
              (Stub.signature_by 2 Stub.sample_header) [Some "A"; Some "B"; Some "C"]
              (Some "C") Hcoin eq_refl)
    as (e1 & Hrun & Hbook & Hsent & _).
  - discriminate.
  - exists e1. split; [exact Hrun |]. split; [exact Hbook | exact Hsent].
Defined.

Lemma collect_messages_only_extends_witness :
  exists e1 : Employee,
    _collect_messages (env := Stub.stub_env)
      [TRANSACTION Stub.sample_transaction; WRAPPED_BLOCK Scenario.next_wrapped_block]
      Stub.sample_roy = Ok (tt, e1)
    /\ length (chain (blockchain e1)) = 2
    /\ map forget_signatures (chain (blockchain Stub.sample_roy))
       `prefix_of` map forget_signatures (chain (blockchain e1))
    /\ sent Stub.sample_roy `prefix_of` sent e1
    /\ chain_kept (blockchain e1)
    /\ is_chain_valid (blockchain e1) = true.
Proof.
  assert (Hrun : exists e1 : Employee,
             _collect_messages (env := Stub.stub_env)
               [TRANSACTION Stub.sample_transaction;
                WRAPPED_BLOCK Scenario.next_wrapped_block] Stub.sample_roy
             = Ok (tt, e1)
             /\ length (chain (blockchain e1)) = 2
             /\ Forall (fun b => transactions b <> []) (chain (blockchain e1))).
  { eexists. split; [vm_compute; reflexivity |]. split; [reflexivity |].
    repeat constructor; discriminate. }
  destruct Hrun as (e1 & Hrun & Hlen & Hfull).
  assert (Hkept : chain_kept (blockchain Stub.sample_roy)).
  { split; [| split].
    - intros i b b' _ Hb'. destruct i; discriminate.
    - repeat constructor.
    - reflexivity. }
  destruct (collect_messages_only_extends (env := Stub.stub_env) _ _ _ Hrun)
    as (_ & _ & _ & _ & _ & _ & Hchain & _ & Hsent & _ & Hkeeps).
  destruct (Hkeeps Hkept) as [Hkept1 Hvalid].
  exists e1. split; [exact Hrun |]. split; [exact Hlen |]. split; [exact Hchain |].
  split; [exact Hsent |]. split; [exact Hkept1 | exact (Hvalid Hfull)].
Defined.

Lemma relayed_message_reaches_all_but_sender_witness :
  absorbed EMPLOYEE_ALIVE = false
  /\ employees_connections
       (relay_employee_message 0 EMPLOYEE_ALIVE
          (Broadcaster_init 2)) !! 0 = Some []
  /\ employees_connections
       (relay_employee_message 0 EMPLOYEE_ALIVE
          (Broadcaster_init 2)) !! 1 = Some [EMPLOYEE_ALIVE].
Proof.
  split; [reflexivity |].
  destruct (relayed_message_reaches_all_but_sender 0
              EMPLOYEE_ALIVE (Broadcaster_init 2) eq_refl) as (_ & Hconn & _).
  split.
  - exact (proj1 (Hconn 0 [] eq_refl)).
  - exact (proj1 (Hconn 1 [] eq_refl)).
Defined.


Lemma pos_waiting_returns_sound_declaration_witness :
  _perform_pos_waiting_mechanism (env := Stub.stub_env) OwnTrainingDeclaration
    [Scenario.quick_turn] Scenario.declaring_node
  = Ok (true,
        set_training_declarations_book
          (add_training_declaration_to_book Scenario.sound_declaration ∅)
          (set_training_declaration (Some Scenario.sound_declaration)
             Scenario.declaring_node))
  /\ exists td1 : TrainingDeclaration,
       td1 = Scenario.sound_declaration
       /\ same_stake Stub.fresh_declaration td1
       /\ _verify_alien_message_soundness (env := Stub.stub_env) (AlienTD td1) = Ok true.
Proof.
  assert (Hrun : _perform_pos_waiting_mechanism (env := Stub.stub_env)
                   OwnTrainingDeclaration [Scenario.quick_turn] Scenario.declaring_node
                 = Ok (true,
                       set_training_declarations_book
                         (add_training_declaration_to_book Scenario.sound_declaration ∅)
                         (set_training_declaration (Some Scenario.sound_declaration)
                            Scenario.declaring_node))) by (vm_compute; reflexivity).
  split; [exact Hrun |].
  destruct (pos_waiting_returns_sound_declaration (env := Stub.stub_env)
              [Scenario.quick_turn] Scenario.declaring_node
              Stub.fresh_declaration true _ stub_ed25519_correct eq_refl eq_refl eq_refl
              Hrun) as (td1 & Htd1 & Hsame & Hsound & _).
  exists td1. split; [| split; [exact Hsame | exact (Hsound eq_refl eq_refl)]].
  cbn in Htd1. injection Htd1 as <-. reflexivity.
Defined.

Lemma pos_waiting_returns_signed_header_witness :
  _perform_pos_waiting_mechanism (env := Stub.stub_env) OwnBlockHeader
    [Scenario.quick_turn] Scenario.declaring_node
  = Ok (true,
        set_employee_block_header (Some (sign Stub.sample_header (Stub.stub_key 9)))
          Scenario.declaring_node)
  /\ exists bh1 : BlockHeader,
       bh1 = sign Stub.sample_header (Stub.stub_key 9)
       /\ signature_is_valid (env := Stub.stub_env) bh1 = Ok true
       /\ check_meeting_pos_bh_difficulty bh1 = Ok true.
Proof.
  assert (Hrun : _perform_pos_waiting_mechanism (env := Stub.stub_env) OwnBlockHeader
                   [Scenario.quick_turn] Scenario.declaring_node
                 = Ok (true,
                       set_employee_block_header
                         (Some (sign Stub.sample_header (Stub.stub_key 9)))
                         Scenario.declaring_node)) by (vm_compute; reflexivity).
  split; [exact Hrun |].
  destruct (pos_waiting_returns_signed_header (env := Stub.stub_env)
              [Scenario.quick_turn] Scenario.declaring_node
              Stub.sample_header true _ stub_ed25519_correct eq_refl eq_refl eq_refl
              Hrun) as (bh1 & Hbh1 & _ & Hsigned & _).
  exists bh1. split; [| exact (Hsigned eq_refl eq_refl)].
  cbn in Hbh1. injection Hbh1 as <-. reflexivity.
Defined.

Lemma slow_waiting_turn_raises_witness :
  check_meeting_pos_td_difficulty (env := Scenario.hard_env) Stub.fresh_declaration
  = Ok false
  /\ _perform_pos_waiting_mechanism (env := Scenario.hard_env) OwnTrainingDeclaration
       [Scenario.slow_turn; Scenario.quick_turn] Scenario.slow_node = Raise ValueError
  /\ _perform_pos_waiting_mechanism (env := Scenario.hard_env) OwnBlockHeader
       [Scenario.slow_turn; Scenario.quick_turn] Scenario.slow_node = Raise ValueError.
Proof.
  assert (Htd : check_meeting_pos_td_difficulty (env := Scenario.hard_env)
                  Stub.fresh_declaration = Ok false) by (vm_compute; reflexivity).
  assert (Hbh : check_meeting_pos_bh_difficulty (env := Scenario.hard_env)
                  Stub.sample_header = Ok false) by (vm_compute; reflexivity).
  split; [exact Htd |].
  destruct (slow_waiting_turn_raises (env := Scenario.hard_env) Scenario.slow_turn
              [Scenario.quick_turn] Scenario.slow_node Scenario.slow_node
              eq_refl eq_refl eq_refl) as [Hraise_td Hraise_bh].
  split.
  - exact (Hraise_td Stub.fresh_declaration eq_refl Htd).
  - exact (Hraise_bh Stub.sample_header eq_refl Hbh).
Defined.

Lemma sound_declarations_end_the_wait_witness :
  _verify_alien_message_soundness (env := Stub.stub_env)
    (AlienTD Scenario.sound_declaration) = Ok true
  /\ exists book : gmap string TDStage,
       _wait_for_training_declarations (env := Stub.stub_env) "dnn:0"
         [map TRAINING_DECLARATION
            [Scenario.sound_declaration; Scenario.sound_declaration;
             Scenario.sound_declaration]] Stub.sample_roy
       = Ok (true, set_training_declarations_book book Stub.sample_roy)
       /\ get_training_declarations "dnn:0" book
          = Ok [Scenario.sound_declaration; Scenario.sound_declaration;
                Scenario.sound_declaration].
Proof.
  assert (Hsound : _verify_alien_message_soundness (env := Stub.stub_env)
                     (AlienTD Scenario.sound_declaration) = Ok true)
    by (vm_compute; reflexivity).
  split; [exact Hsound |].
  destruct (sound_declarations_end_the_wait (env := Stub.stub_env) "dnn:0"
              [Scenario.sound_declaration; Scenario.sound_declaration;
               Scenario.sound_declaration] [] Stub.sample_roy)
    as (book & Hrun & Hlist).
  - repeat constructor; exact Hsound.
  - intros stage Hstage. vm_compute in Hstage. discriminate Hstage.
  - vm_compute. lia.
  - exists book. split; [exact Hrun |]. apply Hlist. vm_compute. lia.
Defined.

Lemma own_declaration_commits_to_secret_witness :
  employee_public_key Scenario.declaring_node
  = ed25519_public_key (private_key Scenario.declaring_node)
  /\ exists td : TrainingDeclaration,
       _create_training_declaration (env := Stub.stub_env) Scenario.declaring_node
       = Ok (td, set_world (snd (read_clock (world Scenario.declaring_node)))
                   Scenario.declaring_node)
       /\ td_signature td = None
       /\ td_public_key td = employee_public_key Scenario.declaring_node
       /\ check_included_training_declarations_loop (encode "secret") [td] = Ok true.
Proof.
  split; [reflexivity |].
  destruct (own_declaration_commits_to_secret (env := Stub.stub_env)
              Scenario.declaring_node stub_ed25519_correct eq_refl)
    as (_ & _ & Hmade).
  destruct (Hmade (encode "secret") Stub.sample_model eq_refl eq_refl)
    as (td & Hrun & Hsig & Hpk & _ & _ & _ & _ & Hincluded).
  exists td. repeat (split; [assumption |]). exact Hincluded.
Defined.
